(** * AIRESUMEAPP: the document store, the PDF renderer and the download route

    A shallow embedding of [src/app.py]: [save_to_pdf], [save_resume_data],
    [load_resume_data], [get_saved_resumes] and [download_resume], together
    with the parts of the Python runtime they call ([str] methods,
    [os.path.join], the file system, [json.dump] / [json.load], text-mode
    file objects), followed by the properties of the specification; then
    the rest of the program, the three generation functions, the home
    page [index] and the statements run at start-up, with further
    properties of the whole.

    Conventions.
    - A Python [str] is a list of Unicode code points ([N]); a file holds
      bytes (also [N], each below 256).  [py "..."] turns an ASCII literal
      into a [str].
    - Effects are explicit: a computation is a function from a [world]
      (file-system tree, working directory, standard output) to a result
      and a new world; a result is a value or a raised exception.
    - Paths follow [posixpath]; text files are UTF-8.
    - Outside the model: file permissions, quotas, name-length limits and
      symbolic links; the recursion and integer-size limits of the
      interpreter; ReportLab's page layout (a document is described by
      its story) and the grammar of its paragraph markup (kept abstract,
      see [Markup]); floating point (kept abstract, see [PyFloat]); the
      generative-text service, [markdown] and the rendering of templates
      (see [External] and [page]). *)

From stdpp Require Import gmap list strings.
From Stdlib Require Import NArith ZArith QArith Ascii DecimalString.

#[local] Set Warnings "-register-all".
#[local] Open Scope N_scope.

(** ** Python strings *)

Module PyStr.

Abbreviation str := (list N).

(** An ASCII literal as a [str]. *)
Fixpoint py (s : string) : str :=
  match s with
  | EmptyString => []
  | String a s' => N_of_ascii a :: py s'
  end.

(** Truth value of a [str]: the empty string is false. *)
Definition truthy (s : str) : bool :=
  match s with
  | [] => false
  | _ :: _ => true
  end.

(** [s.startswith(pre)] *)
Fixpoint startswith (pre s : str) : bool :=
  match pre, s with
  | [], _ => true
  | _ :: _, [] => false
  | p :: pre', c :: s' => (p =? c) && startswith pre' s'
  end.

(** [s.endswith(suf)] *)
Definition endswith (suf s : str) : bool :=
  startswith (reverse suf) (reverse s).

(** [sub in s] *)
Fixpoint contains (sub s : str) : bool :=
  startswith sub s ||
  match s with
  | [] => false
  | _ :: s' => contains sub s'
  end.

(** [s.replace(old, new)] for a non-empty [old]: non-overlapping
    occurrences are replaced from the left.  [skip] counts the
    characters of a matched occurrence that are still to be passed. *)
Fixpoint replace_from (old new : str) (skip : nat) (s : str) : str :=
  match s with
  | [] => []
  | c :: s' =>
      match skip with
      | S k => replace_from old new k s'
      | O =>
          if startswith old s
          then new ++ replace_from old new (length old - 1) s'
          else c :: replace_from old new 0 s'
      end
  end.

(** [s.replace(old, new)]; with an empty [old], Python inserts [new]
    before every character and at the end. *)
Definition replace (old new s : str) : str :=
  match old with
  | [] => new ++ flat_map (fun c => c :: new) s
  | _ :: _ => replace_from old new 0 s
  end.

(** [s.split(sep)] for a non-empty [sep] (Python raises [ValueError] on an
    empty separator; the program only splits on a newline). *)
Fixpoint split_from (sep : str) (skip : nat) (s : str) : list str :=
  match s with
  | [] => [[]]
  | c :: s' =>
      match skip with
      | S k => split_from sep k s'
      | O =>
          if startswith sep s
          then [] :: split_from sep (length sep - 1) s'
          else match split_from sep 0 s' with
               | h :: t => (c :: h) :: t
               | [] => [[c]]
               end
      end
  end.

Definition split (sep s : str) : list str := split_from sep 0 s.

(** [str.isspace] on one character: the code points CPython's
    [Py_UNICODE_ISSPACE] accepts. *)
Definition isspace (c : N) : bool :=
  ((9 <=? c) && (c <=? 13)) || ((28 <=? c) && (c <=? 32))
  || (c =? 133) || (c =? 160) || (c =? 5760)
  || ((8192 <=? c) && (c <=? 8202))
  || (c =? 8232) || (c =? 8233) || (c =? 8239) || (c =? 8287)
  || (c =? 12288).

Fixpoint lstrip (s : str) : str :=
  match s with
  | [] => []
  | c :: s' => if isspace c then lstrip s' else s
  end.

Definition rstrip (s : str) : str := reverse (lstrip (reverse s)).

(** [s.strip()] *)
Definition strip (s : str) : str := rstrip (lstrip s).

End PyStr.
Export PyStr.

(** ** [os.path] (posixpath) *)

Module OsPath.

Definition sep : str := py "/".

(** [os.path.join(a, b)] *)
Definition join (a b : str) : str :=
  if startswith sep b then b
  else if negb (truthy a) || endswith sep a then a ++ b
  else a ++ sep ++ b.

End OsPath.

(** ** Exceptions and results *)

(** The exception classes the program can meet, with their place in
    Python's class hierarchy ([JSONDecodeError] and [UnicodeDecodeError] are
    both [ValueError]s, and neither is the other). *)
Inductive exn_class :=
| BaseException | Exception
| OSError | FileNotFoundError | IsADirectoryError | NotADirectoryError
| ValueError | UnicodeError | UnicodeDecodeError | UnicodeEncodeError
| JSONDecodeError | TypeError | RecursionError
| HTTPException | NotFound.

#[global] Instance exn_class_eq_dec : EqDecision exn_class.
Proof. solve_decision. Defined.

(** The classes of a class's method resolution order, itself first. *)
Definition mro (c : exn_class) : list exn_class :=
  match c with
  | BaseException => [BaseException]
  | Exception => [Exception; BaseException]
  | OSError => [OSError; Exception; BaseException]
  | FileNotFoundError => [FileNotFoundError; OSError; Exception; BaseException]
  | IsADirectoryError => [IsADirectoryError; OSError; Exception; BaseException]
  | NotADirectoryError => [NotADirectoryError; OSError; Exception; BaseException]
  | ValueError => [ValueError; Exception; BaseException]
  | UnicodeError => [UnicodeError; ValueError; Exception; BaseException]
  | UnicodeDecodeError =>
      [UnicodeDecodeError; UnicodeError; ValueError; Exception; BaseException]
  | UnicodeEncodeError =>
      [UnicodeEncodeError; UnicodeError; ValueError; Exception; BaseException]
  | JSONDecodeError => [JSONDecodeError; ValueError; Exception; BaseException]
  | TypeError => [TypeError; Exception; BaseException]
  | RecursionError => [RecursionError; Exception; BaseException]
  | HTTPException => [HTTPException; Exception; BaseException]
  | NotFound => [NotFound; HTTPException; Exception; BaseException]
  end.

Definition issubclass (c d : exn_class) : bool := bool_decide (d ∈ mro c).

(** A raised exception: its class and the datum it carries (the file name of
    an [OSError], the document of a [JSONDecodeError], the message or
    description otherwise). *)
Record exn := Exn { exn_cls : exn_class; exn_detail : str }.

Inductive result (A : Type) :=
| Ret (a : A)
| Raise (e : exn).
Arguments Ret {A} a.
Arguments Raise {A} e.

(** The HTTP status a raised exception stands for, when it is one of
    werkzeug's. *)
Definition http_status (e : exn) : option N :=
  match exn_cls e with
  | NotFound => Some 404
  | _ => None
  end.

(** ** ReportLab flowables *)

Module ReportLab.

Inductive style := Title | Heading2 | Normal.

(** A flowable of a story.  A [Paragraph] keeps the markup source it was
    made from; lengths are in points, as exact rationals. *)
Inductive flowable :=
| Paragraph (text : str) (st : style)
| Spacer (width height : Q).

Definition inch : Q := 72.

(** ReportLab reads the text of a paragraph as markup when the paragraph
    is made, and raises [ValueError] for a text it cannot parse (one with
    an unclosed tag, for instance).  Its parser is kept abstract:
    [well_formed] says which texts it accepts.  The two texts the program
    writes itself, the title and the placeholder, are among them. *)
Class Markup := {
  well_formed : str → bool;
  title_well_formed : well_formed (py "<b>Resume</b>") = true;
  placeholder_well_formed : well_formed (py "No content available.") = true
}.

(** [Paragraph(text, style)] *)
Definition paragraph `{Markup} (text : str) (st : style) : result flowable :=
  if well_formed text then Ret (Paragraph text st)
  else Raise (Exn ValueError text).

End ReportLab.
Export ReportLab.

(** Sequencing of steps that can raise, without state. *)
Definition rbind {A B} (r : result A) (k : A → result B) : result B :=
  match r with
  | Ret a => k a
  | Raise e => Raise e
  end.

(** ** The file system and the world *)

(** What a regular file holds: bytes, or the binary document ReportLab
    built from a story (described by that story). *)
Inductive content :=
| Bytes (b : list N)
| Document (story : list flowable).

(** A file-system tree.  A directory maps entry names to nodes. *)
Inductive node :=
| File (c : content)
| Dir (entries : gmap str node).

(** One piece of a printed f-string: literal text, or [str(e)] of an
    exception. *)
Inductive fragment :=
| Lit (s : str)
| StrOf (e : exn).

(** The state a call runs in: the tree from the root, the working
    directory (names from the root) and the lines printed so far. *)
Record world := World {
  root : node;
  cwd : list str;
  stdout : list (list fragment)
}.

(** Computations: state passing with exceptions.  A raised exception
    keeps the state reached. *)
Definition M (A : Type) : Type := world → result A * world.

Definition ret {A} (a : A) : M A := fun w => (Ret a, w).

Definition raise {A} (e : exn) : M A := fun w => (Raise e, w).

Definition bind {A B} (c : M A) (k : A → M B) : M B :=
  fun w =>
    match c w with
    | (Ret a, w') => k a w'
    | (Raise e, w') => (Raise e, w')
    end.

Declare Scope py_scope.
Delimit Scope py_scope with py_scope.
Notation "x <- c ;; k" := (bind c (fun x => k))
  (at level 100, c at next level, right associativity) : py_scope.
Notation "c ;; k" := (bind c (fun _ => k))
  (at level 100, right associativity) : py_scope.
#[local] Open Scope py_scope.

(** [try: body  except cls as e: handler e] *)
Definition try_except {A} (cls : exn_class) (body : M A) (handler : exn → M A)
  : M A :=
  fun w =>
    match body w with
    | (Ret a, w') => (Ret a, w')
    | (Raise e, w') =>
        if issubclass (exn_cls e) cls then handler e w' else (Raise e, w')
    end.

(** [print(f"...")] *)
Definition print (line : list fragment) : M unit :=
  fun w => (Ret tt, World (root w) (cwd w) (stdout w ++ [line])).

Module Os.

(** The node at a location given by names from [n]. *)
Fixpoint lookup (n : node) (loc : list str) : option node :=
  match loc with
  | [] => Some n
  | c :: loc' =>
      match n with
      | Dir es =>
          match es !! c with
          | Some n' => lookup n' loc'
          | None => None
          end
      | File _ => None
      end
  end.

(** Puts [new] at [loc] below [n]; the parent of [loc] is a directory of
    [n] wherever this is used. *)
Fixpoint write_at (loc : list str) (new : node) (n : node) : node :=
  match loc with
  | [] => new
  | c :: loc' =>
      match n with
      | Dir es =>
          match loc', es !! c with
          | [], _ => Dir (<[c:=new]> es)
          | _ :: _, Some n' => Dir (<[c:=write_at loc' new n']> es)
          | _ :: _, None => n
          end
      | File _ => n
      end
  end.

(** Path resolution, one component at a time from the directory [cur]:
    the directory walked through must exist; an empty component and [.]
    stay, [..] goes to the parent (the root is its own parent).  The last
    component need not exist.  [path] is the name reported on failure. *)
Fixpoint walk (path : str) (rt : node) (cur : list str) (comps : list str)
  : result (list str) :=
  match comps with
  | [] => Ret cur
  | c :: rest =>
      match lookup rt cur with
      | Some (Dir _) =>
          if bool_decide (c = []) || bool_decide (c = py ".")
          then walk path rt cur rest
          else if bool_decide (c = py "..")
          then walk path rt (removelast cur) rest
          else walk path rt (cur ++ [c]) rest
      | Some (File _) => Raise (Exn NotADirectoryError path)
      | None => Raise (Exn FileNotFoundError path)
      end
  end.

(** The location a path names: relative paths start at the working
    directory.  A path with a NUL character is refused with [ValueError],
    the empty path with [FileNotFoundError]. *)
Definition resolve (w : world) (path : str) : result (list str) :=
  if bool_decide (0 ∈ path) then Raise (Exn ValueError (py "embedded null byte"))
  else if negb (truthy path) then Raise (Exn FileNotFoundError path)
  else walk path (root w) (if startswith OsPath.sep path then [] else cwd w)
         (split OsPath.sep path).

(** [os.stat(path)], as the node found. *)
Definition stat (w : world) (path : str) : result node :=
  match resolve w path with
  | Ret loc =>
      match lookup (root w) loc with
      | Some n => Ret n
      | None => Raise (Exn FileNotFoundError path)
      end
  | Raise e => Raise e
  end.

(** [os.path.exists(path)]: [os.stat] with [OSError] and [ValueError]
    turned into [False]. *)
Definition path_exists (path : str) : M bool :=
  fun w =>
    match stat w path with
    | Ret _ => (Ret true, w)
    | Raise e =>
        if issubclass (exn_cls e) OSError || issubclass (exn_cls e) ValueError
        then (Ret false, w) else (Raise e, w)
    end.

(** [os.listdir(path)]: the entry names of a directory, in the order the
    directory enumerates them. *)
Definition listdir (path : str) : M (list str) :=
  fun w =>
    match stat w path with
    | Ret (Dir es) => (Ret (map fst (map_to_list es)), w)
    | Ret (File _) => (Raise (Exn NotADirectoryError path), w)
    | Raise e => (Raise e, w)
    end.

(** [open(path, "w")] up to the creation or truncation of the file; the
    handle is the file's location. *)
Definition open_w (path : str) : M (list str) :=
  fun w =>
    match resolve w path with
    | Ret loc =>
        match lookup (root w) loc with
        | Some (Dir _) => (Raise (Exn IsADirectoryError path), w)
        | _ =>
            (Ret loc,
             World (write_at loc (File (Bytes [])) (root w)) (cwd w) (stdout w))
        end
    | Raise e => (Raise e, w)
    end.

(** [open(path, "r")]: the file must exist and be a regular file. *)
Definition open_r (path : str) : M (list str) :=
  fun w =>
    match resolve w path with
    | Ret loc =>
        match lookup (root w) loc with
        | Some (File _) => (Ret loc, w)
        | Some (Dir _) => (Raise (Exn IsADirectoryError path), w)
        | None => (Raise (Exn FileNotFoundError path), w)
        end
    | Raise e => (Raise e, w)
    end.

End Os.

(** ** Text files: UTF-8 and universal newlines *)

Module Codec.

Definition is_surrogate (c : N) : bool := (0xD800 <=? c) && (c <=? 0xDFFF).

Definition is_cont (b : N) : bool := (0x80 <=? b) && (b <=? 0xBF).

(** Strict UTF-8 encoding of one code point; surrogates and values past
    U+10FFFF have none. *)
Definition utf8_encode_char (c : N) : option (list N) :=
  if c <? 0x80 then Some [c]
  else if c <? 0x800 then Some [0xC0 + c / 64; 0x80 + c mod 64]
  else if is_surrogate c then None
  else if c <? 0x10000
  then Some [0xE0 + c / 4096; 0x80 + (c / 64) mod 64; 0x80 + c mod 64]
  else if c <? 0x110000
  then Some [0xF0 + c / 262144; 0x80 + (c / 4096) mod 64;
             0x80 + (c / 64) mod 64; 0x80 + c mod 64]
  else None.

Fixpoint utf8_encode (s : str) : option (list N) :=
  match s with
  | [] => Some []
  | c :: s' =>
      match utf8_encode_char c, utf8_encode s' with
      | Some b, Some bs => Some (b ++ bs)
      | _, _ => None
      end
  end.

(** Strict UTF-8 decoding: overlong forms, surrogates, values past
    U+10FFFF, stray continuation bytes and truncated sequences are
    refused. *)
Fixpoint utf8_decode (b : list N) : option str :=
  match b with
  | [] => Some []
  | b0 :: r0 =>
      if b0 <? 0x80 then cons b0 <$> utf8_decode r0
      else if (0xC2 <=? b0) && (b0 <=? 0xDF) then
        match r0 with
        | b1 :: r1 =>
            if is_cont b1
            then cons ((b0 - 0xC0) * 64 + (b1 - 0x80)) <$> utf8_decode r1
            else None
        | _ => None
        end
      else if (0xE0 <=? b0) && (b0 <=? 0xEF) then
        match r0 with
        | b1 :: b2 :: r2 =>
            let c := (b0 - 0xE0) * 4096 + (b1 - 0x80) * 64 + (b2 - 0x80) in
            if is_cont b1 && is_cont b2 && (0x800 <=? c) && negb (is_surrogate c)
            then cons c <$> utf8_decode r2
            else None
        | _ => None
        end
      else if (0xF0 <=? b0) && (b0 <=? 0xF4) then
        match r0 with
        | b1 :: b2 :: b3 :: r3 =>
            let c := (b0 - 0xF0) * 262144 + (b1 - 0x80) * 4096
                     + (b2 - 0x80) * 64 + (b3 - 0x80) in
            if is_cont b1 && is_cont b2 && is_cont b3
               && (0x10000 <=? c) && (c <? 0x110000)
            then cons c <$> utf8_decode r3
            else None
        | _ => None
        end
      else None
  end.

(** Reading in text mode with the default [newline=None]: [\r\n] and a
    lone [\r] become [\n]. *)
Definition universal_newlines (s : str) : str :=
  replace [13] [10] (replace [13; 10] [10] s).

Definition file_bytes (n : option node) : list N :=
  match n with
  | Some (File (Bytes b)) => b
  | _ => []
  end.

(** [f.write(text)] on a file opened for writing in text mode. *)
Definition file_write (f : list str) (text : str) : M unit :=
  fun w =>
    match utf8_encode text with
    | Some b =>
        (Ret tt,
         World (Os.write_at f
                  (File (Bytes (file_bytes (Os.lookup (root w) f) ++ b)))
                  (root w))
               (cwd w) (stdout w))
    | None => (Raise (Exn UnicodeEncodeError text), w)
    end.

(** [f.read()] on a file opened for reading in text mode.  The document
    ReportLab writes starts with a binary marker that is not UTF-8. *)
Definition file_read (f : list str) : M str :=
  fun w =>
    match Os.lookup (root w) f with
    | Some (File (Bytes b)) =>
        match utf8_decode b with
        | Some s => (Ret (universal_newlines s), w)
        | None => (Raise (Exn UnicodeDecodeError []), w)
        end
    | Some (File (Document _)) => (Raise (Exn UnicodeDecodeError []), w)
    | _ => (Raise (Exn ValueError (py "I/O operation on closed file.")), w)
    end.

(** [with open(path, "w") as f: body f] *)
Definition with_open_w {A} (path : str) (body : list str → M A) : M A :=
  f <- Os.open_w path ;; body f.

(** [with open(path, "r") as f: body f] *)
Definition with_open_r {A} (path : str) (body : list str → M A) : M A :=
  f <- Os.open_r path ;; body f.

End Codec.

(** ** Python values and the [json] module *)

(** Floating point is kept abstract: a type of floats, [float(text)] on the
    numerals and constants the JSON scanner hands it, and the text
    [json.encoder] prints for a float. *)
Class PyFloat := {
  float : Type;
  float_of_literal : str → float;
  floatstr : float → str
}.

Module Json.

Section Values.
Context `{PyFloat}.

(** The Python objects [json] knows, with string-keyed dictionaries in
    insertion order, and [PObject] for an object of any other type (named
    by its class), which [json] cannot serialise. *)
Inductive pyvalue :=
| PNone
| PBool (b : bool)
| PInt (z : Z)
| PFloat (x : float)
| PStr (s : str)
| PList (xs : list pyvalue)
| PDict (items : list (str * pyvalue))
| PObject (class_name : str).

(** *** Encoding ([ensure_ascii=True], [indent=4]) *)

Definition hex_digit (d : N) : N := if d <? 10 then 48 + d else 87 + d.

(** ['{0:04x}'.format(n)] for [n] below 65536 *)
Definition hex4 (n : N) : str :=
  [hex_digit (n / 4096 mod 16); hex_digit (n / 256 mod 16);
   hex_digit (n / 16 mod 16); hex_digit (n mod 16)].

(** The replacement of one character by [py_encode_basestring_ascii]:
    the short escapes, the character itself from space to tilde, [\uXXXX]
    below U+10000 and a surrogate pair above. *)
Definition escape_char (c : N) : str :=
  if c =? 92 then [92; 92]
  else if c =? 34 then [92; 34]
  else if c =? 8 then py "\b"
  else if c =? 12 then py "\f"
  else if c =? 10 then py "\n"
  else if c =? 13 then py "\r"
  else if c =? 9 then py "\t"
  else if (32 <=? c) && (c <=? 126) then [c]
  else if c <? 0x10000 then py "\u" ++ hex4 c
  else
    let n := c - 0x10000 in
    py "\u" ++ hex4 (N.lor 0xD800 (N.land (N.shiftr n 10) 0x3FF))
    ++ py "\u" ++ hex4 (N.lor 0xDC00 (N.land n 0x3FF)).

Definition encode_basestring_ascii (s : str) : str :=
  [34] ++ flat_map escape_char s ++ [34].

(** [int.__repr__] *)
Definition intstr (z : Z) : str := py (NilZero.string_of_int (Z.to_int z)).

(** What an encoder has produced: the text yielded so far and the
    exception that stopped it, if any. *)
Definition emit : Type := str * option exn.

Definition emit_text (s : str) : emit := (s, None).

Definition emit_then (a b : emit) : emit :=
  match a with
  | (s, None) => (s ++ fst b, snd b)
  | (s, Some e) => (s, Some e)
  end.

(** ['\n' + ' ' * 4 * level] *)
Definition newline_indent (level : nat) : str := 10 :: repeat 32 (4 * level)%nat.

(** The loop over the items of a list or dictionary: the separator before
    every item but the first, then the item. *)
Definition emit_items {A} (separator : str) (encode : A → emit)
  : bool → list A → emit :=
  fix items (first : bool) (xs : list A) : emit :=
    match xs with
    | [] => emit_text []
    | x :: xs' =>
        emit_then (emit_text (if first then [] else separator))
          (emit_then (encode x) (items false xs'))
    end.

(** [JSONEncoder(indent=4).iterencode(o)], as the concatenation of the
    chunks yielded.  The item separator is [","] and the key separator
    [": "]. *)
Fixpoint iterencode (level : nat) (o : pyvalue) : emit :=
  match o with
  | PStr s => emit_text (encode_basestring_ascii s)
  | PNone => emit_text (py "null")
  | PBool true => emit_text (py "true")
  | PBool false => emit_text (py "false")
  | PInt z => emit_text (intstr z)
  | PFloat x => emit_text (floatstr x)
  | PList [] => emit_text (py "[]")
  | PList xs =>
      emit_then (emit_text (py "[" ++ newline_indent (S level)))
        (emit_then
           (emit_items (py "," ++ newline_indent (S level))
              (iterencode (S level)) true xs)
           (emit_text (newline_indent level ++ py "]")))
  | PDict [] => emit_text (py "{}")
  | PDict items =>
      emit_then (emit_text (py "{" ++ newline_indent (S level)))
        (emit_then
           (emit_items (py "," ++ newline_indent (S level))
              (fun '(k, v) =>
                 emit_then (emit_text (encode_basestring_ascii k ++ py ": "))
                   (iterencode (S level) v))
              true items)
           (emit_text (newline_indent level ++ py "}")))
  | PObject class_name =>
      ([], Some (Exn TypeError
                   (py "Object of type " ++ class_name
                    ++ py " is not JSON serializable")))
  end.

(** [json.dump(obj, fp, indent=4)]: the chunks are written as they come,
    so what was yielded before a failure stays in the file. *)
Definition dump (obj : pyvalue) (fp : list str) : M unit :=
  let '(text, failure) := iterencode 0 obj in
  Codec.file_write fp text ;;
  match failure with
  | Some e => raise e
  | None => ret tt
  end.

(** *** Decoding *)

(** The outcome of a scanner: a value and the text after it, no match, or
    the recursion budget used up. *)
Inductive scan (A : Type) :=
| Scanned (a : A) (rest : str)
| NoMatch
| Exhausted.
Arguments Scanned {A} a rest.
Arguments NoMatch {A}.
Arguments Exhausted {A}.

Definition is_ws (c : N) : bool :=
  (c =? 32) || (c =? 9) || (c =? 10) || (c =? 13).

Fixpoint skip_ws (s : str) : str :=
  match s with
  | [] => []
  | c :: s' => if is_ws c then skip_ws s' else s
  end.

Definition is_digit (c : N) : bool := (48 <=? c) && (c <=? 57).

Definition hex_val (c : N) : option N :=
  if (48 <=? c) && (c <=? 57) then Some (c - 48)
  else if (97 <=? c) && (c <=? 102) then Some (c - 87)
  else if (65 <=? c) && (c <=? 70) then Some (c - 55)
  else None.

Definition hex4_val (a b c d : N) : option N :=
  match hex_val a, hex_val b, hex_val c, hex_val d with
  | Some x, Some y, Some z, Some t => Some (((x * 16 + y) * 16 + z) * 16 + t)
  | _, _, _, _ => None
  end.

(** The character a one-letter escape stands for. *)
Definition unescape (e : N) : option N :=
  if e =? 34 then Some 34
  else if e =? 92 then Some 92
  else if e =? 47 then Some 47
  else if e =? 98 then Some 8
  else if e =? 102 then Some 12
  else if e =? 110 then Some 10
  else if e =? 114 then Some 13
  else if e =? 116 then Some 9
  else None.

Definition is_high (u : N) : bool := (0xD800 <=? u) && (u <=? 0xDBFF).
Definition is_low (u : N) : bool := (0xDC00 <=? u) && (u <=? 0xDFFF).

Definition join_surrogates (hi lo : N) : N :=
  0x10000 + N.lor (N.shiftl (hi - 0xD800) 10) (lo - 0xDC00).

Definition prepend (c : N) (r : option (str * str)) : option (str * str) :=
  match r with
  | Some (s, rest) => Some (c :: s, rest)
  | None => None
  end.

(** [scanstring] (strict) from just after the opening quote: the decoded
    string and the text after the closing quote. *)
Fixpoint scanstring (s : str) : option (str * str) :=
  match s with
  | [] => None
  | c :: s1 =>
      if c =? 34 then Some ([], s1)
      else if c =? 92 then
        match s1 with
        | [] => None
        | e :: s2 =>
            if e =? 117 then
              match s2 with
              | h1 :: h2 :: h3 :: h4 :: s3 =>
                  match hex4_val h1 h2 h3 h4 with
                  | None => None
                  | Some u =>
                      if is_high u then
                        match s3 with
                        | b :: u' :: l1 :: l2 :: l3 :: l4 :: s4 =>
                            if (b =? 92) && (u' =? 117) then
                              match hex4_val l1 l2 l3 l4 with
                              | None => None
                              | Some u2 =>
                                  if is_low u2
                                  then prepend (join_surrogates u u2)
                                         (scanstring s4)
                                  else prepend u (scanstring s3)
                              end
                            else prepend u (scanstring s3)
                        | _ => prepend u (scanstring s3)
                        end
                      else prepend u (scanstring s3)
                  end
              | _ => None
              end
            else
              match unescape e with
              | Some ch => prepend ch (scanstring s2)
              | None => None
              end
        end
      else if c <? 32 then None
      else prepend c (scanstring s1)
  end.

Fixpoint span_digits (s : str) : str * str :=
  match s with
  | [] => ([], [])
  | c :: s' =>
      if is_digit c
      then let '(ds, r) := span_digits s' in (c :: ds, r)
      else ([], s)
  end.

(** [int(text)] on an optional minus sign and decimal digits *)
Definition int_of_literal (negative : bool) (digits : str) : Z :=
  let n := Z.of_N (fold_left (fun a d => 10 * a + (d - 48)) digits 0) in
  if negative then (- n)%Z else n.

(** The number pattern: an optional minus sign; a zero, or a non-zero
    digit and any digits; optionally a point and one digit or more;
    optionally [e] or [E], an optional sign and one digit or more.  The
    match is an integer when there is neither fraction nor exponent, a
    float otherwise. *)
Definition match_number (s : str) : option (pyvalue * str) :=
  let '(negative, s1) :=
    match s with
    | c :: r => if c =? 45 then (true, r) else (false, s)
    | [] => (false, s)
    end in
  match s1 with
  | [] => None
  | d :: r =>
      if is_digit d then
        let '(ip, r1) :=
          if d =? 48 then ([d], r)
          else let '(ds, r') := span_digits r in (d :: ds, r') in
        let '(frac, r2) :=
          match r1 with
          | p :: r' =>
              if p =? 46 then
                match span_digits r' with
                | ([], _) => ([], r1)
                | (ds, r'') => (p :: ds, r'')
                end
              else ([], r1)
          | [] => ([], r1)
          end in
        let '(ex, r3) :=
          match r2 with
          | e :: r' =>
              if (e =? 101) || (e =? 69) then
                let '(sg, r'') :=
                  match r' with
                  | c :: t =>
                      if (c =? 45) || (c =? 43) then ([c], t) else ([], r')
                  | [] => ([], r')
                  end in
                match span_digits r'' with
                | ([], _) => ([], r2)
                | (ds, r''') => (e :: sg ++ ds, r''')
                end
              else ([], r2)
          | [] => ([], r2)
          end in
        match frac, ex with
        | [], [] => Some (PInt (int_of_literal negative ip), r3)
        | _, _ =>
            Some (PFloat (float_of_literal
                            ((if negative then [45] else []) ++ ip ++ frac ++ ex)),
                  r3)
        end
      else None
  end.

(** [d[k] = v] on a dictionary in insertion order *)
Fixpoint dict_set (k : str) (v : pyvalue) (d : list (str * pyvalue))
  : list (str * pyvalue) :=
  match d with
  | [] => [(k, v)]
  | (k', v') :: d' =>
      if bool_decide (k' = k) then (k', v) :: d' else (k', v') :: dict_set k v d'
  end.

Definition of_option {A} (r : option (A * str)) : scan A :=
  match r with
  | Some (a, rest) => Scanned a rest
  | None => NoMatch
  end.

(** [scan_once] with its two loops: [scan_array] stands at an element
    and [scan_object] at a key, each with what was read so far.  Every
    call spends one unit of [fuel]. *)
Fixpoint scan_once (fuel : nat) (s : str) : scan pyvalue :=
  match fuel with
  | O => Exhausted
  | S fuel' =>
      match s with
      | [] => NoMatch
      | c :: s1 =>
          if c =? 34 then
            match scanstring s1 with
            | Some (v, rest) => Scanned (PStr v) rest
            | None => NoMatch
            end
          else if c =? 123 then
            match skip_ws s1 with
            | c' :: s2 =>
                if c' =? 125 then Scanned (PDict []) s2
                else scan_object fuel' [] (c' :: s2)
            | [] => NoMatch
            end
          else if c =? 91 then
            match skip_ws s1 with
            | c' :: s2 =>
                if c' =? 93 then Scanned (PList []) s2
                else scan_array fuel' [] (c' :: s2)
            | [] => NoMatch
            end
          else if startswith (py "null") s then Scanned PNone (drop 4 s)
          else if startswith (py "true") s then Scanned (PBool true) (drop 4 s)
          else if startswith (py "false") s then Scanned (PBool false) (drop 5 s)
          else if startswith (py "NaN") s
          then Scanned (PFloat (float_of_literal (py "NaN"))) (drop 3 s)
          else if startswith (py "Infinity") s
          then Scanned (PFloat (float_of_literal (py "Infinity"))) (drop 8 s)
          else if startswith (py "-Infinity") s
          then Scanned (PFloat (float_of_literal (py "-Infinity"))) (drop 9 s)
          else of_option (match_number s)
      end
  end
with scan_array (fuel : nat) (acc : list pyvalue) (s : str) : scan pyvalue :=
  match fuel with
  | O => Exhausted
  | S fuel' =>
      match scan_once fuel' s with
      | Scanned v rest =>
          match skip_ws rest with
          | c :: r =>
              if c =? 93 then Scanned (PList (acc ++ [v])) r
              else if c =? 44 then scan_array fuel' (acc ++ [v]) (skip_ws r)
              else NoMatch
          | [] => NoMatch
          end
      | NoMatch => NoMatch
      | Exhausted => Exhausted
      end
  end
with scan_object (fuel : nat) (acc : list (str * pyvalue)) (s : str)
  : scan pyvalue :=
  match fuel with
  | O => Exhausted
  | S fuel' =>
      match s with
      | q :: s1 =>
          if q =? 34 then
            match scanstring s1 with
            | Some (k, rest) =>
                match skip_ws rest with
                | c :: r =>
                    if c =? 58 then
                      match scan_once fuel' (skip_ws r) with
                      | Scanned v rest' =>
                          match skip_ws rest' with
                          | c' :: r' =>
                              if c' =? 125
                              then Scanned (PDict (dict_set k v acc)) r'
                              else if c' =? 44
                              then scan_object fuel' (dict_set k v acc)
                                     (skip_ws r')
                              else NoMatch
                          | [] => NoMatch
                          end
                      | NoMatch => NoMatch
                      | Exhausted => Exhausted
                      end
                    else NoMatch
                | [] => NoMatch
                end
            | None => NoMatch
            end
          else NoMatch
      | [] => NoMatch
      end
  end.

(** [json.loads(s)]: a leading byte-order mark, no value, or text after
    the value raise [JSONDecodeError].  The budget is two calls for every
    character, which is always enough ([scan_budget] below), so the
    [RecursionError] of the last case never comes up.  The recursion limit
    of the interpreter and the length limit of its conversion of integer
    literals are not part of the model: it is [json.loads] on the texts
    that stay below both ([within_limits]). *)
Definition loads (s : str) : result pyvalue :=
  if startswith [0xFEFF] s then Raise (Exn JSONDecodeError s)
  else
    match scan_once (2 * length s + 2) (skip_ws s) with
    | Scanned v rest =>
        match skip_ws rest with
        | [] => Ret v
        | _ :: _ => Raise (Exn JSONDecodeError s)
        end
    | NoMatch => Raise (Exn JSONDecodeError s)
    | Exhausted => Raise (Exn RecursionError [])
    end.

(** [json.load(fp)] is [json.loads(fp.read())]. *)
Definition load (fp : list str) : M pyvalue :=
  s <- Codec.file_read fp ;;
  fun w => (loads s, w).

End Values.

Arguments Scanned {A} a rest.
Arguments NoMatch {A}.
Arguments Exhausted {A}.

End Json.

(** [SimpleDocTemplate(filename, pagesize=letter).build(story)]: the
    document is written to [filename] when the story is built; a failure
    to open the file is raised to the caller.  The paragraphs of the
    story were parsed when they were made. *)
Definition SimpleDocTemplate_build (filename : str) (story : list flowable)
  : M unit :=
  f <- Os.open_w filename ;;
  fun w =>
    (Ret tt,
     World (Os.write_at f (File (Document story)) (root w)) (cwd w) (stdout w)).

(** ** Flask *)

(** The application object, of which the program reads nothing but what
    [send_file] does: [app.root_path], the absolute path of the directory
    of the module that made the application. *)
Class Application := { root_path : str }.

Module Flask.

(** A response that sends a file: status, the file's content, and the
    download name of the [Content-Disposition: attachment] header. *)
Record response := Response {
  status : N;
  body : content;
  attachment : option str
}.

(** [os.path.basename(path)] *)
Definition basename (path : str) : str := List.last (split OsPath.sep path) [].

(** [send_file(path, as_attachment=...)]: the file is looked for at
    [pathlib.Path(app.root_path, path)], so that a relative path is taken
    from the application's root directory, not from the working
    directory; the download name is the last component of that path. *)
Definition send_file `{Application} (path : str) (as_attachment : bool)
  : M response :=
  fun w =>
    let path := OsPath.join root_path path in
    match Os.stat w path with
    | Ret (File c) =>
        (Ret (Response 200 c (if as_attachment then Some (basename path) else None)),
         w)
    | Ret (Dir _) => (Raise (Exn IsADirectoryError path), w)
    | Raise e => (Raise e, w)
    end.

(** [abort(code, description)] raises the exception werkzeug keeps for the
    status code. *)
Definition abort {A} (code : N) (description : str) : M A :=
  raise (Exn (if code =? 404 then NotFound else HTTPException) description).

End Flask.

(** ** The application ([src/app.py]) *)

Section App.
Context `{PyFloat} `{Markup} `{Application}.
Import Json.

(** [SAVE_DIR = "saves"] *)
Definition SAVE_DIR : str := py "saves".

(** The story [save_to_pdf] hands to [doc.build]: the title and a spacer,
    then what each line of the text adds.  Every [Paragraph] is made, and
    its markup parsed, as the loop comes to it; the first text the parser
    refuses ends the loop with its [ValueError]. *)
Definition pdf_elements (text : str) : result (list flowable) :=
  let text :=
    if negb (truthy (strip text)) then py "No content available." else text in
  rbind (paragraph (py "<b>Resume</b>") Title) (fun title =>
  fold_left
    (fun story line =>
       rbind story (fun elements =>
         if contains (py "**") line then
           rbind (paragraph (py "<b>" ++ replace (py "**") [] line ++ py "</b>")
                    Heading2)
             (fun heading =>
                Ret ((elements ++ [Spacer 1 (0.2 * inch)]) ++ [heading]))
         else if contains (py "-") line then
           rbind (paragraph ([0x2022; 32] ++ replace (py "-") [] line) Normal)
             (fun bullet => Ret (elements ++ [bullet]))
         else
           rbind (paragraph line Normal)
             (fun plain => Ret (elements ++ [plain]))))
    (split [10] text)
    (Ret [title; Spacer 1 (0.2 * inch)])).

(** The elements the story starts with. *)
Definition title_elements : list flowable :=
  [Paragraph (py "<b>Resume</b>") Title; Spacer 1 (0.2 * inch)].

(** The markup the loop makes a paragraph of, for one line. *)
Definition line_markup (line : str) : str :=
  if contains (py "**") line then
    py "<b>" ++ replace (py "**") [] line ++ py "</b>"
  else if contains (py "-") line then
    [0x2022; 32] ++ replace (py "-") [] line
  else line.

(** What the body of the loop appends for one line whose markup is
    accepted: a spacer and a heading, a bulleted paragraph, or a plain
    paragraph. *)
Definition line_elements (line : str) : list flowable :=
  if contains (py "**") line then
    [Spacer 1 (0.2 * inch);
     Paragraph (py "<b>" ++ replace (py "**") [] line ++ py "</b>") Heading2]
  else if contains (py "-") line then
    [Paragraph ([0x2022; 32] ++ replace (py "-") [] line) Normal]
  else
    [Paragraph line Normal].

(** [save_to_pdf(text, filename)]: the story is made first, the
    destination is opened when the story is built. *)
Definition save_to_pdf (text filename : str) : M unit :=
  fun w =>
    match pdf_elements text with
    | Ret elements => SimpleDocTemplate_build filename elements w
    | Raise e => (Raise e, w)
    end.

(** The file of a name: [os.path.join(SAVE_DIR,
    f"{name.replace(' ', '_')}_resume.json")], as [save_resume_data] and
    [load_resume_data] both compute it. *)
Definition resume_filename (name : str) : str :=
  OsPath.join SAVE_DIR (replace (py " ") (py "_") name ++ py "_resume.json").

(** [save_resume_data(name, resume_data)] *)
Definition save_resume_data (name : str) (resume_data : pyvalue) : M unit :=
  let filename := resume_filename name in
  try_except Exception
    (Codec.with_open_w filename (fun f => Json.dump resume_data f))
    (fun e =>
       print [Lit ([0x26A0; 0xFE0F] ++ py " Error saving data: "); StrOf e]).

(** [load_resume_data(name)]; [PNone] is Python's [None]. *)
Definition load_resume_data (name : str) : M pyvalue :=
  let filename := resume_filename name in
  present <- Os.path_exists filename ;;
  if present then
    try_except JSONDecodeError
      (Codec.with_open_r filename (fun f => Json.load f))
      (fun _ =>
         print [Lit ([0x26A0; 0xFE0F]
                     ++ py " Error loading JSON: Corrupt or invalid file -> "
                     ++ filename)] ;;
         ret PNone)
  else ret PNone.

(** [get_saved_resumes()] *)
Definition get_saved_resumes : M (list str) :=
  files <- Os.listdir SAVE_DIR ;;
  ret (map (fun file =>
              replace (py "_") (py " ") (replace (py "_resume.json") [] file))
         (List.filter (fun file => endswith (py "_resume.json") file) files)).

(** [download_resume(filename)], the view function of
    [/download_resume/<filename>] *)
Definition download_resume (filename : str) : M Flask.response :=
  let filepath := OsPath.join SAVE_DIR filename in
  present <- Os.path_exists filepath ;;
  if present then Flask.send_file filepath true
  else Flask.abort 404 (py "File not found.").

End App.

(** A float model for closed examples: a float is named by the text it
    was read from or is printed as.  No example below holds a float. *)
#[global] Instance literal_float : PyFloat :=
  {| float := str; float_of_literal := fun s => s; floatstr := fun s => s |}.

(** A markup parser for closed examples.  It knows the tag [b] only: a
    text is accepted when every [<b>] is closed by a [</b>] and no other
    [<] occurs.  ReportLab accepts these texts too, and it too refuses a
    [<b>] that is left open. *)
Fixpoint bold_balanced (open skip : nat) (s : str) : bool :=
  match s with
  | [] => bool_decide (open = O)
  | c :: s' =>
      match skip with
      | S k => bold_balanced open k s'
      | O =>
          if startswith (py "<b>") s then bold_balanced (S open) 2 s'
          else if startswith (py "</b>") s then
            match open with
            | S o => bold_balanced o 3 s'
            | O => false
            end
          else if c =? 60 then false
          else bold_balanced open 0 s'
      end
  end.

#[global] Instance bold_markup : Markup :=
  {| well_formed := bold_balanced 0 0;
     title_well_formed := eq_refl;
     placeholder_well_formed := eq_refl |}.

(** The application of the examples: the program lies in [/app]. *)
#[global] Instance app_directory : Application := {| root_path := py "/app" |}.

(** An application directory [/app] with the program and an empty store,
    the working directory of the examples. *)
Definition app_py : node := File (Bytes (py "import os")).

Definition fresh_world : world :=
  World (Dir {[ py "app" := Dir ({[ py "saves" := Dir ∅ ]} ∪ {[ py "app.py" := app_py ]}) ]})
        [py "app"] [].

(** ** Notions the properties are stated with *)

(** The only failure of an encoder is the [TypeError] for an object it
    cannot serialise. *)
Definition fails_with_TypeError (m : Json.emit) : Prop :=
  ∀ e, m.2 = Some e → exn_cls e = TypeError.

(** An exception that [except Exception] catches. *)
Definition ordinary (e : exn) : Prop := issubclass (exn_cls e) Exception = true.

(** The line [save_resume_data] prints for a failure. *)
Definition save_error_line (e : exn) : list fragment :=
  [Lit ([0x26A0; 0xFE0F] ++ py " Error saving data: "); StrOf e].

(** A world in which the store holds, under the name [x_resume.json], a file
    of the single byte [0xFF], which is not UTF-8. *)
Definition corrupt_world : world :=
  World (Dir {[ py "app" :=
                  Dir {[ py "saves" :=
                           Dir {[ py "x_resume.json" := File (Bytes [0xFF]) ]} ]} ]})
        [py "app"] [].

(** The line [load_resume_data] prints for a file that is not JSON. *)
Definition load_error_line (filename : str) : list fragment :=
  [Lit ([0x26A0; 0xFE0F]
        ++ py " Error loading JSON: Corrupt or invalid file -> " ++ filename)].

(** The response of a download: the file's content as an attachment named
    after the last component of the path. *)
Definition attachment_of (filepath : str) (c : content) : Flask.response :=
  Flask.Response 200 c (Some (Flask.basename filepath)).

(** A location at which a directory stands. *)
Definition is_dir (o : option node) : Prop :=
  match o with
  | Some (Dir _) => True
  | _ => False
  end.

(** A location that exists as a directory, or whose parent does: what
    path resolution returns. *)
Definition reachable (rt : node) (loc : list str) : Prop :=
  is_dir (Os.lookup rt loc)
  ∨ ∃ parent name, loc = parent ++ [name] ∧ is_dir (Os.lookup rt parent).

(** A Unicode scalar value: a code point that is not a surrogate.  A text
    that came in as UTF-8 holds nothing else. *)
Definition scalar_value (c : N) : bool :=
  (c <? 0x110000) && negb (Codec.is_surrogate c).

Definition valid_text (s : str) : Prop := forallb scalar_value s = true.

(** A character the encoder writes: printable ASCII, or the newline of
    the indentation. *)
Definition plain (c : N) : bool := ((32 <=? c) && (c <=? 126)) || (c =? 10).

Section Serialisable.
Context `{PyFloat}.
Import Json.

(** The values whose JSON text reads back as the value itself: [None],
    booleans, strings of scalar values, and lists and dictionaries of
    such values, a dictionary having each key once.  The records the
    program saves, string-keyed mappings of strings, are among them. *)
Inductive serialisable : pyvalue → Prop :=
| serialisable_none : serialisable PNone
| serialisable_bool (b : bool) : serialisable (PBool b)
| serialisable_str (s : str) : valid_text s → serialisable (PStr s)
| serialisable_list (xs : list pyvalue) :
    Forall serialisable xs → serialisable (PList xs)
| serialisable_dict (items : list (str * pyvalue)) :
    NoDup items.*1 →
    Forall (fun kv => valid_text kv.1 ∧ serialisable kv.2) items →
    serialisable (PDict items).

(** The text [json.dump] writes for a value. *)
Definition json_text (level : nat) (v : pyvalue) : str := (iterencode level v).1.

(** A bound on the calls the scanner makes to read a value back. *)
Fixpoint cost (v : pyvalue) : nat :=
  match v with
  | PList xs => S (list_sum (map (fun x => S (cost x)) xs))
  | PDict items => S (list_sum (map (fun '(_, x) => S (cost x)) items))
  | _ => 1
  end.

End Serialisable.

Section Items.
Context `{PyFloat}.
Import Json.

(** The encoding of one item of a dictionary. *)
Definition encode_item (level : nat) : str * pyvalue → emit :=
  fun '(k, v) =>
    emit_then (emit_text (encode_basestring_ascii k ++ py ": "))
      (iterencode (S level) v).

Definition set_item (d : list (str * pyvalue)) (kv : str * pyvalue)
  : list (str * pyvalue) :=
  dict_set kv.1 kv.2 d.

End Items.

(** A record as the program builds it, with short values: a string-keyed
    mapping of the eleven resume fields.  One value has a newline, a
    quote and characters outside ASCII. *)
Definition sample_record : Json.pyvalue :=
  Json.PDict
    [(py "name", Json.PStr (py "Jane Doe"));
     (py "job_title", Json.PStr (py "Engineer"));
     (py "company", Json.PStr (py "ACME"));
     (py "experience_summary", Json.PStr (py "Ten years - backend"));
     (py "work_experience", Json.PStr (py "ACME" ++ [10] ++ py "Initech"));
     (py "education", Json.PStr (py "BSc"));
     (py "certifications", Json.PStr []);
     (py "skills", Json.PStr (py "Python, Rocq"));
     (py "resume_text", Json.PStr (py "**Summary**" ++ [10; 0x2022; 34; 0x1F600]));
     (py "cover_letter_text", Json.PStr (py "Dear team"));
     (py "ats_feedback", Json.PStr (py "<p>Score: 90</p>"))].

(** The key of a name: the name with spaces replaced by underscores. *)
Definition normalized (name : str) : str := replace (py " ") (py "_") name.

(** The suffix of a record's file name. *)
Definition suffix : str := py "_resume.json".

(** The name [get_saved_resumes] gives for a file name. *)
Definition recovered (file : str) : str :=
  replace (py "_") (py " ") (replace (py "_resume.json") [] file).

(** The name a listing shows for a record saved under [name]: the key of
    the name with underscores replaced by spaces. *)
Definition reconstructed (name : str) : str :=
  replace (py "_") (py " ") (normalized name).

(** ** The rest of the application: generation, the home page, start-up *)

(** What the program does not own: the generative-text service, Python's
    [str(e)] on the exceptions it meets there, and the [markdown] library.
    [generate_content_text history model prompt] is
    [model.generate_content(prompt).text]: the text of the response, or
    the exception either step raises; it may depend on what was sent
    before.  Making the model object, [genai.GenerativeModel(name)], sends
    nothing and is taken to succeed. *)
Class External := {
  generate_content_text : list (str * str) → str → str → result str;
  exn_str : exn → str;
  markdown : str → str
}.

(** The state of a request: the world, and the prompts sent to the
    service so far, each with the name of its model. *)
Record env := Env {
  host : world;
  sent : list (str * str)
}.

Definition G (A : Type) : Type := env → result A * env.

Definition gret {A} (a : A) : G A := fun s => (Ret a, s).

Definition gbind {A B} (c : G A) (k : A → G B) : G B :=
  fun s =>
    match c s with
    | (Ret a, s') => k a s'
    | (Raise e, s') => (Raise e, s')
    end.

(** A computation on the world, run in a request. *)
Definition lift {A} (c : M A) : G A :=
  fun s => let '(r, w') := c (host s) in (r, Env w' (sent s)).

(** [try: body  except cls as e: handler e], in a request *)
Definition gtry_except {A} (cls : exn_class) (body : G A) (handler : exn → G A)
  : G A :=
  fun s =>
    match body s with
    | (Ret a, s') => (Ret a, s')
    | (Raise e, s') =>
        if issubclass (exn_cls e) cls then handler e s' else (Raise e, s')
    end.

Declare Scope gen_scope.
Delimit Scope gen_scope with gen.
Notation "x <- c ;; k" := (gbind c (fun x => k))
  (at level 100, c at next level, right associativity) : gen_scope.
Notation "c ;; k" := (gbind c (fun _ => k))
  (at level 100, right associativity) : gen_scope.

Section Generation.
Context `{External}.
#[local] Open Scope gen_scope.

(** [model.generate_content(prompt)] and [response.text]: the prompt is
    sent, whatever comes back. *)
Definition generate_content (model prompt : str) : G str :=
  fun s =>
    (generate_content_text (sent s) model prompt,
     Env (host s) (sent s ++ [(model, prompt)])).

(** The prompt of [generate_resume]; [certifications or "None"] is the
    second string when the first is empty. *)
Definition resume_prompt
    (name job_title experience_summary work_experience education
     certifications skills : str) : str :=
  [10]
  ++ py "    Create a professional ATS-optimized resume for " ++ name
  ++ py ", applying for " ++ job_title ++ py "." ++ [10]
  ++ py "    - **Professional Summary** (Concise, keyword-rich)" ++ [10]
  ++ py "    - **Education** (Degrees, Institutions)" ++ [10]
  ++ py "    - **Work Experience** (2-4 positions with bullet points)" ++ [10]
  ++ py "    - **Certifications** (If applicable)" ++ [10]
  ++ py "    - **Skills** (Optimized for ATS parsing)" ++ [10]
  ++ [10]
  ++ py "    Experience Summary: " ++ experience_summary ++ [10]
  ++ py "    Work Experience: " ++ work_experience ++ [10]
  ++ py "    Education: " ++ education ++ [10]
  ++ py "    Certifications: "
  ++ (if truthy certifications then certifications else py "None") ++ [10]
  ++ py "    Skills: " ++ skills ++ [10]
  ++ py "    ".

(** [generate_resume(name, job_title, experience_summary, work_experience,
    education, certifications, skills)] *)
Definition generate_resume
    (name job_title experience_summary work_experience education
     certifications skills : str) : G str :=
  if negb (forallb truthy
             [name; job_title; experience_summary; work_experience;
              education; skills])
  then gret (py "Error: Missing required fields for resume generation.")
  else
    let model := py "gemini-pro" in
    let prompt :=
      resume_prompt name job_title experience_summary work_experience
        education certifications skills in
    gtry_except Exception
      (response <- generate_content model prompt ;; gret (strip response))
      (fun e =>
         lift (print [Lit ([0x26A0; 0xFE0F] ++ py " Error generating resume: ");
                      StrOf e]) ;;
         gret ([0x26A0; 0xFE0F]
               ++ py " Unable to generate resume due to an error.")).

(** The prompt of [analyze_ats_score]. *)
Definition ats_prompt (resume_text : str) : str :=
  [10]
  ++ py "    Analyze this resume for ATS (Applicant Tracking System) compatibility."
  ++ [10]
  ++ py "    - Provide an **ATS Score (0-100)**" ++ [10]
  ++ py "    - Identify **missing critical keywords**" ++ [10]
  ++ py "    - Suggest **improvements for better ATS ranking**" ++ [10]
  ++ [10]
  ++ py "    Resume Text:" ++ [10]
  ++ py "    " ++ resume_text ++ [10]
  ++ py "    ".

(** [analyze_ats_score(resume_text)] *)
Definition analyze_ats_score (resume_text : str) : G str :=
  let model := py "gemini-pro" in
  let prompt := ats_prompt resume_text in
  gtry_except Exception
    (response <- generate_content model prompt ;; gret (strip response))
    (fun e =>
       lift (print [Lit ([0x26A0; 0xFE0F] ++ py " Error analyzing ATS score: ");
                    StrOf e]) ;;
       gret ([0x26A0; 0xFE0F] ++ py " Unable to analyze ATS compatibility.")).

(** The prompt of [generate_cover_letter]. *)
Definition cover_letter_prompt
    (name job_title company experience_summary skills : str) : str :=
  [10]
  ++ py "    Write a compelling, ATS-friendly personalized cover letter for "
  ++ name ++ py " applying to " ++ company ++ py " as a " ++ job_title
  ++ py "." ++ [10]
  ++ py "    " ++ [10]
  ++ py "    Guidelines:" ++ [10]
  ++ py "    - Start with a strong **introduction** addressing the hiring manager."
  ++ [10]
  ++ py "    - Highlight **why you're the perfect fit** (using experience & skills)."
  ++ [10]
  ++ py "    - End with a **call to action** requesting an interview." ++ [10]
  ++ py "    - Keep the tone **professional, confident, and enthusiastic**."
  ++ [10]
  ++ [10]
  ++ py "    Experience Summary: " ++ experience_summary ++ [10]
  ++ py "    Skills: " ++ skills ++ [10]
  ++ py "    ".

(** [generate_cover_letter(name, job_title, company, experience_summary,
    skills)] *)
Definition generate_cover_letter
    (name job_title company experience_summary skills : str) : G str :=
  if negb (forallb truthy [name; job_title; company; experience_summary; skills])
  then gret ([0x26A0; 0xFE0F]
             ++ py " Error: Missing required fields for cover letter generation.")
  else
    let model := py "gemini-pro" in
    let prompt :=
      cover_letter_prompt name job_title company experience_summary skills in
    gtry_except Exception
      (response <- generate_content model prompt ;; gret (strip response))
      (fun e =>
         lift (print [Lit ([0x274C] ++ py " Error generating cover letter: ");
                      StrOf e]) ;;
         gret ([0x26A0; 0xFE0F]
               ++ py " Error generating cover letter content: " ++ exn_str e)).

End Generation.

(** *** The home page *)

(** A request as [index] reads it: the method, and the form as the list of
    its fields, a key's first value being the one [get] returns. *)
Record request := Request {
  method : str;
  form : list (str * str)
}.

(** [request.form.get(key, default)] *)
Definition form_get (key default : str) (fields : list (str * str)) : str :=
  match List.find (fun kv => bool_decide (kv.1 = key)) fields with
  | Some kv => kv.2
  | None => default
  end.

(** [key in request.form] *)
Definition form_has (key : str) (fields : list (str * str)) : bool :=
  bool_decide (key ∈ fields.*1).

(** The page [render_template] makes, described by the template's name
    and the values handed to it. *)
Record page := render_template {
  template_name : str;
  resume_text : option str;
  cover_letter_text : option str;
  ats_feedback : option str;
  saved_resumes : list str
}.

Section Home.
Context `{PyFloat} `{External}.
Import Json.
#[local] Open Scope gen_scope.

(** The record [index] saves: eleven string fields, in this order. *)
Definition resume_record
    (name job_title company experience_summary work_experience education
     certifications skills resume_text cover_letter_text ats_feedback : str)
  : pyvalue :=
  PDict
    [(py "name", PStr name);
     (py "job_title", PStr job_title);
     (py "company", PStr company);
     (py "experience_summary", PStr experience_summary);
     (py "work_experience", PStr work_experience);
     (py "education", PStr education);
     (py "certifications", PStr certifications);
     (py "skills", PStr skills);
     (py "resume_text", PStr resume_text);
     (py "cover_letter_text", PStr cover_letter_text);
     (py "ats_feedback", PStr ats_feedback)].

(** The branch of [index] for a POST with the generate button: the three
    texts of the page. *)
Definition generate_and_save (fields : list (str * str))
  : G (option str * option str * option str) :=
  let name := strip (form_get (py "name") [] fields) in
  let job_title := strip (form_get (py "job_title") [] fields) in
  let company := strip (form_get (py "company") [] fields) in
  let experience_summary :=
    strip (form_get (py "experience_summary") [] fields) in
  let work_experience := strip (form_get (py "work_experience") [] fields) in
  let education := strip (form_get (py "education") [] fields) in
  let certifications := strip (form_get (py "certifications") [] fields) in
  let skills := strip (form_get (py "skills") [] fields) in
  resume_text <-
    generate_resume name job_title experience_summary work_experience
      education certifications skills ;;
  ats_feedback <- analyze_ats_score resume_text ;;
  cover_letter_text <-
    generate_cover_letter name job_title company experience_summary skills ;;
  let ats_feedback := markdown ats_feedback in
  let resume_data :=
    resume_record name job_title company experience_summary work_experience
      education certifications skills resume_text cover_letter_text
      ats_feedback in
  lift (save_resume_data name resume_data) ;;
  gret (Some resume_text, Some cover_letter_text, Some ats_feedback).

(** [index()], the view function of [/] for GET and POST *)
Definition index (request : request) : G page :=
  saved_resumes <- lift get_saved_resumes ;;
  texts <-
    (if bool_decide (method request = py "POST") then
       if form_has (py "generate_resume_btn") (form request)
       then generate_and_save (form request)
       else gret (None, None, None)
     else gret (None, None, None)) ;;
  let '(resume_text, cover_letter_text, ats_feedback) := texts in
  gret (render_template (py "index.html") resume_text cover_letter_text
          ats_feedback saved_resumes).

End Home.

(** *** Start-up *)

Module OsDirs.

(** [os.mkdir(path)].  The [FileExistsError] of an existing path, a
    subclass of [OSError] that the hierarchy above does not list, is
    raised as [OSError]. *)
Definition mkdir (path : str) : M unit :=
  fun w =>
    match Os.resolve w path with
    | Ret loc =>
        match Os.lookup (root w) loc with
        | Some _ => (Raise (Exn OSError path), w)
        | None =>
            (Ret tt, World (Os.write_at loc (Dir ∅) (root w)) (cwd w) (stdout w))
        end
    | Raise e => (Raise e, w)
    end.

(** [os.path.isdir(path)] *)
Definition isdir (path : str) : M bool :=
  fun w =>
    match Os.stat w path with
    | Ret (Dir _) => (Ret true, w)
    | _ => (Ret false, w)
    end.

(** [os.makedirs(name, exist_ok=exist_ok)] for a [name] without a slash:
    [os.path.split] gives it an empty head, no parent is made, and what
    is left is [mkdir] under its handler. *)
Definition makedirs (name : str) (exist_ok : bool) : M unit :=
  try_except OSError (mkdir name)
    (fun e =>
       d <- isdir name ;;
       if negb exist_ok || negb d then raise e else ret tt).

End OsDirs.

(** What the module keeps after it has been loaded. *)
Record config := Config {
  SECRET_KEY : str;
  SESSION_PERMANENT : bool;
  API_KEY : str
}.

(** [os.getenv(key, default)] on the environment [environ] *)
Definition getenv (environ : gmap str str) (key : str) (default : option str)
  : option str :=
  match environ !! key with
  | Some v => Some v
  | None => default
  end.

(** The statements the module runs when it is loaded: the secret key, the
    API key (required), and the store directory.  [genai.configure] keeps
    the key and does nothing else. *)
Definition startup (environ : gmap str str) : M config :=
  let secret_key :=
    getenv environ (py "FLASK_SECRET_KEY") (Some (py "supersecretkey12345")) in
  let api_key := getenv environ (py "GOOGLE_API_KEY") None in
  if negb (match api_key with Some k => truthy k | None => false end)
  then
    raise (Exn ValueError
             (py "Missing Google Gemini API Key! Set GOOGLE_API_KEY as an environment variable."))
  else
    OsDirs.makedirs SAVE_DIR true ;;
    ret (Config (default [] secret_key) false (default [] api_key)).

(** A service for closed examples: the first prompt of a request gets the
    text of a resume, with whitespace around it; the second is refused;
    later ones get a letter. *)
#[global] Instance scripted_service : External :=
  {| generate_content_text := fun history _ _ =>
       match length history with
       | O => Ret ([32; 10] ++ py "**Summary**" ++ [10] ++ py "- Python" ++ [10; 32])
       | S O => Raise (Exn Exception (py "quota exceeded"))
       | _ => Ret (py "Dear team")
       end;
     exn_str := fun e => exn_detail e;
     markdown := fun s => py "<p>" ++ s ++ py "</p>" |}.

(** A form with every field filled in, and one whose name is blank. *)
Definition full_form : list (str * str) :=
  [(py "name", py " Jane Doe ");
   (py "job_title", py "Engineer");
   (py "company", py "ACME");
   (py "experience_summary", py "Ten years");
   (py "work_experience", py "ACME");
   (py "education", py "BSc");
   (py "certifications", []);
   (py "skills", py "Python");
   (py "generate_resume_btn", [])].

Definition nameless_form : list (str * str) :=
  [(py "name", py "   ");
   (py "job_title", py "Engineer");
   (py "company", py "ACME");
   (py "experience_summary", py "Ten years");
   (py "work_experience", py "ACME");
   (py "education", py "BSc");
   (py "skills", py "Python");
   (py "generate_resume_btn", [])].

(** ** Notions of the further properties *)

(** A flowable that is a paragraph. *)
Definition is_paragraph (f : flowable) : bool :=
  match f with
  | Paragraph _ _ => true
  | Spacer _ _ => false
  end.

(** A line the renderer makes a heading of. *)
Definition is_heading_line (line : str) : bool := contains (py "**") line.


Section ServiceNotions.
Context `{External}.

(** The service fails only with exceptions that [except Exception]
    catches. *)
Definition fails_ordinarily : Prop :=
  ∀ history model prompt e,
    generate_content_text history model prompt = Raise e → ordinary e.

End ServiceNotions.

(** A string with no whitespace at either end. *)
Definition trimmed (s : str) : Prop :=
  (∀ c r, s = c :: r → isspace c = false)
  ∧ (∀ r c, s = r ++ [c] → isspace c = false).

(** Two worlds with the same files and the same working directory. *)
Definition same_files (w w' : world) : Prop :=
  root w' = root w ∧ cwd w' = cwd w.

(** A field of the form as [index] reads it:
    [request.form.get(key, "").strip()]. *)
Definition field (key : str) (fields : list (str * str)) : str :=
  strip (form_get key [] fields).

Section RecordOf.
Context `{PyFloat}.

(** The record [index] saves for a form and the three texts made for
    it. *)
Definition record_of (fields : list (str * str))
    (resume_text cover_letter_text ats_feedback : str) : Json.pyvalue :=
  resume_record (field (py "name") fields) (field (py "job_title") fields)
    (field (py "company") fields) (field (py "experience_summary") fields)
    (field (py "work_experience") fields) (field (py "education") fields)
    (field (py "certifications") fields) (field (py "skills") fields)
    resume_text cover_letter_text ats_feedback.

End RecordOf.

(** The names [get_saved_resumes] makes of the entries of the store
    directory. *)
Definition listing (es : gmap str node) : list str :=
  map recovered (List.filter (endswith suffix) (map_to_list es).*1).

(** A request that asks for generation: a POST whose form has the
    button. *)
Definition asks_generation (request : request) : Prop :=
  method request = py "POST" ∧ py "generate_resume_btn" ∈ (form request).*1.

(** A service that is down, for closed examples: every call is
    refused. *)
Definition service_down : External :=
  {| generate_content_text := fun _ _ _ =>
       Raise (Exn Exception (py "503 service unavailable"));
     exn_str := fun e => exn_detail e;
     markdown := fun s => py "<p>" ++ s ++ py "</p>" |}.

(** A world whose store holds a record of the name [Jane Doe]. *)
Definition stored_world : world :=
  World (Dir {[ py "app" :=
                  Dir {[ py "saves" :=
                           Dir {[ py "Jane_Doe_resume.json" :=
                                    File (Bytes (py "{}")) ]} ]} ]})
        [py "app"] [].

(** A world whose store holds, for the name [Jane Doe], a file of text
    that is not JSON. *)
Definition garbled_world : world :=
  World (Dir {[ py "app" :=
                  Dir {[ py "saves" :=
                           Dir {[ py "Jane_Doe_resume.json" :=
                                    File (Bytes (py "{name: Jane")) ]} ]} ]})
        [py "app"] [].

Section RootNotions.
Context `{Application}.

(** The program runs in its own directory: [app.root_path], an absolute
    path that does not end in a slash, names the working directory. *)
Definition runs_in_root (w : world) : Prop :=
  startswith OsPath.sep root_path = true
  ∧ endswith OsPath.sep root_path = false
  ∧ (0 ∉ root_path)
  ∧ Os.resolve w root_path = Ret (cwd w).

End RootNotions.

(** A printed line that reports a failed save. *)
Definition is_save_error (line : list fragment) : bool :=
  match line with
  | [Lit s; StrOf _] =>
      bool_decide (s = [0x26A0; 0xFE0F] ++ py " Error saving data: ")
  | _ => false
  end.

(** The number of failed saves that the output reports. *)
Definition save_failures (out : list (list fragment)) : nat :=
  length (List.filter is_save_error out).

(** A text that the interpreter's limits do not reach: at most a hundred
    opening brackets and braces, which bounds the nesting the scanner
    recurses on, and at most 4300 digits, the longest integer literal
    [int] converts. *)
Definition is_digit (c : N) : bool := (48 <=? c) && (c <=? 57).

Definition opens_nesting (c : N) : bool := (c =? 91) || (c =? 123).

Definition within_limits (s : str) : Prop :=
  (length (List.filter opens_nesting s) ≤ 100)%nat
  ∧ (length (List.filter is_digit s) ≤ 4300)%nat.

(** * Properties *)

#[local] Arguments N.eqb : simpl nomatch.
#[local] Arguments N.leb : simpl nomatch.
#[local] Arguments N.ltb : simpl nomatch.

Ltac cases_N :=
  repeat match goal with
    | |- context [N.leb ?a ?b] => destruct (N.leb_spec a b)
    | |- context [N.ltb ?a ?b] => destruct (N.ltb_spec a b)
    | |- context [N.eqb ?a ?b] => destruct (N.eqb_spec a b)
    end; simpl.

Ltac literals :=
  change (py ",") with [44] in *; change (py "]") with [93] in *;
  change (py "}") with [125] in *; change (py ": ") with [58; 32] in *;
  change (py "[") with [91] in *; change (py "{") with [123] in *.

(** ** Strings *)

Lemma startswith_app (pre s : str) : startswith pre (pre ++ s) = true.
Proof.
  induction pre as [|p pre IH]; simpl; [done|].
  by rewrite N.eqb_refl, IH.
Qed.

Lemma startswith_head (a : N) (pre s : str) :
  startswith (a :: pre) s = true → ∃ s', s = a :: s'.
Proof.
  destruct s as [|c s']; simpl; [done|].
  intros [Hc _]%andb_true_iff. apply N.eqb_eq in Hc. subst. eauto.
Qed.

Lemma lstrip_nil_iff (s : str) : lstrip s = [] ↔ forallb isspace s = true.
Proof.
  induction s as [|c s IH]; simpl; [done|].
  destruct (isspace c); simpl; [done|]. split; discriminate.
Qed.

Lemma lstrip_sound (s : str) :
  lstrip s = [] ∨ ∃ c r, lstrip s = c :: r ∧ isspace c = false.
Proof.
  induction s as [|c s IH]; simpl; [by left|].
  destruct (isspace c) eqn:Hc; [done|]. right. eauto.
Qed.

Lemma forallb_reverse {A} (f : A → bool) (l : list A) :
  forallb f (reverse l) = forallb f l.
Proof.
  induction l as [|x l IH]; [done|].
  rewrite reverse_cons, forallb_app, IH. simpl.
  rewrite andb_true_r. apply andb_comm.
Qed.

(** [s.strip()] is empty exactly when every character of [s] is
    whitespace. *)
Lemma strip_nil_iff (s : str) : strip s = [] ↔ forallb isspace s = true.
Proof.
  unfold strip, rstrip. rewrite <- lstrip_nil_iff.
  split.
  - intros Hs. apply (f_equal reverse) in Hs.
    rewrite reverse_involutive, reverse_nil in Hs.
    apply lstrip_nil_iff in Hs. rewrite forallb_reverse in Hs.
    destruct (lstrip_sound s) as [|(c & r & Hr & Hc)]; [done|].
    rewrite Hr in Hs. simpl in Hs. by rewrite Hc in Hs.
  - intros ->. done.
Qed.

Lemma truthy_strip (s : str) :
  truthy (strip s) = negb (forallb isspace s).
Proof.
  destruct (forallb isspace s) eqn:Hs.
  - apply strip_nil_iff in Hs. by rewrite Hs.
  - destruct (strip s) eqn:Hst; [|done].
    apply strip_nil_iff in Hst. congruence.
Qed.

(** Every character of a line of [s.split(sep)] is a character of [s]. *)
Lemma split_from_elem (sep : str) (s : str) :
  ∀ skip line c, line ∈ split_from sep skip s → c ∈ line → c ∈ s.
Proof.
  induction s as [|x s IH]; intros skip line c Hline Hc; simpl in Hline.
  - apply list_elem_of_singleton in Hline. subst. by apply elem_of_nil in Hc.
  - destruct skip as [|k].
    + destruct (startswith sep (x :: s)).
      * apply elem_of_cons in Hline as [->|Hline];
          [by apply elem_of_nil in Hc|].
        right. eauto.
      * destruct (split_from sep 0 s) as [|h t] eqn:Hsp.
        -- apply list_elem_of_singleton in Hline. subst.
           apply list_elem_of_singleton in Hc. subst. left.
        -- apply elem_of_cons in Hline as [->|Hline].
           ++ apply elem_of_cons in Hc as [->|Hc]; [left|].
              right. apply (IH 0%nat h); [|done]. rewrite Hsp. left.
           ++ right. apply (IH 0%nat line); [|done]. rewrite Hsp. by right.
    + right. eauto.
Qed.

Lemma contains_elem (a : N) (sub s : str) :
  contains (a :: sub) s = true → a ∈ s.
Proof.
  induction s as [|c s IH]; simpl; [done|].
  intros [Hs|Hs]%orb_true_iff.
  - apply andb_true_iff in Hs as [Hc _]. apply N.eqb_eq in Hc. subst. left.
  - right. auto.
Qed.

Lemma elem_contains (c : N) (s : str) : c ∈ s → contains [c] s = true.
Proof.
  induction s as [|d s IH]; intros Hs.
  - by apply elem_of_nil in Hs.
  - cbn [contains startswith]. apply elem_of_cons in Hs as [<-|Hs].
    + by rewrite N.eqb_refl.
    + rewrite IH; [|done]. apply orb_true_r.
Qed.

Lemma forallb_elem {A} (f : A → bool) (l : list A) (x : A) :
  forallb f l = true → x ∈ l → f x = true.
Proof.
  intros Hl Hx. rewrite forallb_forall in Hl. apply Hl.
  by apply list_elem_of_In.
Qed.

(** After [s.replace("**", "")] no [**] is left: what is kept of a run of
    stars is at most one star. *)
Lemma replace_stars_head (s : str) :
  startswith [42] (replace_from [42; 42] [] 0 s) = true →
  startswith [42] s = true.
Proof.
  destruct s as [|c s]; [done|].
  cbn [replace_from]. destruct (startswith [42; 42] (c :: s)) eqn:Hss.
  - intros _. simpl in *. apply andb_true_iff in Hss as [-> _]. done.
  - simpl. by rewrite !andb_true_r.
Qed.

Lemma replace_stars_none (s : str) :
  ∀ skip, contains [42; 42] (replace_from [42; 42] [] skip s) = false.
Proof.
  induction s as [|c s IH]; intros skip; [done|].
  cbn [replace_from]. destruct skip as [|k]; [|apply IH].
  destruct (startswith [42; 42] (c :: s)) eqn:Hss; [apply IH|].
  cbn [contains]. rewrite IH, orb_false_r.
  cbn [startswith]. destruct (42 =? c) eqn:Hc; [|done]. simpl.
  destruct (replace_from [42; 42] [] 0 s) as [|d r] eqn:Hr; [done|].
  rewrite andb_true_r. destruct (42 =? d) eqn:Hd; [|done].
  assert (startswith [42] s = true) as Hs.
  { apply replace_stars_head. rewrite Hr. simpl. by rewrite Hd. }
  simpl in Hss. rewrite Hc in Hss. simpl in Hss.
  destruct s as [|e s']; [done|]. simpl in Hs, Hss.
  rewrite andb_true_r in Hs, Hss. congruence.
Qed.

(** After [s.replace("-", "")] no hyphen is left. *)
Lemma replace_hyphen_none (s : str) :
  ∀ skip, contains [45] (replace_from [45] [] skip s) = false.
Proof.
  induction s as [|c s IH]; intros skip; [done|].
  cbn [replace_from]. destruct skip as [|k]; [|apply IH].
  destruct (startswith [45] (c :: s)) eqn:Hss; [apply IH|].
  cbn [contains]. rewrite IH, orb_false_r.
  simpl in *. by rewrite andb_true_r in *.
Qed.

(** ** The renderer *)

Section Renderer.
Context `{Markup}.

(** The loop of [save_to_pdf], from a story made so far: it stops at the
    first line whose markup the parser refuses, and else adds the
    elements of every line in order. *)
Lemma render_loop (lines : list str) :
  ∀ elements,
    fold_left
      (fun story line =>
         rbind story (fun elements =>
           if contains (py "**") line then
             rbind (paragraph (py "<b>" ++ replace (py "**") [] line ++ py "</b>")
                      Heading2)
               (fun heading =>
                  Ret ((elements ++ [Spacer 1 (0.2 * inch)]) ++ [heading]))
           else if contains (py "-") line then
             rbind (paragraph ([0x2022; 32] ++ replace (py "-") [] line) Normal)
               (fun bullet => Ret (elements ++ [bullet]))
           else
             rbind (paragraph line Normal)
               (fun plain => Ret (elements ++ [plain]))))
      lines (Ret elements)
    = match List.find (fun line => negb (well_formed (line_markup line))) lines
      with
      | Some line => Raise (Exn ValueError (line_markup line))
      | None => Ret (elements ++ flat_map line_elements lines)
      end.
Proof.
  match goal with |- context [@fold_left _ _ ?f] => set (step := f) end.
  assert (∀ e ls, fold_left step ls (Raise e) = Raise e) as Hraise.
  { intros e ls. induction ls as [|l ls IHls]; [done|exact IHls]. }
  induction lines as [|line lines IH]; intros elements.
  - simpl. by rewrite app_nil_r.
  - cbn [fold_left List.find flat_map].
    assert (step (Ret elements) line
            = if well_formed (line_markup line)
              then Ret (elements ++ line_elements line)
              else Raise (Exn ValueError (line_markup line))) as ->.
    { unfold step, rbind, paragraph, line_markup, line_elements.
      destruct (contains (py "**") line);
        [|destruct (contains (py "-") line)];
        destruct (well_formed _); by rewrite <- ?app_assoc. }
    destruct (well_formed (line_markup line)); cbn [negb].
    + rewrite IH. by rewrite <- app_assoc.
    + apply Hraise.
Qed.

(** The story of a text that is not blank: the title, then the elements of
    each line in order, unless the parser refuses the markup of a line. *)
Lemma pdf_elements_lines (text : str) :
  forallb isspace text = false →
  pdf_elements text
  = match List.find (fun line => negb (well_formed (line_markup line)))
            (split [10] text)
    with
    | Some line => Raise (Exn ValueError (line_markup line))
    | None => Ret (title_elements ++ flat_map line_elements (split [10] text))
    end.
Proof.
  intros Hblank. unfold pdf_elements.
  rewrite truthy_strip, Hblank. simpl negb. cbv iota.
  unfold paragraph at 1. rewrite title_well_formed. cbn [rbind].
  apply render_loop.
Qed.

Lemma pdf_elements_blank (text : str) :
  forallb isspace text = true →
  pdf_elements text
  = Ret (title_elements ++ [Paragraph (py "No content available.") Normal]).
Proof.
  intros Hblank. unfold pdf_elements.
  rewrite truthy_strip, Hblank. simpl negb. cbv iota.
  unfold paragraph at 1. rewrite title_well_formed. cbn [rbind].
  rewrite render_loop.
  change (split [10] (py "No content available."))
    with [py "No content available."].
  cbn [List.find]. unfold line_markup.
  change (contains (py "**") (py "No content available.")) with false.
  change (contains (py "-") (py "No content available.")) with false.
  cbv iota. by rewrite placeholder_well_formed.
Qed.

(** A story that has been made, of a text that is not blank, is the title
    and the elements of each line. *)
Lemma pdf_elements_story (text : str) (story : list flowable) :
  forallb isspace text = false →
  pdf_elements text = Ret story →
  story = title_elements ++ flat_map line_elements (split [10] text).
Proof.
  intros Hblank. rewrite pdf_elements_lines by done.
  destruct (List.find _ _); [done|]. by intros [= <-].
Qed.

(** The loop stops at a line whose markup is refused, when the markup of
    the lines before it is accepted. *)
Lemma pdf_elements_refused (text : str) (before : list str) (line : str)
    (after : list str) :
  forallb isspace text = false →
  split [10] text = before ++ line :: after →
  Forall (fun l => well_formed (line_markup l) = true) before →
  well_formed (line_markup line) = false →
  pdf_elements text = Raise (Exn ValueError (line_markup line)).
Proof.
  intros Hblank Hsplit Hbefore Hline. rewrite pdf_elements_lines, Hsplit by done.
  assert (List.find (fun line => negb (well_formed (line_markup line)))
            (before ++ line :: after) = Some line) as ->; [|done].
  clear Hsplit. induction Hbefore as [|l before Hl _ IH]; cbn [app List.find].
  - by rewrite Hline.
  - by rewrite Hl.
Qed.

(** A text with a line that holds a character that is not whitespace is
    not blank. *)
Lemma line_not_blank (text line : str) (c : N) :
  line ∈ split [10] text → c ∈ line → isspace c = false →
  forallb isspace text = false.
Proof.
  intros Hline Hc Hsp.
  destruct (forallb isspace text) eqn:Hb; [|done].
  pose proof (split_from_elem _ _ _ _ _ Hline Hc) as Hin.
  pose proof (forallb_elem _ _ _ Hb Hin). congruence.
Qed.

(** A render whose story cannot be made raises before the destination is
    opened. *)
Lemma save_to_pdf_refused (text filename : str) (e : exn) (w : world) :
  pdf_elements text = Raise e → save_to_pdf text filename w = (Raise e, w).
Proof. intros Hstory. unfold save_to_pdf. by rewrite Hstory. Qed.

(** C6.  Whatever else it holds (a hyphen included), a line of the text
    with [**] in it is made a heading: when the story is made, it has a
    spacer and a heading paragraph at the line's place, the heading being
    the line with [**] replaced by nothing, with no [**] left in it.  But
    the line is handed to ReportLab as markup: when the parser refuses
    the heading (and has accepted the lines before), [save_to_pdf] raises
    [ValueError] and leaves the world as it was; no heading is
    rendered. *)
Theorem marker_line_is_heading (text : str) (before : list str) (line : str)
    (after : list str) :
  split [10] text = before ++ line :: after →
  contains (py "**") line = true →
  (∀ story,
     pdf_elements text = Ret story →
     story
     = (title_elements ++ flat_map line_elements before)
       ++ [Spacer 1 (0.2 * inch);
           Paragraph (py "<b>" ++ replace (py "**") [] line ++ py "</b>")
             Heading2]
       ++ flat_map line_elements after
     ∧ contains (py "**") (replace (py "**") [] line) = false)
  ∧ (Forall (fun l => well_formed (line_markup l) = true) before →
     well_formed (py "<b>" ++ replace (py "**") [] line ++ py "</b>") = false →
     ∀ filename w,
       save_to_pdf text filename w
       = (Raise (Exn ValueError
                   (py "<b>" ++ replace (py "**") [] line ++ py "</b>")),
          w)).
Proof.
  intros Hsplit Hmark.
  assert (forallb isspace text = false) as Hblank.
  { apply (line_not_blank text line 42); [|by eapply contains_elem|done].
    rewrite Hsplit. apply elem_of_app. right. left. }
  split.
  - intros story Hstory. split; [|apply replace_stars_none].
    rewrite (pdf_elements_story text story Hblank Hstory).
    rewrite Hsplit, flat_map_app. cbn [flat_map].
    unfold line_elements at 2. rewrite Hmark. by rewrite <- !app_assoc.
  - intros Hbefore Hline filename w. apply save_to_pdf_refused.
    rewrite (pdf_elements_refused text before line after Hblank Hsplit Hbefore);
      unfold line_markup; by rewrite Hmark.
Qed.

(** C7.  A line without [**] that holds a hyphen is made a bullet: when
    the story is made, it has one paragraph in the normal style at the
    line's place, a bullet glyph, a space, and the line with every hyphen
    removed.  But the line is handed to ReportLab as markup: when the
    parser refuses the bullet's text (and has accepted the lines before),
    [save_to_pdf] raises [ValueError] and leaves the world as it was; no
    bullet is rendered. *)
Theorem hyphen_line_is_bullet (text : str) (before : list str) (line : str)
    (after : list str) :
  split [10] text = before ++ line :: after →
  contains (py "**") line = false →
  contains (py "-") line = true →
  (∀ story,
     pdf_elements text = Ret story →
     story
     = (title_elements ++ flat_map line_elements before)
       ++ [Paragraph ([0x2022; 32] ++ replace (py "-") [] line) Normal]
       ++ flat_map line_elements after
     ∧ 45 ∉ replace (py "-") [] line)
  ∧ (Forall (fun l => well_formed (line_markup l) = true) before →
     well_formed ([0x2022; 32] ++ replace (py "-") [] line) = false →
     ∀ filename w,
       save_to_pdf text filename w
       = (Raise (Exn ValueError ([0x2022; 32] ++ replace (py "-") [] line)),
          w)).
Proof.
  intros Hsplit Hmark Hhyphen.
  assert (forallb isspace text = false) as Hblank.
  { apply (line_not_blank text line 45); [|by eapply contains_elem|done].
    rewrite Hsplit. apply elem_of_app. right. left. }
  split.
  - intros story Hstory. split.
    + rewrite (pdf_elements_story text story Hblank Hstory).
      rewrite Hsplit, flat_map_app. cbn [flat_map].
      unfold line_elements at 2. rewrite Hmark, Hhyphen.
      by rewrite <- !app_assoc.
    + intros Hin%elem_contains.
      change (replace (py "-") [] line) with (replace_from [45] [] 0 line)
        in Hin.
      by rewrite replace_hyphen_none in Hin.
  - intros Hbefore Hline filename w. apply save_to_pdf_refused.
    rewrite (pdf_elements_refused text before line after Hblank Hsplit Hbefore);
      unfold line_markup; by rewrite Hmark, Hhyphen.
Qed.

End Renderer.

Lemma marker_line_is_heading_witness :
  pdf_elements (py "**Bold-Section**")
  = Ret [Paragraph (py "<b>Resume</b>") Title; Spacer 1 (0.2 * inch);
         Spacer 1 (0.2 * inch); Paragraph (py "<b>Bold-Section</b>") Heading2]
  ∧ contains (py "-") (py "**Bold-Section**") = true
  ∧ (∀ story,
       pdf_elements (py "**Bold-Section**") = Ret story →
       story
       = (title_elements ++ [])
         ++ [Spacer 1 (0.2 * inch);
             Paragraph (py "<b>Bold-Section</b>") Heading2]
         ++ []
       ∧ contains (py "**") (py "Bold-Section") = false)
  ∧ well_formed (py "<b>Skills <b></b>") = false
  ∧ ∀ filename w,
      save_to_pdf (py "**Skills <b>**") filename w
      = (Raise (Exn ValueError (py "<b>Skills <b></b>")), w).
Proof.
  split; [vm_compute; reflexivity|]. split; [reflexivity|].
  split.
  - apply (proj1 (marker_line_is_heading (py "**Bold-Section**") []
                    (py "**Bold-Section**") [] eq_refl eq_refl)).
  - split; [reflexivity|].
    apply (proj2 (marker_line_is_heading (py "**Skills <b>**") []
                    (py "**Skills <b>**") [] eq_refl eq_refl));
      [apply Forall_nil_2|reflexivity].
Defined.

Lemma hyphen_line_is_bullet_witness :
  pdf_elements (py "- Skill: Python")
  = Ret [Paragraph (py "<b>Resume</b>") Title; Spacer 1 (0.2 * inch);
         Paragraph ([0x2022; 32] ++ py " Skill: Python") Normal]
  ∧ (∀ story,
       pdf_elements (py "- Skill: Python") = Ret story →
       story
       = (title_elements ++ [])
         ++ [Paragraph ([0x2022; 32] ++ py " Skill: Python") Normal] ++ []
       ∧ 45 ∉ py " Skill: Python")
  ∧ well_formed ([0x2022; 32] ++ py " <b>Python") = false
  ∧ ∀ filename w,
      save_to_pdf (py "- <b>Python") filename w
      = (Raise (Exn ValueError ([0x2022; 32] ++ py " <b>Python")), w).
Proof.
  split; [vm_compute; reflexivity|].
  split.
  - apply (proj1 (hyphen_line_is_bullet (py "- Skill: Python") []
                    (py "- Skill: Python") [] eq_refl eq_refl eq_refl)).
  - split; [reflexivity|].
    apply (proj2 (hyphen_line_is_bullet (py "- <b>Python") []
                    (py "- <b>Python") [] eq_refl eq_refl eq_refl));
      [apply Forall_nil_2|reflexivity].
Defined.

(** ** Exceptions of the runtime *)

Lemma walk_ordinary (path : str) (rt : node) (comps : list str) :
  ∀ cur e, Os.walk path rt cur comps = Raise e →
    issubclass (exn_cls e) OSError = true.
Proof.
  induction comps as [|c comps IH]; intros cur e; simpl; [done|].
  destruct (Os.lookup rt cur) as [[|es]|]; try (intros [= <-]; done).
  destruct (_ || _); [apply IH|].
  destruct (bool_decide _); apply IH.
Qed.

Lemma resolve_raises (w : world) (path : str) (e : exn) :
  Os.resolve w path = Raise e →
  issubclass (exn_cls e) OSError = true ∨ exn_cls e = ValueError.
Proof.
  unfold Os.resolve.
  destruct (bool_decide _); [intros [= <-]; by right|].
  destruct (negb _); [intros [= <-]; by left|].
  intros Hw. left. by eapply walk_ordinary.
Qed.

Lemma stat_raises (w : world) (path : str) (e : exn) :
  Os.stat w path = Raise e →
  issubclass (exn_cls e) OSError = true ∨ exn_cls e = ValueError.
Proof.
  unfold Os.stat. destruct (Os.resolve w path) as [loc|e'] eqn:Hr.
  - destruct (Os.lookup _ _); [done|]. intros [= <-]. by left.
  - intros [= <-]. by eapply resolve_raises.
Qed.

Lemma oserror_ordinary (e : exn) :
  issubclass (exn_cls e) OSError = true ∨ exn_cls e = ValueError → ordinary e.
Proof.
  unfold ordinary. destruct e as [[] d]; simpl; intros [?|?]; done.
Qed.

(** [os.path.exists] never raises, and says [False] exactly when
    [os.stat] fails. *)
Lemma path_exists_spec (path : str) (w : world) :
  Os.path_exists path w
  = (Ret (match Os.stat w path with Ret _ => true | Raise _ => false end), w).
Proof.
  unfold Os.path_exists. destruct (Os.stat w path) as [n|e] eqn:Hs; [done|].
  destruct (stat_raises _ _ _ Hs) as [-> | ->]; [done|].
  by rewrite orb_true_r.
Qed.

Lemma open_w_ordinary (path : str) (w w' : world) (e : exn) :
  Os.open_w path w = (Raise e, w') → ordinary e ∧ w' = w.
Proof.
  unfold Os.open_w. destruct (Os.resolve w path) as [loc|e'] eqn:Hr.
  - destruct (Os.lookup _ _) as [[|es]|]; try done.
    intros [= <- <-]. done.
  - intros [= <- <-]. split; [|done].
    by eapply oserror_ordinary, resolve_raises.
Qed.

(** ** The encoder *)

Section Encoder.
Context `{PyFloat}.
Import Json.

(** Induction on values, through the lists of [PList] and [PDict]. *)
Lemma pyvalue_nested_ind (P : pyvalue → Prop) :
  P PNone →
  (∀ b, P (PBool b)) →
  (∀ z, P (PInt z)) →
  (∀ x, P (PFloat x)) →
  (∀ s, P (PStr s)) →
  (∀ xs, Forall P xs → P (PList xs)) →
  (∀ items, Forall (fun kv => P kv.2) items → P (PDict items)) →
  (∀ c, P (PObject c)) →
  ∀ v, P v.
Proof.
  intros HNone HBool HInt HFloat HStr HList HDict HObject.
  fix IH 1. intros [| b | z | x | s | xs | items | c].
  - exact HNone.
  - apply HBool.
  - apply HInt.
  - apply HFloat.
  - apply HStr.
  - apply HList. induction xs as [|x xs IHxs]; constructor.
    + apply IH.
    + exact IHxs.
  - apply HDict. induction items as [|[k v] items IHitems]; constructor.
    + apply IH.
    + exact IHitems.
  - apply HObject.
Qed.

Lemma emit_text_fails (s : str) : fails_with_TypeError (emit_text s).
Proof. intros e. done. Qed.

Lemma emit_then_fails (a b : emit) :
  fails_with_TypeError a → fails_with_TypeError b →
  fails_with_TypeError (emit_then a b).
Proof.
  intros Ha Hb e. destruct a as [s [e'|]]; simpl; [apply Ha|apply Hb].
Qed.

Lemma emit_items_fails {A} (separator : str) (encode : A → emit)
    (xs : list A) :
  Forall (fun x => fails_with_TypeError (encode x)) xs →
  ∀ first, fails_with_TypeError (emit_items separator encode first xs).
Proof.
  induction 1 as [|x xs' Hx _ IH]; intros first; cbn [emit_items].
  - apply emit_text_fails.
  - repeat apply emit_then_fails; auto using emit_text_fails.
Qed.

Lemma iterencode_fails (o : pyvalue) :
  ∀ level, fails_with_TypeError (iterencode level o).
Proof.
  induction o as [| b | z | x | s | xs IH | items IH | c]
    using pyvalue_nested_ind; intros level;
    try (intros e; simpl; done).
  - destruct b; intros e; done.
  - destruct xs as [|x0 xs0]; [intros e; done|].
    cbn [iterencode].
    apply emit_then_fails; [apply emit_text_fails|].
    apply emit_then_fails; [|apply emit_text_fails].
    apply emit_items_fails. eapply Forall_impl; [exact IH|]. auto.
  - destruct items as [|kv0 items0]; [intros e; done|].
    cbn [iterencode].
    apply emit_then_fails; [apply emit_text_fails|].
    apply emit_then_fails; [|apply emit_text_fails].
    apply emit_items_fails. eapply Forall_impl; [exact IH|].
    intros [k v] Hv. apply emit_then_fails; [apply emit_text_fails|apply Hv].
  - intros e [= <-]. done.
Qed.

Lemma file_write_raises (f : list str) (text : str) (w w' : world) (e : exn) :
  Codec.file_write f text w = (Raise e, w') → ordinary e ∧ w' = w.
Proof.
  unfold Codec.file_write. destruct (Codec.utf8_encode text); [done|].
  by intros [= <- <-].
Qed.

Lemma file_write_world (f : list str) (text : str) (w w' : world) r :
  Codec.file_write f text w = (r, w') → cwd w' = cwd w ∧ stdout w' = stdout w.
Proof.
  unfold Codec.file_write. destruct (Codec.utf8_encode text);
    by intros [= <- <-].
Qed.

Lemma dump_ordinary (obj : pyvalue) (fp : list str) (w w' : world) (e : exn) :
  Json.dump obj fp w = (Raise e, w') → ordinary e.
Proof.
  unfold Json.dump. destruct (iterencode 0 obj) as [text failure] eqn:Henc.
  unfold bind. destruct (Codec.file_write fp text w) as [[[]|e'] w1] eqn:Hw.
  - destruct failure as [e'|]; [|done]. intros [= <- <-].
    pose proof (iterencode_fails obj 0 e') as Hty. rewrite Henc in Hty.
    unfold ordinary. by rewrite Hty.
  - intros [= <- <-]. by apply file_write_raises in Hw as [? _].
Qed.

(** What [save_resume_data] runs under [try]. *)
Lemma save_body_ordinary (name : str) (resume_data : pyvalue)
    (w w' : world) (e : exn) :
  Codec.with_open_w (resume_filename name)
    (fun f => Json.dump resume_data f) w = (Raise e, w') →
  ordinary e.
Proof.
  unfold Codec.with_open_w, bind.
  destruct (Os.open_w _ w) as [[f|e'] w1] eqn:Hopen.
  - apply dump_ordinary.
  - intros [= <- <-]. by apply open_w_ordinary in Hopen as [? _].
Qed.

(** C4. [save_resume_data] returns normally (with [None]) on every name,
    every object and every state.  When the write under [try] fails with
    an exception [e], the call keeps the state the failure left, prints
    the error line for [e], and returns as it does on success. *)
Theorem save_never_raises (name : str) (resume_data : pyvalue) (w : world) :
  (∃ w', save_resume_data name resume_data w = (Ret tt, w'))
  ∧ (∀ e w1,
       Codec.with_open_w (resume_filename name)
         (fun f => Json.dump resume_data f) w = (Raise e, w1) →
       save_resume_data name resume_data w
       = (Ret tt, World (root w1) (cwd w1) (stdout w1 ++ [save_error_line e]))).
Proof.
  unfold save_resume_data, try_except. cbv zeta.
  destruct (Codec.with_open_w _ _ w) as [[[]|e] w1] eqn:Hbody.
  - split; [eauto|]. done.
  - apply save_body_ordinary in Hbody as Hord. rewrite Hord.
    split; [by eexists|]. by intros e' w1' [= <- <-].
Qed.

End Encoder.

(** A name whose file lies in a directory that does not exist: the write
    fails, the failure is printed, nothing is raised. *)
Lemma save_never_raises_witness :
  Codec.with_open_w (resume_filename (py "a/b"))
    (fun f => Json.dump (Json.PStr (py "text")) f) fresh_world
  = (Raise (Exn FileNotFoundError (py "saves/a/b_resume.json")), fresh_world)
  ∧ save_resume_data (py "a/b") (Json.PStr (py "text")) fresh_world
    = (Ret tt,
       World (root fresh_world) (cwd fresh_world)
         [save_error_line
            (Exn FileNotFoundError (py "saves/a/b_resume.json"))]).
Proof.
  assert (Codec.with_open_w (resume_filename (py "a/b"))
            (fun f => Json.dump (Json.PStr (py "text")) f) fresh_world
          = (Raise (Exn FileNotFoundError (py "saves/a/b_resume.json")),
             fresh_world)) as Hfail by (vm_compute; reflexivity).
  split; [exact Hfail|].
  exact (proj2 (save_never_raises (py "a/b") (Json.PStr (py "text")) fresh_world)
           _ _ Hfail).
Defined.

(** ** Loading *)

Section Loading.
Context `{PyFloat}.
Import Json.

Lemma open_r_stat (path : str) (w : world) :
  Os.open_r path w
  = match Os.resolve w path with
    | Ret loc =>
        match Os.stat w path with
        | Ret (File _) => (Ret loc, w)
        | Ret (Dir _) => (Raise (Exn IsADirectoryError path), w)
        | Raise e => (Raise e, w)
        end
    | Raise e => (Raise e, w)
    end.
Proof.
  unfold Os.open_r, Os.stat. destruct (Os.resolve w path) as [loc|e]; [|done].
  by destruct (Os.lookup _ _) as [[|]|].
Qed.

(** [load_resume_data] case by case: on the node at the file's path, on
    the bytes of the file, and on the text they decode to. *)
Lemma load_resume_data_cases (name : str) (w : world) :
  load_resume_data name w
  = match Os.stat w (resume_filename name) with
    | Raise _ => (Ret PNone, w)
    | Ret (Dir _) => (Raise (Exn IsADirectoryError (resume_filename name)), w)
    | Ret (File (Document _)) => (Raise (Exn UnicodeDecodeError []), w)
    | Ret (File (Bytes b)) =>
        match Codec.utf8_decode b with
        | None => (Raise (Exn UnicodeDecodeError []), w)
        | Some s =>
            match loads (Codec.universal_newlines s) with
            | Ret v => (Ret v, w)
            | Raise e =>
                if issubclass (exn_cls e) JSONDecodeError
                then (Ret PNone,
                      World (root w) (cwd w)
                        (stdout w ++ [load_error_line (resume_filename name)]))
                else (Raise e, w)
            end
        end
    end.
Proof.
  unfold load_resume_data. cbv zeta. unfold bind at 1.
  rewrite path_exists_spec.
  destruct (Os.stat w (resume_filename name)) as [n|e] eqn:Hstat; [|done].
  unfold try_except, Codec.with_open_r, bind. rewrite open_r_stat, Hstat.
  unfold Os.stat in Hstat.
  destruct (Os.resolve w (resume_filename name)) as [loc|e]; [|done].
  destruct (Os.lookup (root w) loc) as [n'|] eqn:Hl; [|done].
  injection Hstat as ->.
  destruct n as [[b|story]|es]; [| |done].
  - unfold Json.load, bind, Codec.file_read. rewrite Hl.
    destruct (Codec.utf8_decode b) as [s|]; [|done].
    destruct (loads _) as [v|e]; [done|].
    destruct (issubclass _ _); done.
  - unfold Json.load, bind, Codec.file_read. rewrite Hl. done.
Qed.

End Loading.

(** C3. With the single byte [0xFF] in the file of the name [x], which is
    neither UTF-8 nor JSON, [load_resume_data] raises [UnicodeDecodeError]
    to its caller: the handler is for [JSONDecodeError] alone. *)
Theorem load_raises_on_undecodable_bytes :
  Os.stat corrupt_world (resume_filename (py "x")) = Ret (File (Bytes [0xFF]))
  ∧ Codec.utf8_decode [0xFF] = None
  ∧ issubclass UnicodeDecodeError JSONDecodeError = false
  ∧ load_resume_data (py "x") corrupt_world
    = (Raise (Exn UnicodeDecodeError []), corrupt_world).
Proof. repeat split; vm_compute; reflexivity. Qed.

(** ** Downloading *)

Section Downloading.
Context `{Application}.

(** [download_resume] case by case: on what is at the path of the file
    seen from the working directory, where [os.path.exists] looks, and
    seen from the application's root directory, where [send_file]
    looks. *)
Lemma download_resume_cases (filename : str) (w : world) :
  download_resume filename w
  = match Os.stat w (OsPath.join SAVE_DIR filename) with
    | Raise _ => (Raise (Exn NotFound (py "File not found.")), w)
    | Ret _ =>
        match
          Os.stat w (OsPath.join root_path (OsPath.join SAVE_DIR filename))
        with
        | Ret (File c) =>
            (Ret (attachment_of
                    (OsPath.join root_path (OsPath.join SAVE_DIR filename)) c),
             w)
        | Ret (Dir _) =>
            (Raise (Exn IsADirectoryError
                      (OsPath.join root_path (OsPath.join SAVE_DIR filename))),
             w)
        | Raise e => (Raise e, w)
        end
    end.
Proof.
  unfold download_resume. cbv zeta. unfold bind. rewrite path_exists_spec.
  destruct (Os.stat w (OsPath.join SAVE_DIR filename)) as [n|e]; [|done].
  unfold Flask.send_file. cbv zeta.
  by destruct (Os.stat w _) as [[c|es]|e].
Qed.

(** C9, amended.  When nothing exists at the path of the requested file
    ([os.stat] of [os.path.join(SAVE_DIR, filename)] fails, which is when
    [os.path.exists] says no), [download_resume] raises werkzeug's
    [NotFound] (status 404) with the description "File not found." and
    returns no response; when something exists there and a regular file
    is at that path seen from the application's root directory, the
    response is that file's content, as an attachment; and when
    something exists there, a file or a directory, in the store or
    outside of it, no exception with the status 404 is raised, whatever
    else happens. *)
Theorem download_reports_missing_file (filename : str) (w : world) :
  (∀ e, Os.stat w (OsPath.join SAVE_DIR filename) = Raise e →
        download_resume filename w
        = (Raise (Exn NotFound (py "File not found.")), w)
        ∧ http_status (Exn NotFound (py "File not found.")) = Some 404)
  ∧ (∀ n c,
       Os.stat w (OsPath.join SAVE_DIR filename) = Ret n →
       Os.stat w (OsPath.join root_path (OsPath.join SAVE_DIR filename))
       = Ret (File c) →
       download_resume filename w
       = (Ret (attachment_of
                 (OsPath.join root_path (OsPath.join SAVE_DIR filename)) c),
          w))
  ∧ (∀ n e,
       Os.stat w (OsPath.join SAVE_DIR filename) = Ret n →
       (download_resume filename w).1 = Raise e →
       http_status e = None).
Proof.
  rewrite download_resume_cases. split; [|split].
  - intros e ->. done.
  - intros n c -> ->. done.
  - intros n e ->.
    destruct (Os.stat w (OsPath.join root_path _)) as [[c|es]|e'] eqn:Hroot.
    + done.
    + by intros [= <-].
    + intros [= <-]. apply stat_raises in Hroot.
      unfold http_status. by destruct e' as [[] d], Hroot.
Qed.

End Downloading.

(** C9, as stated, fails: no file named [..] is in the store directory,
    which is empty, yet the download of [..] is not answered with "not
    found": [saves/..] exists, it is the application directory, and
    sending it raises [IsADirectoryError]. *)
Lemma download_of_directory_is_not_404 :
  Os.stat fresh_world SAVE_DIR = Ret (Dir ∅)
  ∧ download_resume (py "..") fresh_world
    = (Raise (Exn IsADirectoryError (py "/app/saves/..")), fresh_world)
  ∧ http_status (Exn IsADirectoryError (py "/app/saves/..")) ≠ Some 404.
Proof. repeat split; [vm_compute; reflexivity..|done]. Qed.

Lemma download_reports_missing_file_witness :
  Os.stat fresh_world (OsPath.join SAVE_DIR (py "Jane_Doe_resume.json"))
  = Raise (Exn FileNotFoundError (py "saves/Jane_Doe_resume.json"))
  ∧ download_resume (py "Jane_Doe_resume.json") fresh_world
    = (Raise (Exn NotFound (py "File not found.")), fresh_world)
  ∧ http_status (Exn NotFound (py "File not found.")) = Some 404.
Proof.
  assert (Os.stat fresh_world (OsPath.join SAVE_DIR (py "Jane_Doe_resume.json"))
          = Raise (Exn FileNotFoundError (py "saves/Jane_Doe_resume.json")))
    as Hstat by (vm_compute; reflexivity).
  split; [exact Hstat|].
  exact (proj1 (download_reports_missing_file (py "Jane_Doe_resume.json")
                  fresh_world) _ Hstat).
Defined.

(** C10. [download_resume] serves the regular file found at
    [os.path.join(SAVE_DIR, filename)], whatever the file name is and
    wherever the path leads: its one test is [os.path.exists] of that
    path, and [send_file] takes the path from the application's root
    directory.  With the file name [../app.py], which has a [..]
    component, and with the absolute file name [/app/app.py], in an
    application that runs in its root directory [/app], the path resolves
    to the program file, outside the store directory, and that file is
    served. *)
Theorem download_serves_outside_store :
  (∀ (app : Application) filename w n c,
     Os.stat w (OsPath.join SAVE_DIR filename) = Ret n →
     Os.stat w (OsPath.join (@root_path app) (OsPath.join SAVE_DIR filename))
     = Ret (File c) →
     @download_resume app filename w
     = (Ret (attachment_of
               (OsPath.join (@root_path app) (OsPath.join SAVE_DIR filename))
               c), w))
  ∧ (∃ filename w store loc c,
       py ".." ∈ split OsPath.sep filename
       ∧ Os.resolve w SAVE_DIR = Ret store
       ∧ Os.resolve w (OsPath.join SAVE_DIR filename) = Ret loc
       ∧ Os.resolve w
           (OsPath.join (@root_path app_directory)
              (OsPath.join SAVE_DIR filename)) = Ret loc
       ∧ ¬ store `prefix_of` loc
       ∧ Os.lookup (root w) loc = Some (File c)
       ∧ @download_resume app_directory filename w
         = (Ret (Flask.Response 200 c (Some (py "app.py"))), w))
  ∧ (∃ filename w store loc c,
       startswith OsPath.sep filename = true
       ∧ Os.resolve w SAVE_DIR = Ret store
       ∧ Os.resolve w (OsPath.join SAVE_DIR filename) = Ret loc
       ∧ Os.resolve w
           (OsPath.join (@root_path app_directory)
              (OsPath.join SAVE_DIR filename)) = Ret loc
       ∧ ¬ store `prefix_of` loc
       ∧ Os.lookup (root w) loc = Some (File c)
       ∧ @download_resume app_directory filename w
         = (Ret (Flask.Response 200 c (Some (py "app.py"))), w)).
Proof.
  split; [|split].
  - intros app filename w n c Hcwd Hroot.
    by rewrite download_resume_cases, Hcwd, Hroot.
  - exists (py "../app.py"), fresh_world, [py "app"; py "saves"],
      [py "app"; py "app.py"], (Bytes (py "import os")).
    repeat split; try (vm_compute; reflexivity).
    + apply list_elem_of_In. vm_compute. auto.
    + intros [k Hk]. discriminate Hk.
  - exists (py "/app/app.py"), fresh_world, [py "app"; py "saves"],
      [py "app"; py "app.py"], (Bytes (py "import os")).
    repeat split; try (vm_compute; reflexivity).
    intros [k Hk]. discriminate Hk.
Qed.

Lemma download_serves_outside_store_witness :
  Os.stat fresh_world (OsPath.join SAVE_DIR (py "../app.py"))
  = Ret (File (Bytes (py "import os")))
  ∧ Os.stat fresh_world
      (OsPath.join root_path (OsPath.join SAVE_DIR (py "../app.py")))
    = Ret (File (Bytes (py "import os")))
  ∧ download_resume (py "../app.py") fresh_world
    = (Ret (Flask.Response 200 (Bytes (py "import os")) (Some (py "app.py"))),
       fresh_world).
Proof.
  assert (Os.stat fresh_world (OsPath.join SAVE_DIR (py "../app.py"))
          = Ret (File (Bytes (py "import os")))) as Hcwd
    by (vm_compute; reflexivity).
  assert (Os.stat fresh_world
            (OsPath.join root_path (OsPath.join SAVE_DIR (py "../app.py")))
          = Ret (File (Bytes (py "import os")))) as Hroot
    by (vm_compute; reflexivity).
  split; [exact Hcwd|]. split; [exact Hroot|].
  exact (proj1 download_serves_outside_store app_directory (py "../app.py")
           fresh_world _ _ Hcwd Hroot).
Defined.

(** ** The file-system tree *)

Lemma lookup_app (rt : node) (p q : list str) :
  Os.lookup rt (p ++ q)
  = match Os.lookup rt p with
    | Some n => Os.lookup n q
    | None => None
    end.
Proof.
  revert rt. induction p as [|c p IH]; intros rt; simpl; [done|].
  destruct rt as [|es]; [done|]. destruct (es !! c); [apply IH|done].
Qed.

Lemma lookup_snoc_dir (rt : node) (p : list str) (x : str) (n : node) :
  Os.lookup rt (p ++ [x]) = Some n → is_dir (Os.lookup rt p).
Proof.
  rewrite lookup_app. destruct (Os.lookup rt p) as [[|es]|]; simpl; done.
Qed.

Lemma lookup_removelast_dir (rt : node) (cur : list str) :
  is_dir (Os.lookup rt cur) → is_dir (Os.lookup rt (removelast cur)).
Proof.
  destruct cur as [|c cur'] using rev_ind; [done|].
  rewrite removelast_last. intros Hd.
  destruct (Os.lookup rt (cur' ++ [c])) as [n|] eqn:Hl; [|done].
  by eapply lookup_snoc_dir.
Qed.

(** Resolution ends at a reachable location. *)
Lemma walk_reachable (path : str) (rt : node) (comps : list str) :
  ∀ cur loc, Os.walk path rt cur comps = Ret loc →
    reachable rt cur → reachable rt loc.
Proof.
  induction comps as [|c comps IH]; intros cur loc; simpl.
  - by intros [= <-].
  - destruct (Os.lookup rt cur) as [[|es]|] eqn:Hcur; try done.
    assert (is_dir (Os.lookup rt cur)) as Hdir by by rewrite Hcur.
    destruct (_ || _).
    { intros Hw _. eapply IH; [exact Hw|]. by left. }
    destruct (bool_decide _).
    + intros Hw _. eapply IH; [exact Hw|]. left.
      by apply lookup_removelast_dir.
    + intros Hw _. eapply IH; [exact Hw|]. right. eauto.
Qed.

Lemma split_from_nonempty (sep s : str) : ∀ skip, split_from sep skip s ≠ [].
Proof.
  induction s as [|c s IH]; intros skip; simpl; [done|].
  destruct skip; [|apply IH]. destruct (startswith _ _); [done|].
  by destruct (split_from sep 0 s).
Qed.

Lemma resolve_reachable (w : world) (path : str) (loc : list str) :
  Os.resolve w path = Ret loc → reachable (root w) loc.
Proof.
  unfold Os.resolve. destruct (bool_decide _); [done|].
  destruct (negb _); [done|].
  pose proof (split_from_nonempty OsPath.sep path 0) as Hne.
  unfold split. destruct (split_from _ _ _) as [|c comps]; [done|].
  set (cur := if startswith _ _ then _ else _). clearbody cur.
  intros Hw. pose proof Hw as Hw'. simpl in Hw'.
  destruct (Os.lookup (root w) cur) as [[|es]|] eqn:Hcur; try done.
  eapply walk_reachable; [exact Hw|]. left. by rewrite Hcur.
Qed.

(** Writing at a location whose parent is a directory. *)
Lemma lookup_write_at_new (parent : list str) (name : str) (new : node) :
  ∀ rt, is_dir (Os.lookup rt parent) →
    Os.lookup (Os.write_at (parent ++ [name]) new rt) (parent ++ [name])
    = Some new.
Proof.
  induction parent as [|c parent IH]; intros rt; simpl.
  - destruct rt as [|es]; [done|]. intros _. simpl. by rewrite lookup_insert_eq.
  - destruct rt as [|es]; [done|].
    destruct (es !! c) as [n'|] eqn:Hc; [|done]. intros Hd.
    destruct (parent ++ [name]) as [|x l] eqn:Hl;
      [by destruct parent|].
    simpl. rewrite lookup_insert_eq. by apply IH.
Qed.

Lemma lookup_write_at_parent (parent : list str) (name : str) (new : node) :
  ∀ rt es, Os.lookup rt parent = Some (Dir es) →
    Os.lookup (Os.write_at (parent ++ [name]) new rt) parent
    = Some (Dir (<[name:=new]> es)).
Proof.
  induction parent as [|c parent IH]; intros rt es; simpl.
  - by intros [= ->].
  - destruct rt as [|es0]; [done|].
    destruct (es0 !! c) as [n'|] eqn:Hc; [|done]. intros Hd.
    destruct (parent ++ [name]) as [|x l] eqn:Hl;
      [by destruct parent|].
    simpl. rewrite lookup_insert_eq. by apply IH.
Qed.

(** Writing a regular file where no directory stands keeps every
    directory a directory. *)
Lemma write_at_keeps_dirs (loc : list str) (c : content) :
  ∀ rt p, ¬ is_dir (Os.lookup rt loc) → is_dir (Os.lookup rt p) →
    is_dir (Os.lookup (Os.write_at loc (File c) rt) p).
Proof.
  induction loc as [|x loc IH]; intros rt p Hloc Hp.
  - simpl in *. destruct rt as [c'|es]; [|done].
    destruct p; simpl in Hp; done.
  - simpl. destruct rt as [c'|es]; [done|].
    destruct p as [|y p].
    { by destruct loc, (es !! x). }
    simpl in Hloc, Hp.
    destruct (decide (x = y)) as [<-|Hne].
    + destruct (es !! x) as [n'|] eqn:Hx; [|done].
      destruct loc as [|x' loc'].
      * simpl in Hloc. destruct n' as [c'|es']; [|done].
        destruct p; simpl in Hp; done.
      * simpl. rewrite lookup_insert_eq. by apply IH.
    + destruct loc as [|x' loc'], (es !! x) as [n'|] eqn:Hx; simpl;
        rewrite ?lookup_insert_ne by done; done.
Qed.

(** Resolution only looks at directories: it goes the same way in a tree
    that has kept them. *)
Lemma walk_stable (path : str) (rt rt' : node) (comps : list str) :
  (∀ p, is_dir (Os.lookup rt p) → is_dir (Os.lookup rt' p)) →
  ∀ cur loc, Os.walk path rt cur comps = Ret loc →
    Os.walk path rt' cur comps = Ret loc.
Proof.
  intros Hkeep. induction comps as [|c comps IH]; intros cur loc; simpl;
    [done|].
  destruct (Os.lookup rt cur) as [[|es]|] eqn:Hcur; try done.
  pose proof (Hkeep cur) as Hd. rewrite Hcur in Hd. specialize (Hd I).
  destruct (Os.lookup rt' cur) as [[|es']|]; try done.
  destruct (_ || _); [apply IH|]. destruct (bool_decide _); apply IH.
Qed.

Lemma resolve_stable (w w' : world) (path : str) (loc : list str) :
  (∀ p, is_dir (Os.lookup (root w) p) → is_dir (Os.lookup (root w') p)) →
  cwd w' = cwd w →
  Os.resolve w path = Ret loc → Os.resolve w' path = Ret loc.
Proof.
  intros Hkeep Hcwd. unfold Os.resolve. rewrite Hcwd.
  destruct (bool_decide _); [done|]. destruct (negb _); [done|].
  by apply walk_stable.
Qed.

(** ** Reading back what the encoder wrote *)

Import Json.

Lemma hex_val_digit (d : N) : d < 16 → hex_val (hex_digit d) = Some d.
Proof.
  intros Hd. unfold hex_val, hex_digit. cases_N; try lia; f_equal; lia.
Qed.

Lemma hex4_val_hex4 (n : N) :
  n < 65536 →
  match hex4 n with
  | [a; b; c; d] => hex4_val a b c d = Some n
  | _ => False
  end.
Proof.
  intros Hn. unfold hex4, hex4_val.
  rewrite !hex_val_digit by (apply N.mod_lt; lia).
  f_equal.
  replace (n / 4096) with (n / 16 / 16 / 16) by (rewrite !N.Div0.div_div; reflexivity).
  replace (n / 256) with (n / 16 / 16) by (rewrite !N.Div0.div_div; reflexivity).
  pose proof (N.div_mod n 16). pose proof (N.div_mod (n / 16) 16).
  pose proof (N.div_mod (n / 16 / 16) 16).
  pose proof (N.div_mod (n / 16 / 16 / 16) 16).
  assert (n / 16 / 16 / 16 / 16 = 0) as Hz
    by (rewrite !N.Div0.div_div; apply N.div_small; lia).
  rewrite Hz in *. lia.
Qed.

Lemma lor_disjoint (h l k : N) : l < 2 ^ k → N.lor (h * 2 ^ k) l = h * 2 ^ k + l.
Proof.
  intros Hl.
  assert (N.land (h * 2 ^ k) l = 0) as Hland.
  { apply N.bits_inj. intros m. rewrite N.land_spec, N.bits_0.
    destruct (N.lt_ge_cases m k) as [Hm|Hm].
    - by rewrite N.mul_pow2_bits_low.
    - rewrite <- (N.mod_small l (2 ^ k)) by done.
      rewrite N.mod_pow2_bits_high by done. apply andb_false_r. }
  rewrite N.add_nocarry_lxor by done.
  symmetry. by apply N.lxor_lor.
Qed.

Lemma surrogate_pair (c : N) :
  0x10000 <= c → c < 0x110000 →
  let n := c - 0x10000 in
  let hi := N.lor 0xD800 (N.land (N.shiftr n 10) 0x3FF) in
  let lo := N.lor 0xDC00 (N.land n 0x3FF) in
  hi < 65536 ∧ lo < 65536 ∧ is_high hi = true ∧ is_low lo = true
  ∧ join_surrogates hi lo = c.
Proof.
  intros Hlo Hhi n hi lo.
  assert (n < 1048576 ∧ c = 65536 + n) as [Hn Hc] by (subst n; lia).
  clearbody n.
  assert (hi = 0xD800 + n / 1024) as Hhi'.
  { subst hi. change 0x3FF with (N.ones 10). rewrite N.land_ones.
    rewrite N.shiftr_div_pow2. change (2 ^ 10) with 1024.
    rewrite N.mod_small by (apply N.Div0.div_lt_upper_bound; lia).
    change 0xD800 with (54 * 2 ^ 10). apply lor_disjoint.
    change (2 ^ 10) with 1024. apply N.Div0.div_lt_upper_bound. lia. }
  assert (lo = 0xDC00 + n mod 1024) as Hlo'.
  { subst lo. change 0x3FF with (N.ones 10). rewrite N.land_ones.
    change 0xDC00 with (55 * 2 ^ 10). apply lor_disjoint.
    apply N.mod_lt. done. }
  assert (n / 1024 < 1024) by (apply N.Div0.div_lt_upper_bound; lia).
  assert (n mod 1024 < 1024) by (apply N.mod_lt; lia).
  clearbody hi lo. subst hi lo. unfold is_high, is_low, join_surrogates.
  repeat split; try lia.
  - apply andb_true_iff. split; apply N.leb_le; [apply N.le_add_r|lia].
  - apply andb_true_iff. split; apply N.leb_le; [apply N.le_add_r|lia].
  - rewrite (N.add_comm 55296), N.add_sub, (N.add_comm 56320), N.add_sub.
    rewrite N.shiftl_mul_pow2, lor_disjoint by done.
    change (2 ^ 10) with 1024. pose proof (N.div_mod n 1024).
    lia.
Qed.


Lemma scanstring_unicode_escape (u : N) (tail : str) :
  u < 65536 → is_high u = false →
  scanstring (py "\u" ++ hex4 u ++ tail) = prepend u (scanstring tail).
Proof.
  intros Hu Hhigh. pose proof (hex4_val_hex4 u Hu) as Hhex.
  unfold hex4 in *. simpl. by rewrite Hhex, Hhigh.
Qed.

Lemma scanstring_surrogate_escapes (hi lo : N) (tail : str) :
  hi < 65536 → lo < 65536 → is_high hi = true → is_low lo = true →
  scanstring (py "\u" ++ hex4 hi ++ py "\u" ++ hex4 lo ++ tail)
  = prepend (join_surrogates hi lo) (scanstring tail).
Proof.
  intros Hhi Hlo Hhigh Hlow.
  pose proof (hex4_val_hex4 hi Hhi) as Hhex1.
  pose proof (hex4_val_hex4 lo Hlo) as Hhex2.
  unfold hex4 in *. simpl. by rewrite Hhex1, Hhigh, Hhex2, Hlow.
Qed.

Lemma scanstring_escape_char (c : N) (tail : str) :
  scalar_value c = true →
  scanstring (escape_char c ++ tail) = prepend c (scanstring tail).
Proof.
  unfold scalar_value, Codec.is_surrogate. intros Hc.
  apply andb_true_iff in Hc as [Hmax Hsur%negb_true_iff].
  apply N.ltb_lt in Hmax.
  unfold escape_char.
  destruct (N.eqb_spec c 92) as [->|H92]; [done|].
  destruct (N.eqb_spec c 34) as [->|H34]; [done|].
  destruct (N.eqb_spec c 8) as [->|H8]; [done|].
  destruct (N.eqb_spec c 12) as [->|H12]; [done|].
  destruct (N.eqb_spec c 10) as [->|H10]; [done|].
  destruct (N.eqb_spec c 13) as [->|H13]; [done|].
  destruct (N.eqb_spec c 9) as [->|H9]; [done|].
  destruct ((32 <=? c) && (c <=? 126)) eqn:Hprint.
  - apply andb_true_iff in Hprint as [H32%N.leb_le H126%N.leb_le].
    simpl.
    rewrite (proj2 (N.eqb_neq c 34)), (proj2 (N.eqb_neq c 92)) by done.
    by rewrite (proj2 (N.ltb_ge c 32)).
  - destruct (N.ltb_spec c 0x10000) as [Hbmp|Hastral].
    + rewrite <- app_assoc. apply scanstring_unicode_escape; [done|].
      unfold is_high. apply andb_false_iff in Hsur as [Hs|Hs].
      * by rewrite Hs.
      * apply N.leb_gt in Hs. apply andb_false_iff. right.
        apply N.leb_gt. lia.
    + destruct (surrogate_pair c Hastral Hmax) as (H1 & H2 & H3 & H4 & H5).
      cbv zeta in *. rewrite <- !app_assoc.
      rewrite scanstring_surrogate_escapes by done. by rewrite H5.
Qed.

Lemma scanstring_encoded (s : str) (rest : str) :
  valid_text s →
  scanstring (flat_map escape_char s ++ 34 :: rest) = Some (s, rest).
Proof.
  unfold valid_text. induction s as [|c s IH]; [done|].
  intros [Hc Hs]%andb_true_iff. cbn [flat_map]. rewrite <- app_assoc.
  rewrite scanstring_escape_char by done. by rewrite IH.
Qed.

Section RoundTrip.
Context `{PyFloat}.

Lemma emit_then_text (s : str) (b : emit) :
  emit_then (emit_text s) b = (s ++ b.1, b.2).
Proof. done. Qed.

Lemma emit_then_ok (a b : emit) :
  a.2 = None → emit_then a b = (a.1 ++ b.1, b.2).
Proof. destruct a as [s [e|]]; simpl; [done|]. done. Qed.

Lemma emit_items_ok {A} (separator : str) (encode : A → emit) (xs : list A) :
  Forall (fun x => (encode x).2 = None) xs →
  ∀ first, (emit_items separator encode first xs).2 = None.
Proof.
  induction 1 as [|x xs' Hx _ IH]; intros first; cbn [emit_items]; [done|].
  rewrite emit_then_text. cbn [snd]. rewrite emit_then_ok by done. apply IH.
Qed.

Lemma emit_items_cons {A} (separator : str) (encode : A → emit)
    (first : bool) (x : A) (xs : list A) :
  (encode x).2 = None →
  (emit_items separator encode first (x :: xs)).1
  = (if first then [] else separator) ++ (encode x).1
    ++ (emit_items separator encode false xs).1.
Proof.
  intros Hx. cbn [emit_items]. rewrite emit_then_text. cbn [fst].
  by rewrite emit_then_ok.
Qed.

(** The encoder does not fail on a serialisable value. *)
Lemma iterencode_ok (v : pyvalue) :
  serialisable v → ∀ level, (iterencode level v).2 = None.
Proof.
  induction v as [| b | z | x | s | xs IH | items IH | c]
    using pyvalue_nested_ind; intros Hv level; inversion Hv; subst;
    try done.
  - by destruct b.
  - destruct xs as [|x0 xs0]; [done|]. cbn [iterencode].
    rewrite emit_then_text. cbn [snd]. rewrite emit_then_ok; [done|].
    apply emit_items_ok. rewrite Forall_forall in *. auto.
  - destruct items as [|kv0 items0]; [done|]. cbn [iterencode].
    rewrite emit_then_text. cbn [snd]. rewrite emit_then_ok; [done|].
    apply emit_items_ok. rewrite Forall_forall in *.
    intros [k v] Hkv. rewrite emit_then_text. cbn [snd].
    apply (IH _ Hkv). by apply (H2 _ Hkv).
Qed.

Lemma skip_ws_newline_indent (level : nat) (s : str) :
  skip_ws (newline_indent level ++ s) = skip_ws s.
Proof.
  unfold newline_indent. cbn [app skip_ws]. simpl is_ws. cbv iota.
  induction (4 * level)%nat as [|n IH]; [done|]. exact IH.
Qed.

Lemma skip_ws_stop (c : N) (s : str) : is_ws c = false → skip_ws (c :: s) = c :: s.
Proof. intros Hc. simpl. by rewrite Hc. Qed.

Lemma skip_ws_literal (c : N) (s : str) :
  is_ws c = false → skip_ws ([c] ++ s) = c :: s.
Proof. apply skip_ws_stop. Qed.

(** The text of a value starts with a character that is neither
    whitespace nor a byte-order mark. *)
Lemma json_text_head (v : pyvalue) (level : nat) :
  serialisable v →
  ∃ c t, json_text level v = c :: t ∧ is_ws c = false ∧ c ≠ 0xFEFF
         ∧ (c =? 93) = false.
Proof.
  unfold json_text. intros Hv. inversion Hv; subst.
  - by eexists _, _.
  - destruct b; by eexists _, _.
  - by eexists _, _.
  - destruct xs; by eexists _, _.
  - destruct items; by eexists _, _.
Qed.

Lemma skip_ws_json_text (v : pyvalue) (level : nat) (s : str) :
  serialisable v → skip_ws (json_text level v ++ s) = json_text level v ++ s.
Proof.
  intros Hv. destruct (json_text_head v level Hv) as (c & t & -> & Hc & _).
  by apply skip_ws_stop.
Qed.

Lemma scan_array_items (level : nat) (rest : str) (xs : list pyvalue) :
  ∀ x acc fuel,
    Forall serialisable (x :: xs) →
    Forall (fun y => ∀ fuel rest, (cost y ≤ fuel)%nat →
              scan_once fuel (json_text (S level) y ++ rest) = Scanned y rest)
      (x :: xs) →
    (list_sum (map (fun y => S (cost y)) (x :: xs)) ≤ fuel)%nat →
    scan_array fuel acc
      (json_text (S level) x
       ++ (emit_items (py "," ++ newline_indent (S level))
             (iterencode (S level)) false xs).1
       ++ newline_indent level ++ py "]" ++ rest)
    = Scanned (PList (acc ++ x :: xs)) rest.
Proof.
  literals.
  induction xs as [|y ys IH]; intros x acc fuel Hser Hscan Hfuel;
    (destruct fuel as [|f]; [simpl in Hfuel; lia|]);
    cbn [scan_array]; apply Forall_cons in Hscan as [Hx Hscan];
    apply Forall_cons in Hser as [Hsx Hser];
    (rewrite Hx by (simpl in Hfuel; lia)); cbv beta iota.
  - cbn [emit_items emit_text fst]. rewrite app_nil_l.
    rewrite skip_ws_newline_indent. rewrite (skip_ws_literal 93) by done.
    done.
  - pose proof Hser as [Hsy _]%Forall_cons.
    rewrite emit_items_cons by (by apply iterencode_ok).
    rewrite <- !app_assoc. rewrite (skip_ws_literal 44) by done.
    cbv beta iota. change (44 =? 93) with false. change (44 =? 44) with true.
    cbv beta iota.
    rewrite skip_ws_newline_indent.
    fold (json_text (S level) y). rewrite skip_ws_json_text by done.
    rewrite (IH y (acc ++ [x]) f); [by rewrite <- app_assoc|done|done|].
    simpl in *. lia.
Qed.

Lemma encode_item_text (level : nat) (k : str) (v : pyvalue) :
  (encode_item level (k, v)).1
  = 34 :: flat_map escape_char k ++ 34 :: 58 :: 32 :: json_text (S level) v.
Proof.
  unfold encode_item. rewrite emit_then_text. cbn [fst].
  unfold encode_basestring_ascii. by rewrite <- !app_assoc.
Qed.

Lemma encode_item_ok (level : nat) (kv : str * pyvalue) :
  serialisable kv.2 → (encode_item level kv).2 = None.
Proof.
  destruct kv as [k v]. intros Hv. unfold encode_item.
  rewrite emit_then_text. by apply iterencode_ok.
Qed.

Lemma scan_object_items (level : nat) (rest : str)
    (items : list (str * pyvalue)) :
  ∀ kv acc fuel,
    Forall (fun kv => valid_text kv.1 ∧ serialisable kv.2) (kv :: items) →
    Forall (fun kv => ∀ fuel rest, (cost kv.2 ≤ fuel)%nat →
              scan_once fuel (json_text (S level) kv.2 ++ rest)
              = Scanned kv.2 rest)
      (kv :: items) →
    (list_sum (map (fun '(_, x) => S (cost x)) (kv :: items)) ≤ fuel)%nat →
    scan_object fuel acc
      ((encode_item level kv).1
       ++ (emit_items (py "," ++ newline_indent (S level))
             (encode_item level) false items).1
       ++ newline_indent level ++ py "}" ++ rest)
    = Scanned (PDict (foldl set_item acc (kv :: items))) rest.
Proof.
  literals.
  induction items as [|kv' items IH]; intros [k v] acc fuel Hser Hscan Hfuel;
    (destruct fuel as [|f]; [simpl in Hfuel; lia|]);
    apply Forall_cons in Hscan as [Hv Hscan];
    apply Forall_cons in Hser as [[Hk Hsv] Hser]; cbn [fst snd] in *;
    rewrite encode_item_text; rewrite <- ?app_assoc;
    rewrite <- ?app_comm_cons; cbn [scan_object];
    change (34 =? 34) with true; cbv beta iota;
    rewrite <- ?app_assoc, <- ?app_comm_cons;
    rewrite scanstring_encoded by done;
    rewrite (skip_ws_stop 58) by done; cbv beta iota;
    change (58 =? 58) with true; cbv beta iota;
    change (skip_ws (32 :: ?b)) with (skip_ws b);
    rewrite skip_ws_json_text by done;
    (rewrite Hv by (simpl in Hfuel; lia)); cbv beta iota.
  - cbn [emit_items emit_text fst]. rewrite app_nil_l.
    rewrite skip_ws_newline_indent. cbn [app].
    rewrite (skip_ws_stop 125) by done. done.
  - destruct kv' as [k' v']. pose proof Hser as [[Hk' Hsv'] _]%Forall_cons.
    rewrite emit_items_cons by (by apply encode_item_ok).
    rewrite <- ?app_assoc. cbn [app]. rewrite (skip_ws_stop 44) by done.
    cbv beta iota. change (44 =? 125) with false. change (44 =? 44) with true.
    cbv beta iota.
    rewrite skip_ws_newline_indent.
    rewrite encode_item_text at 1. rewrite <- ?app_comm_cons.
    rewrite (skip_ws_stop 34) by done.
    etrans; [|apply (IH (k', v') (dict_set k v acc) f); [done|done|]].
    + f_equal. rewrite encode_item_text. reflexivity.
    + simpl in *. lia.
Qed.

Lemma dict_set_fresh (k : str) (v : pyvalue) (d : list (str * pyvalue)) :
  k ∉ d.*1 → dict_set k v d = d ++ [(k, v)].
Proof.
  induction d as [|[k' v'] d IH]; [done|].
  intros [Hne Hd]%not_elem_of_cons. simpl.
  rewrite bool_decide_eq_false_2 by done. by rewrite IH.
Qed.

(** Setting the items of a dictionary one after another, each key being
    new, lists them in that order. *)
Lemma foldl_set_item (items : list (str * pyvalue)) :
  ∀ acc, NoDup (acc ++ items).*1 → foldl set_item acc items = acc ++ items.
Proof.
  induction items as [|[k v] items IH]; intros acc Hnd.
  - by rewrite app_nil_r.
  - cbn [foldl]. unfold set_item at 2. cbn [fst snd].
    rewrite fmap_app in Hnd.
    pose proof Hnd as Hnd'. apply NoDup_app in Hnd' as (_ & Hdis & _).
    rewrite dict_set_fresh.
    + rewrite IH; [by rewrite <- app_assoc|].
      by rewrite <- app_assoc, fmap_app.
    + intros Hin. apply (Hdis _ Hin). left.
Qed.

(** Reading back: the scanner, given at least [cost v] calls, reads the
    text of a serialisable value [v] as [v] and stops right after it. *)
Lemma scan_once_json_text (v : pyvalue) :
  serialisable v →
  ∀ level fuel rest, (cost v ≤ fuel)%nat →
    scan_once fuel (json_text level v ++ rest) = Scanned v rest.
Proof.
  induction v as [| b | z | x | s | xs IH | items IH | c]
    using pyvalue_nested_ind; intros Hv level fuel rest Hfuel;
    inversion Hv; subst;
    (destruct fuel as [|f]; [simpl in Hfuel; lia|]); unfold json_text.
  - done.
  - by destruct b.
  - cbn [iterencode emit_text fst]. unfold encode_basestring_ascii.
    rewrite <- !app_assoc. cbn [app scan_once].
    change (34 =? 34) with true. cbv beta iota.
    by rewrite scanstring_encoded.
  - destruct xs as [|x0 xs0]; [done|].
    cbn [iterencode]. rewrite emit_then_text. cbn [fst].
    rewrite emit_then_ok
      by (apply emit_items_ok; eapply Forall_impl; [exact H1|];
          intros y Hy; by apply iterencode_ok).
    cbn [emit_text fst]. literals. rewrite <- !app_assoc.
    cbn [app scan_once].
    change (91 =? 34) with false. change (91 =? 123) with false.
    change (91 =? 91) with true. cbv beta iota.
    pose proof H1 as [Hx0 _]%Forall_cons.
    rewrite emit_items_cons by (by apply iterencode_ok). cbn [app].
    rewrite <- !app_assoc.
    rewrite skip_ws_newline_indent.
    fold (json_text (S level) x0). rewrite skip_ws_json_text by done.
    destruct (json_text_head x0 (S level) Hx0) as (c & t & Ht & _ & _ & Hc).
    rewrite Ht at 1. rewrite <- app_comm_cons. rewrite Hc.
    rewrite app_comm_cons, <- Ht.
    apply (scan_array_items level rest xs0 x0 [] f); [done| |].
    + rewrite Forall_forall in *. intros y Hy fuel' rest' Hfuel'.
      apply (IH y Hy); [by apply H1|done].
    + cbn [cost] in Hfuel. lia.
  - destruct items as [|[k0 v0] items0]; [done|].
    cbn [iterencode]. rewrite emit_then_text. cbn [fst].
    fold (encode_item level).
    rewrite emit_then_ok
      by (apply emit_items_ok; eapply Forall_impl; [exact H2|];
          intros y [_ Hy]; by apply encode_item_ok).
    cbn [emit_text fst]. literals. rewrite <- !app_assoc.
    cbn [app scan_once].
    change (123 =? 34) with false. change (123 =? 123) with true.
    cbv beta iota.
    pose proof H2 as [[Hk0 Hv0] _]%Forall_cons.
    rewrite emit_items_cons by (by apply encode_item_ok). cbn [app].
    rewrite <- !app_assoc.
    rewrite skip_ws_newline_indent.
    rewrite encode_item_text at 1. rewrite <- app_comm_cons.
    rewrite (skip_ws_stop 34) by done.
    change (34 =? 125) with false. cbv beta iota.
    rewrite app_comm_cons, <- encode_item_text.
    etrans; [apply (scan_object_items level rest items0 (k0, v0) [] f)|].
    + done.
    + rewrite Forall_forall in *. intros [k y] Hy fuel' rest' Hfuel'.
      apply (IH _ Hy); [by apply (H2 _ Hy)|done].
    + cbn [cost] in Hfuel. lia.
    + by rewrite foldl_set_item.
Qed.

(** The scanner's budget: the cost of a value is within twice the
    length of its text. *)
Lemma emit_items_cost {A} (separator : str) (encode : A → emit)
    (weight : A → nat) (xs : list A) :
  (2 ≤ length separator)%nat →
  Forall (fun x => (encode x).2 = None
                   ∧ (weight x ≤ 2 * length (encode x).1 + 1)%nat) xs →
  (list_sum (map (fun x => S (weight x)) xs)
   ≤ 2 * length (emit_items separator encode false xs).1)%nat
  ∧ (list_sum (map (fun x => S (weight x)) xs)
     ≤ 2 * length (emit_items separator encode true xs).1 + 2)%nat.
Proof.
  intros Hsep. induction 1 as [|x xs' [Hok Hx] _ [IH _]].
  - simpl. lia.
  - rewrite !emit_items_cons by done. rewrite !length_app.
    unfold list_sum in *. cbn [map fold_right length]. lia.
Qed.

Lemma length_newline_indent (level : nat) : (1 ≤ length (newline_indent level))%nat.
Proof. unfold newline_indent. simpl. lia. Qed.

Lemma cost_bound (v : pyvalue) :
  serialisable v →
  ∀ level, (cost v ≤ 2 * length (json_text level v) + 1)%nat.
Proof.
  induction v as [| b | z | x | s | xs IH | items IH | c]
    using pyvalue_nested_ind; intros Hv level; inversion Hv; subst;
    try (simpl; lia).
  - destruct xs as [|x0 xs0]; [simpl; lia|].
    unfold json_text. cbn [iterencode cost]. rewrite emit_then_text. cbn [fst].
    rewrite emit_then_ok
      by (apply emit_items_ok; eapply Forall_impl; [exact H1|];
          intros y Hy; by apply iterencode_ok).
    cbn [emit_text fst]. rewrite !length_app.
    pose proof (length_newline_indent level).
    pose proof (length_newline_indent (S level)).
    edestruct (emit_items_cost (py "," ++ newline_indent (S level))
                 (iterencode (S level)) cost (x0 :: xs0)) as [_ Hle].
    + rewrite length_app. simpl length. lia.
    + rewrite Forall_forall in *. intros y Hy. split.
      * apply iterencode_ok. by apply H1.
      * apply (IH y Hy). by apply H1.
    + change (length (py "[")) with 1%nat.
      change (length (py "]")) with 1%nat. lia.
  - destruct items as [|kv0 items0]; [simpl; lia|].
    unfold json_text. cbn [iterencode cost]. rewrite emit_then_text. cbn [fst].
    fold (encode_item level).
    rewrite emit_then_ok
      by (apply emit_items_ok; eapply Forall_impl; [exact H2|];
          intros y [_ Hy]; by apply encode_item_ok).
    cbn [emit_text fst]. rewrite !length_app.
    pose proof (length_newline_indent level).
    pose proof (length_newline_indent (S level)).
    edestruct (emit_items_cost (py "," ++ newline_indent (S level))
                 (encode_item level) (fun kv => cost kv.2) (kv0 :: items0))
      as [_ Hle].
    + rewrite length_app. simpl length. lia.
    + rewrite Forall_forall in *. intros [k y] Hy. split.
      * apply encode_item_ok. by apply (H2 _ Hy).
      * rewrite encode_item_text. cbn [fst snd length].
        rewrite length_app. cbn [length].
        pose proof (IH _ Hy (proj2 (H2 _ Hy)) (S level)) as Hc.
        cbn [snd] in Hc. lia.
    + change (length (py "{")) with 1%nat.
      change (length (py "}")) with 1%nat.
      replace (map (fun '(_, x) => S (cost x)) (kv0 :: items0))
        with (map (fun kv : str * pyvalue => S (cost kv.2)) (kv0 :: items0))
        by (apply map_ext; by intros [? ?]).
      lia.
Qed.

(** [json.loads] reads the text of a serialisable value back. *)
Lemma loads_json_text (v : pyvalue) :
  serialisable v → loads (json_text 0 v) = Ret v.
Proof.
  intros Hv. unfold loads.
  destruct (json_text_head v 0 Hv) as (c & t & Ht & Hws & Hbom & _).
  assert (startswith [0xFEFF] (json_text 0 v) = false) as ->.
  { rewrite Ht. simpl. apply andb_false_iff. left. by apply N.eqb_neq. }
  rewrite <- (app_nil_r (json_text 0 v)) at 2.
  rewrite skip_ws_json_text by done.
  rewrite scan_once_json_text; [done|done|].
  pose proof (cost_bound v Hv 0). lia.
Qed.

(** The text of a serialisable value is made of plain characters. *)
Lemma hex_digit_plain (d : N) : d < 16 → plain (hex_digit d) = true.
Proof. intros Hd. unfold plain, hex_digit. cases_N; lia. Qed.

Lemma hex4_plain (n : N) : forallb plain (hex4 n) = true.
Proof.
  unfold hex4. cbn [forallb].
  rewrite !hex_digit_plain by (apply N.mod_lt; lia). done.
Qed.

Lemma escape_char_plain (c : N) : forallb plain (escape_char c) = true.
Proof.
  unfold escape_char.
  repeat (match goal with
          | |- context [N.eqb c ?b] => destruct (N.eqb c b); [done|]
          end).
  destruct (_ && _) eqn:Hp.
  - cbn [forallb]. unfold plain. by rewrite Hp.
  - destruct (c <? 65536).
    + rewrite forallb_app, hex4_plain. done.
    + rewrite !forallb_app, !hex4_plain. done.
Qed.

Lemma encode_basestring_ascii_plain (s : str) :
  forallb plain (encode_basestring_ascii s) = true.
Proof.
  unfold encode_basestring_ascii. rewrite !forallb_app.
  assert (forallb plain (flat_map escape_char s) = true) as ->; [|done].
  induction s as [|c s IH]; [done|].
  cbn [flat_map]. by rewrite forallb_app, escape_char_plain, IH.
Qed.

Lemma newline_indent_plain (level : nat) :
  forallb plain (newline_indent level) = true.
Proof.
  unfold newline_indent. cbn [forallb]. change (plain 10) with true.
  cbn [andb]. induction (4 * level)%nat as [|n IH]; [done|]. exact IH.
Qed.

Lemma emit_items_plain {A} (separator : str) (encode : A → emit)
    (xs : list A) :
  forallb plain separator = true →
  Forall (fun x => (encode x).2 = None ∧ forallb plain (encode x).1 = true) xs →
  ∀ first, forallb plain (emit_items separator encode first xs).1 = true.
Proof.
  intros Hsep. induction 1 as [|x xs' [Hok Hx] _ IH]; intros first; [done|].
  rewrite emit_items_cons by done. rewrite !forallb_app, Hx, IH.
  destruct first; [done|by rewrite Hsep].
Qed.

Lemma json_text_plain (v : pyvalue) :
  serialisable v → ∀ level, forallb plain (json_text level v) = true.
Proof.
  induction v as [| b | z | x | s | xs IH | items IH | c]
    using pyvalue_nested_ind; intros Hv level; inversion Hv; subst;
    unfold json_text.
  - done.
  - by destruct b.
  - apply encode_basestring_ascii_plain.
  - destruct xs as [|x0 xs0]; [done|].
    cbn [iterencode]. rewrite emit_then_text. cbn [fst].
    rewrite emit_then_ok
      by (apply emit_items_ok; eapply Forall_impl; [exact H1|];
          intros y Hy; by apply iterencode_ok).
    cbn [emit_text fst]. rewrite !forallb_app, !newline_indent_plain.
    rewrite emit_items_plain; [done| |].
    + by rewrite forallb_app, newline_indent_plain.
    + rewrite Forall_forall in *. intros y Hy. split.
      * apply iterencode_ok. by apply H1.
      * apply (IH y Hy). by apply H1.
  - destruct items as [|kv0 items0]; [done|].
    cbn [iterencode]. rewrite emit_then_text. cbn [fst].
    fold (encode_item level).
    rewrite emit_then_ok
      by (apply emit_items_ok; eapply Forall_impl; [exact H2|];
          intros y [_ Hy]; by apply encode_item_ok).
    cbn [emit_text fst]. rewrite !forallb_app, !newline_indent_plain.
    rewrite emit_items_plain; [done| |].
    + by rewrite forallb_app, newline_indent_plain.
    + rewrite Forall_forall in *. intros [k y] Hy. split.
      * apply encode_item_ok. by apply (H2 _ Hy).
      * unfold encode_item. rewrite emit_then_text. cbn [fst].
        rewrite !forallb_app, encode_basestring_ascii_plain.
        pose proof (IH _ Hy (proj2 (H2 _ Hy)) (S level)) as Hp.
        unfold json_text in Hp. cbn [snd] in Hp. by rewrite Hp.
Qed.

End RoundTrip.

(** Plain text is its own UTF-8 encoding, and reading it back in text
    mode changes nothing. *)
Lemma utf8_encode_plain (s : str) :
  forallb plain s = true → Codec.utf8_encode s = Some s.
Proof.
  induction s as [|c s IH]; [done|].
  intros [Hc Hs]%andb_true_iff. cbn [Codec.utf8_encode].
  rewrite IH by done. unfold Codec.utf8_encode_char.
  assert (c < 128) as Hlt.
  { unfold plain in Hc. revert Hc. cases_N; intros; lia. }
  by rewrite (proj2 (N.ltb_lt c 128)).
Qed.

Lemma utf8_decode_plain (s : str) :
  forallb plain s = true → Codec.utf8_decode s = Some s.
Proof.
  induction s as [|c s IH]; [done|].
  intros [Hc Hs]%andb_true_iff. cbn [Codec.utf8_decode].
  assert (c < 128) as Hlt.
  { unfold plain in Hc. revert Hc. cases_N; intros; lia. }
  rewrite (proj2 (N.ltb_lt c 128)) by done. by rewrite IH.
Qed.

Lemma replace_from_absent (o : N) (old new s : str) :
  o ∉ s → replace_from (o :: old) new 0 s = s.
Proof.
  induction s as [|c s IH]; [done|].
  intros [Hc Hs]%not_elem_of_cons. cbn [replace_from startswith].
  rewrite (proj2 (N.eqb_neq o c)) by done. cbn [andb]. by rewrite IH.
Qed.

Lemma universal_newlines_plain (s : str) :
  forallb plain s = true → Codec.universal_newlines s = s.
Proof.
  intros Hs. assert (13 ∉ s) as Hcr.
  { intros Hin. by pose proof (forallb_elem _ _ _ Hs Hin). }
  unfold Codec.universal_newlines, replace.
  rewrite (replace_from_absent 13 [10] [10] s) by done.
  by rewrite replace_from_absent.
Qed.

(** ** Saving, then loading *)

Lemma write_at_cons (c : str) (l : list str) (new n' : node)
    (es : gmap str node) :
  l ≠ [] → es !! c = Some n' →
  Os.write_at (c :: l) new (Dir es) = Dir (<[c:=Os.write_at l new n']> es).
Proof. intros Hl Hc. simpl. rewrite Hc. by destruct l. Qed.

Lemma write_at_twice (parent : list str) (name : str) (a b : node) :
  ∀ rt, is_dir (Os.lookup rt parent) →
    Os.write_at (parent ++ [name]) b (Os.write_at (parent ++ [name]) a rt)
    = Os.write_at (parent ++ [name]) b rt.
Proof.
  induction parent as [|c parent IH]; intros rt.
  - destruct rt as [|es]; [done|]. intros _. simpl.
    by rewrite insert_insert_eq.
  - destruct rt as [|es]; [done|]. simpl Os.lookup.
    destruct (es !! c) as [n'|] eqn:Hc; [|done]. intros Hd.
    assert (parent ++ [name] ≠ []) as Hne by (by destruct parent).
    rewrite <- app_comm_cons.
    rewrite (write_at_cons c _ a n' es) by done.
    rewrite (write_at_cons c _ b _ _ Hne (lookup_insert_eq _ _ _)).
    rewrite (write_at_cons c _ b n' es) by done.
    by rewrite insert_insert_eq, IH.
Qed.

(** A location that path resolution returns and that is not a directory
    is an entry of a directory. *)
Lemma reachable_entry (rt : node) (loc : list str) :
  reachable rt loc → ¬ is_dir (Os.lookup rt loc) →
  ∃ parent name, loc = parent ++ [name] ∧ is_dir (Os.lookup rt parent).
Proof. intros [Hd|Hp] Hn; [done|exact Hp]. Qed.

(** After a regular file has been written at the location of a path, the
    path leads to that file. *)
Lemma stat_after_write (w : world) (path : str) (loc : list str) (c : content)
    (out : list (list fragment)) :
  Os.resolve w path = Ret loc →
  ¬ is_dir (Os.lookup (root w) loc) →
  Os.stat (World (Os.write_at loc (File c) (root w)) (cwd w) out) path
  = Ret (File c).
Proof.
  intros Hres Hnd. pose proof (resolve_reachable _ _ _ Hres) as Hreach.
  destruct (reachable_entry _ _ Hreach Hnd) as (parent & name & -> & Hp).
  unfold Os.stat.
  rewrite (resolve_stable w _ path (parent ++ [name])); [|..|done]; cbn [root cwd].
  - by rewrite lookup_write_at_new.
  - intros p. by apply write_at_keeps_dirs.
  - done.
Qed.

Section SaveLoad.
Context `{PyFloat}.

Lemma open_w_success (path : str) (w w1 : world) (f : list str) :
  Os.open_w path w = (Ret f, w1) →
  Os.resolve w path = Ret f ∧ ¬ is_dir (Os.lookup (root w) f)
  ∧ w1 = World (Os.write_at f (File (Bytes [])) (root w)) (cwd w) (stdout w).
Proof.
  unfold Os.open_w. destruct (Os.resolve w path) as [loc|e]; [|done].
  destruct (Os.lookup (root w) loc) as [[c|es]|] eqn:Hl; [|done|];
    intros [= <- <-]; rewrite Hl; repeat split; simpl; tauto.
Qed.

(** What the body of [save_resume_data] leaves when it succeeds: the file
    of the path holds the text of the object, and nothing else changed. *)
Lemma save_body_success (path : str) (obj : pyvalue) (w w' : world) :
  Codec.with_open_w path (fun f => Json.dump obj f) w = (Ret tt, w') →
  ∃ loc b,
    Os.resolve w path = Ret loc
    ∧ ¬ is_dir (Os.lookup (root w) loc)
    ∧ iterencode 0 obj = (json_text 0 obj, None)
    ∧ Codec.utf8_encode (json_text 0 obj) = Some b
    ∧ w' = World (Os.write_at loc (File (Bytes b)) (root w)) (cwd w) (stdout w).
Proof.
  unfold Codec.with_open_w, bind.
  destruct (Os.open_w path w) as [[f|e] w1] eqn:Hopen; [|done].
  apply open_w_success in Hopen as (Hres & Hnd & ->).
  unfold Json.dump, json_text.
  destruct (iterencode 0 obj) as [text failure]. cbn [fst].
  unfold bind, Codec.file_write. cbn [root cwd stdout].
  destruct (Codec.utf8_encode text) as [b|]; [|done].
  destruct failure as [e|]; [done|]. intros [= <-].
  exists f, b. repeat split; try done.
  pose proof (resolve_reachable _ _ _ Hres) as Hreach.
  destruct (reachable_entry _ _ Hreach Hnd) as (parent & name & -> & Hp).
  rewrite lookup_write_at_new by done. cbn [Codec.file_bytes app].
  by rewrite write_at_twice.
Qed.

Lemma save_body_stdout (path : str) (obj : pyvalue) (w w' : world) r :
  Codec.with_open_w path (fun f => Json.dump obj f) w = (r, w') →
  stdout w' = stdout w.
Proof.
  unfold Codec.with_open_w, bind.
  destruct (Os.open_w path w) as [[f|e] w1] eqn:Hopen.
  - assert (stdout w1 = stdout w) as <-.
    { by apply open_w_success in Hopen as (_ & _ & ->). }
    unfold Json.dump. destruct (iterencode 0 obj) as [text failure].
    unfold bind.
    destruct (Codec.file_write f text w1) as [[[]|e] w2] eqn:Hw;
      apply file_write_world in Hw as [_ Hout].
    + destruct failure; by intros [= <- <-].
    + by intros [= <- <-].
  - apply open_w_ordinary in Hopen as [_ ->]. by intros [= <- <-].
Qed.

(** A call of [save_resume_data] that prints nothing has written the file. *)
Lemma save_quiet (name : str) (obj : pyvalue) (w w' : world) :
  save_resume_data name obj w = (Ret tt, w') →
  stdout w' = stdout w →
  Codec.with_open_w (resume_filename name) (fun f => Json.dump obj f) w
  = (Ret tt, w').
Proof.
  unfold save_resume_data, try_except. cbv zeta.
  destruct (Codec.with_open_w _ _ w) as [[[]|e] w1] eqn:Hbody.
  - by intros [= <-].
  - pose proof (save_body_stdout _ _ _ _ _ Hbody) as Hout.
    destruct (issubclass _ _); [|done]. unfold print. intros [= <-].
    cbn [stdout]. rewrite Hout. intros Heq.
    apply (f_equal length) in Heq. rewrite length_app in Heq.
    simpl in Heq. lia.
Qed.

(** Loading right after a save that wrote the text of a serialisable
    value. *)
Lemma load_after_write (name : str) (obj : pyvalue) (w w' : world) :
  serialisable obj →
  Codec.with_open_w (resume_filename name) (fun f => Json.dump obj f) w
  = (Ret tt, w') →
  load_resume_data name w' = (Ret obj, w').
Proof.
  intros Hser (loc & b & Hres & Hnd & _ & Henc & ->)%save_body_success.
  pose proof (json_text_plain obj Hser 0) as Hplain.
  rewrite utf8_encode_plain in Henc by done. injection Henc as <-.
  rewrite load_resume_data_cases, (stat_after_write w _ loc) by done.
  rewrite utf8_decode_plain, universal_newlines_plain by done.
  by rewrite loads_json_text.
Qed.

End SaveLoad.

Lemma sample_record_serialisable : serialisable sample_record.
Proof.
  apply serialisable_dict.
  - apply (bool_decide_unpack _). vm_compute. reflexivity.
  - repeat (apply Forall_cons; split;
            [split; [vm_compute; reflexivity
                    |apply serialisable_str; vm_compute; reflexivity]|]).
    by apply Forall_nil.
Qed.


Section SaveThenLoad.
Context `{PyFloat}.


End SaveThenLoad.


(** ** The file of a name *)

Lemma normalized_head (name : str) :
  startswith OsPath.sep name = false →
  startswith OsPath.sep (normalized name ++ py "_resume.json") = false.
Proof.
  destruct name as [|c s]; [done|].
  unfold normalized, replace. change (py " ") with [32].
  change (py "_") with [95]. change OsPath.sep with [47].
  cbn [replace_from startswith]. rewrite !andb_true_r. intros Hc.
  destruct (32 =? c) eqn:H32; cbn [app startswith].
  - done.
  - by rewrite Hc.
Qed.

Lemma resume_filename_key (name : str) :
  resume_filename name
  = OsPath.join SAVE_DIR (normalized name ++ py "_resume.json").
Proof. reflexivity. Qed.

Lemma resume_filename_same_key (name other : str) :
  normalized other = normalized name →
  resume_filename other = resume_filename name.
Proof. intros Hkey. by rewrite !resume_filename_key, Hkey. Qed.

Lemma resume_filename_relative (name : str) :
  startswith OsPath.sep name = false →
  resume_filename name
  = SAVE_DIR ++ py "/" ++ normalized name ++ py "_resume.json".
Proof.
  intros Hname. unfold resume_filename, OsPath.join.
  fold (normalized name). by rewrite normalized_head.
Qed.

(** C2, as stated, fails: the name [/x] gives the absolute path
    [/x_resume.json], not a path under the store directory; the save
    creates that file in the root directory and nothing in [saves]. *)
Lemma absolute_name_leaves_store :
  resume_filename (py "/x") = py "/x_resume.json"
  ∧ resume_filename (py "/x")
    ≠ SAVE_DIR ++ py "/" ++ normalized (py "/x") ++ py "_resume.json"
  ∧ ∃ w',
      save_resume_data (py "/x") sample_record fresh_world = (Ret tt, w')
      ∧ stdout w' = []
      ∧ Os.stat w' (py "/x_resume.json")
        = Ret (File (Bytes (json_text 0 sample_record)))
      ∧ Os.listdir SAVE_DIR w' = (Ret [], w').
Proof.
  split; [reflexivity|]. split; [by vm_compute|].
  eexists. split; [vm_compute; reflexivity|].
  repeat split; vm_compute; reflexivity.
Qed.

Section FileOfName.
Context `{PyFloat}.

(** C2, amended.  For a name that does not begin with [/], the file of
    the name is [saves/<key>_resume.json], the key being the name with
    spaces replaced by underscores; names with one key have one file
    ("Jane Doe" and "Jane_Doe" among them).  A save that prints no
    failure leaves the text of the object in that file, and after a
    later such save under any name with the same key, a load under the
    first name returns the object saved last. *)
Theorem save_target (name : str) :
  (startswith OsPath.sep name = false →
   resume_filename name
   = SAVE_DIR ++ py "/" ++ normalized name ++ py "_resume.json")
  ∧ (∀ other, normalized other = normalized name →
              resume_filename other = resume_filename name)
  ∧ resume_filename (py "Jane Doe") = resume_filename (py "Jane_Doe")
  ∧ (∀ obj w w',
       save_resume_data name obj w = (Ret tt, w') →
       stdout w' = stdout w →
       ∃ b, Codec.utf8_encode (json_text 0 obj) = Some b
            ∧ Os.stat w' (resume_filename name) = Ret (File (Bytes b)))
  ∧ (∀ other first later w w1 w2,
       normalized other = normalized name →
       serialisable later →
       save_resume_data name first w = (Ret tt, w1) →
       save_resume_data other later w1 = (Ret tt, w2) →
       stdout w2 = stdout w1 →
       load_resume_data name w2 = (Ret later, w2)).
Proof.
  split; [apply resume_filename_relative|].
  split; [intros other; apply resume_filename_same_key|].
  split; [reflexivity|]. split.
  - intros obj w w' Hsave Hquiet.
    pose proof (save_quiet _ _ _ _ Hsave Hquiet) as Hbody.
    apply save_body_success in Hbody as (loc & b & Hres & Hnd & _ & Henc & ->).
    exists b. split; [done|]. by apply stat_after_write.
  - intros other first later w w1 w2 Hkey Hser _ Hsave Hquiet.
    pose proof (load_after_write other later w1 w2 Hser
                  (save_quiet _ _ _ _ Hsave Hquiet)) as Hload.
    rewrite load_resume_data_cases in *.
    by rewrite <- (resume_filename_same_key name other Hkey).
Qed.

End FileOfName.

Lemma save_target_witness :
  startswith OsPath.sep (py "Jane Doe") = false
  ∧ resume_filename (py "Jane Doe") = py "saves/Jane_Doe_resume.json"
  ∧ ∃ w1 w2,
      save_resume_data (py "Jane Doe") (PStr (py "first")) fresh_world
      = (Ret tt, w1)
      ∧ save_resume_data (py "Jane_Doe") sample_record w1 = (Ret tt, w2)
      ∧ load_resume_data (py "Jane Doe") w2 = (Ret sample_record, w2).
Proof.
  split; [reflexivity|].
  split; [exact (proj1 (save_target (py "Jane Doe")) eq_refl)|].
  eexists _, _. split; [vm_compute; reflexivity|].
  split; [vm_compute; reflexivity|].
  eapply (proj2 (proj2 (proj2 (proj2 (save_target (py "Jane Doe")))))
            (py "Jane_Doe") (PStr (py "first")) sample_record fresh_world).
  - reflexivity.
  - exact sample_record_serialisable.
  - vm_compute. reflexivity.
  - vm_compute. reflexivity.
  - reflexivity.
Defined.

(** ** Listing *)

Lemma startswith_prefix (pre s : str) :
  startswith pre s = true → ∃ t, s = pre ++ t.
Proof.
  revert s. induction pre as [|p pre IH]; intros s; [by exists s|].
  destruct s as [|c s]; [done|]. simpl.
  intros [Hc Hs]%andb_true_iff. apply N.eqb_eq in Hc as ->.
  destruct (IH _ Hs) as [t ->]. by exists t.
Qed.

Lemma endswith_app (suf s : str) : endswith suf (s ++ suf) = true.
Proof. unfold endswith. rewrite reverse_app. apply startswith_app. Qed.

Lemma endswith_stem (suf s : str) :
  endswith suf s = true → ∃ stem, s = stem ++ suf.
Proof.
  unfold endswith. intros [t Ht]%startswith_prefix.
  exists (reverse t). apply (f_equal reverse) in Ht.
  by rewrite reverse_involutive, reverse_app, reverse_involutive in Ht.
Qed.

(** A prefix test against a concatenation, by the length of the first
    part. *)
Lemma startswith_app_long (pre s t : str) :
  (length pre ≤ length s)%nat → startswith pre (s ++ t) = startswith pre s.
Proof.
  revert s. induction pre as [|p pre IH]; intros s; [done|].
  destruct s as [|c s]; simpl; [lia|]. intros Hlen.
  by rewrite IH by lia.
Qed.

Lemma startswith_app_short (pre s t : str) :
  (length s ≤ length pre)%nat →
  startswith pre (s ++ t)
  = startswith (take (length s) pre) s && startswith (drop (length s) pre) t.
Proof.
  revert s. induction pre as [|p pre IH]; intros s.
  - destruct s; simpl; [|lia]. by destruct t.
  - destruct s as [|c s]; simpl; [done|]. intros Hlen.
    rewrite IH by lia. by rewrite andb_assoc.
Qed.

(** The suffix [_resume.json] has no border: where it occurs in a stem
    followed by the suffix, it occurs in the stem or it is that suffix. *)
Lemma suffix_no_border (k : nat) :
  (1 ≤ k ≤ 11)%nat → startswith (drop k suffix) suffix = false.
Proof.
  intros Hk. do 12 (destruct k as [|k]; [first [lia|reflexivity]|]). lia.
Qed.

Lemma suffix_not_across (s : str) :
  s ≠ [] → startswith suffix s = false → startswith suffix (s ++ suffix) = false.
Proof.
  intros Hne Hs. destruct (decide (length suffix ≤ length s)%nat) as [Hl|Hl].
  - by rewrite startswith_app_long.
  - rewrite startswith_app_short by lia.
    rewrite suffix_no_border; [apply andb_false_r|].
    destruct s; [done|]. change (length suffix) with 12%nat in Hl.
    simpl in *. lia.
Qed.

Lemma replace_suffix_stem (stem : str) :
  contains suffix stem = false →
  replace suffix [] (stem ++ suffix) = stem.
Proof.
  change (replace suffix [] (stem ++ suffix))
    with (replace_from suffix [] 0 (stem ++ suffix)).
  induction stem as [|c stem IH]; [reflexivity|].
  cbn [contains]. intros [Hhere Hrest]%orb_false_iff.
  rewrite <- app_comm_cons. cbn [replace_from].
  rewrite app_comm_cons, suffix_not_across by done.
  by rewrite IH.
Qed.

Lemma recovered_stem (stem : str) :
  contains suffix stem = false →
  recovered (stem ++ suffix) = replace (py "_") (py " ") stem.
Proof.
  intros Hstem. unfold recovered. fold suffix.
  by rewrite replace_suffix_stem.
Qed.

(** Replacing one character by another, character by character. *)
Lemma replace_char (a b : N) (s : str) :
  replace_from [a] [b] 0 s = map (fun c => if a =? c then b else c) s.
Proof.
  induction s as [|c s IH]; [done|].
  cbn [replace_from startswith map length]. rewrite andb_true_r.
  destruct (a =? c); cbn [app Nat.sub]; by rewrite IH.
Qed.

Lemma normalized_no_slash (name : str) : 47 ∉ name → 47 ∉ normalized name.
Proof.
  unfold normalized, replace. change (py " ") with [32].
  change (py "_") with [95]. cbv iota. rewrite replace_char.
  intros Hname [c [Hc Hin]]%list_elem_of_fmap.
  destruct (N.eqb_spec 32 c); [done|]. by subst.
Qed.

(** Splitting on a single character. *)
Lemma split_absent (c : N) (s : str) : c ∉ s → split [c] s = [s].
Proof.
  unfold split. induction s as [|x s IH]; [done|].
  intros [Hx Hs]%not_elem_of_cons. cbn [split_from startswith].
  rewrite (proj2 (N.eqb_neq c x)) by done. cbn [andb]. by rewrite IH.
Qed.

Lemma split_first (c : N) (a b : str) :
  c ∉ a → split [c] (a ++ c :: b) = a :: split [c] b.
Proof.
  unfold split. induction a as [|x a IH].
  - intros _. cbn [app split_from startswith]. by rewrite N.eqb_refl.
  - intros [Hx Ha]%not_elem_of_cons. cbn [app split_from startswith].
    rewrite (proj2 (N.eqb_neq c x)) by done. cbn [andb]. by rewrite IH.
Qed.

Lemma filter_Permutation {A} (f : A → bool) (l l' : list A) :
  l ≡ₚ l' → List.filter f l ≡ₚ List.filter f l'.
Proof.
  induction 1 as [|x l l' _ IH|x y l|l l' l'' _ IH1 _ IH2]; simpl.
  - done.
  - destruct (f x); by rewrite IH.
  - destruct (f x), (f y); try done. apply perm_swap.
  - by etrans.
Qed.

(** [get_saved_resumes] on the node at the store directory. *)
Lemma get_saved_resumes_cases (w : world) :
  get_saved_resumes w
  = match Os.stat w SAVE_DIR with
    | Ret (Dir es) =>
        (Ret (map recovered
                (List.filter (endswith suffix) (map_to_list es).*1)), w)
    | Ret (File _) => (Raise (Exn NotADirectoryError SAVE_DIR), w)
    | Raise e => (Raise e, w)
    end.
Proof.
  unfold get_saved_resumes, bind, Os.listdir.
  by destruct (Os.stat w SAVE_DIR) as [[c|es]|e].
Qed.

(** Where the store directory and the files in it are. *)
Lemma store_location (w : world) (es : gmap str node) :
  Os.stat w SAVE_DIR = Ret (Dir es) →
  Os.resolve w SAVE_DIR = Ret (cwd w ++ [SAVE_DIR])
  ∧ Os.lookup (root w) (cwd w ++ [SAVE_DIR]) = Some (Dir es).
Proof.
  unfold Os.stat, Os.resolve.
  change (bool_decide (0 ∈ SAVE_DIR)) with false.
  change (negb (truthy SAVE_DIR)) with false.
  change (startswith OsPath.sep SAVE_DIR) with false.
  change (split OsPath.sep SAVE_DIR) with [SAVE_DIR]. cbv iota.
  cbn [Os.walk].
  destruct (Os.lookup (root w) (cwd w)) as [[c|es']|]; try done.
  change (bool_decide (SAVE_DIR = [])) with false.
  change (bool_decide (SAVE_DIR = py ".")) with false.
  change (bool_decide (SAVE_DIR = py "..")) with false. cbn [orb].
  cbv iota.
  destruct (Os.lookup (root w) (cwd w ++ [SAVE_DIR])) as [n|]; [|done].
  by intros [= ->].
Qed.

Lemma resolve_store_file (w : world) (file : str) (es : gmap str node)
    (loc : list str) :
  Os.stat w SAVE_DIR = Ret (Dir es) →
  47 ∉ file → (3 ≤ length file)%nat →
  Os.resolve w (SAVE_DIR ++ py "/" ++ file) = Ret loc →
  loc = (cwd w ++ [SAVE_DIR]) ++ [file].
Proof.
  intros [_ Hstore]%store_location Hslash Hlen. unfold Os.resolve.
  destruct (bool_decide _); [done|]. destruct (negb _); [done|].
  change (startswith OsPath.sep (SAVE_DIR ++ py "/" ++ file)) with false.
  cbv iota. change OsPath.sep with [47]. change (py "/" ++ file) with (47 :: file).
  rewrite split_first by (by vm_compute; intros ?%list_elem_of_In; simpl in *; intuition lia).
  rewrite split_absent by done. cbn [Os.walk].
  destruct (Os.lookup (root w) (cwd w)) as [[c|es']|]; try done.
  change (bool_decide (SAVE_DIR = [])) with false.
  change (bool_decide (SAVE_DIR = py ".")) with false.
  change (bool_decide (SAVE_DIR = py "..")) with false. cbn [orb].
  cbv iota. rewrite Hstore.
  rewrite !bool_decide_eq_false_2; [by intros [= <-]|..];
    intros ->; simpl in Hlen; lia.
Qed.

Lemma no_slash_relative (name : str) : 47 ∉ name → startswith OsPath.sep name = false.
Proof.
  destruct name as [|c s]; [done|]. intros [Hc _]%not_elem_of_cons.
  change OsPath.sep with [47]. cbn [startswith].
  by rewrite (proj2 (N.eqb_neq 47 c)).
Qed.

Section Listing.
Context `{PyFloat}.

(** A save that prints nothing, under a name without a slash, puts the
    file of the name into the store directory and changes no other
    entry of it. *)
Lemma quiet_save_store (name : str) (obj : pyvalue) (w w' : world)
    (es : gmap str node) :
  47 ∉ name →
  Os.stat w SAVE_DIR = Ret (Dir es) →
  save_resume_data name obj w = (Ret tt, w') →
  stdout w' = stdout w →
  ∃ b, Os.stat w' SAVE_DIR
       = Ret (Dir (<[normalized name ++ suffix := File (Bytes b)]> es)).
Proof.
  intros Hslash Hstat Hsave Hquiet.
  pose proof (save_quiet _ _ _ _ Hsave Hquiet) as Hbody.
  apply save_body_success in Hbody as (loc & b & Hres & Hnd & _ & _ & ->).
  exists b. destruct (store_location _ _ Hstat) as [Hstore Hes].
  rewrite resume_filename_relative in Hres by by apply no_slash_relative.
  apply (resolve_store_file w _ es) in Hres as ->; [|done|..].
  - unfold Os.stat.
    rewrite (resolve_stable w _ SAVE_DIR (cwd w ++ [SAVE_DIR]));
      [|..|done]; cbn [root cwd].
    + by rewrite (lookup_write_at_parent _ _ _ _ es).
    + intros p. by apply write_at_keeps_dirs.
    + done.
  - intros [Hin|Hin]%elem_of_app.
    + by apply normalized_no_slash in Hin.
    + by vm_compute in Hin; apply list_elem_of_In in Hin; simpl in Hin;
        intuition lia.
  - rewrite length_app. change (length (py "_resume.json")) with 12%nat. lia.
Qed.

Lemma elem_of_listing (es : gmap str node) (x : str) :
  x ∈ map recovered (List.filter (endswith suffix) (map_to_list es).*1)
  ↔ (∃ stem, is_Some (es !! (stem ++ suffix))
             ∧ x = recovered (stem ++ suffix)).
Proof.
  rewrite list_elem_of_fmap. split.
  - intros (file & -> & Hin). apply list_elem_of_In, filter_In in Hin as [Hin Hend].
    apply endswith_stem in Hend as [stem ->]. exists stem. split; [|done].
    apply list_elem_of_In, list_elem_of_fmap in Hin as ([k v] & Hk & Hkv).
    simpl in Hk. subst k. apply elem_of_map_to_list in Hkv. by exists v.
  - intros (stem & [v Hv] & ->). exists (stem ++ suffix). split; [done|].
    apply list_elem_of_In, filter_In. split; [|apply endswith_app].
    apply list_elem_of_In, list_elem_of_fmap. exists (stem ++ suffix, v).
    split; [done|]. by apply elem_of_map_to_list.
Qed.

(** C8, amended.  [get_saved_resumes] returns, in the order of the
    directory, one name for each entry of the store directory whose name
    ends in [_resume.json] (so a name can come more than once): the file
    name with every [_resume.json] in it replaced by nothing, and then
    every underscore by a space; for an entry in whose name [_resume.json]
    occurs only as that ending, this is the rest of the file name with
    underscores replaced by spaces.  After three saves that printed no
    failure, into an empty store, under names without a slash whose keys
    differ and do not hold [_resume.json], it returns the three
    reconstructed names, in some order. *)
Theorem saved_resumes_listing :
  (∀ w es, Os.stat w SAVE_DIR = Ret (Dir es) →
     get_saved_resumes w
     = (Ret (map (fun file =>
                    replace (py "_") (py " ")
                      (replace (py "_resume.json") [] file))
               (List.filter (endswith (py "_resume.json"))
                  (map_to_list es).*1)), w))
  ∧ (∀ stem, contains suffix stem = false →
             recovered (stem ++ suffix) = replace (py "_") (py " ") stem)
  ∧ (∀ n1 n2 n3 o1 o2 o3 w0 w1 w2 w3,
       Os.stat w0 SAVE_DIR = Ret (Dir ∅) →
       Forall (fun n => (47 ∉ n) ∧ contains suffix (normalized n) = false)
         [n1; n2; n3] →
       NoDup [normalized n1; normalized n2; normalized n3] →
       save_resume_data n1 o1 w0 = (Ret tt, w1) → stdout w1 = stdout w0 →
       save_resume_data n2 o2 w1 = (Ret tt, w2) → stdout w2 = stdout w1 →
       save_resume_data n3 o3 w2 = (Ret tt, w3) → stdout w3 = stdout w2 →
       ∃ names, get_saved_resumes w3 = (Ret names, w3)
         ∧ names ≡ₚ [reconstructed n1; reconstructed n2; reconstructed n3]).
Proof.
  split; [|split].
  - intros w es Hstat. by rewrite get_saved_resumes_cases, Hstat.
  - apply recovered_stem.
  - intros n1 n2 n3 o1 o2 o3 w0 w1 w2 w3 Hempty Hnames Hdistinct
      Hs1 Hq1 Hs2 Hq2 Hs3 Hq3.
    apply Forall_cons in Hnames as [[Hn1 Hk1] Hnames].
    apply Forall_cons in Hnames as [[Hn2 Hk2] Hnames].
    apply Forall_cons in Hnames as [[Hn3 Hk3] _].
    destruct (quiet_save_store _ _ _ _ _ Hn1 Hempty Hs1 Hq1) as [b1 Hst1].
    destruct (quiet_save_store _ _ _ _ _ Hn2 Hst1 Hs2 Hq2) as [b2 Hst2].
    destruct (quiet_save_store _ _ _ _ _ Hn3 Hst2 Hs3 Hq3) as [b3 Hst3].
    rewrite get_saved_resumes_cases, Hst3. eexists. split; [done|].
    apply NoDup_cons in Hdistinct as [Hd1 Hdistinct].
    apply NoDup_cons in Hdistinct as [Hd2 _].
    assert (normalized n1 ≠ normalized n2 ∧ normalized n1 ≠ normalized n3
            ∧ normalized n2 ≠ normalized n3) as (H12 & H13 & H23).
    { split_and!; intros Heq; [apply Hd1|apply Hd1|apply Hd2]; rewrite Heq;
        set_solver. }
    assert ((map_to_list
               (<[normalized n3 ++ suffix:=File (Bytes b3)]>
                  (<[normalized n2 ++ suffix:=File (Bytes b2)]>
                     (<[normalized n1 ++ suffix:=File (Bytes b1)]> ∅)))).*1
            ≡ₚ [normalized n3 ++ suffix; normalized n2 ++ suffix;
                normalized n1 ++ suffix]) as Hfiles.
    { rewrite map_to_list_insert
        by (rewrite !lookup_insert_ne, lookup_empty; [done|..];
            intros Heq%app_inv_tail; congruence).
      rewrite map_to_list_insert
        by (rewrite !lookup_insert_ne, lookup_empty; [done|..];
            intros Heq%app_inv_tail; congruence).
      by rewrite insert_empty, map_to_list_singleton. }
    apply (filter_Permutation (endswith suffix)) in Hfiles.
    apply (Permutation_map recovered) in Hfiles.
    etrans; [exact Hfiles|].
    cbn [List.filter]. rewrite !endswith_app. cbn [map].
    rewrite !recovered_stem by done. fold (reconstructed n1).
    fold (reconstructed n2). fold (reconstructed n3).
    apply Permutation_rev.
Qed.

End Listing.

(** C8, as stated, fails, in three ways.  Three saves under the names
    [a], [b] and [../c], whose keys differ, all succeed and print nothing,
    but the third file is [saves/../c_resume.json], next to the store and
    not in it, and the listing has two names.  Three saves under the
    names [a], [b] and [a_resume.json], whose keys differ, all succeed and
    print nothing, but the file of the third is listed as [a], since every
    [_resume.json] of a file name is removed: the listing has [a] twice
    and does not have [a resume.json].  And of three saves under the names
    [a], [b] and [c] followed by a NUL character, whose keys differ, the
    third fails, prints its line and leaves no file: the listing has two
    names. *)
Lemma listing_differs_from_saved_names :
  (∃ w1 w2 w3 names,
     Os.listdir SAVE_DIR fresh_world = (Ret [], fresh_world)
     ∧ NoDup [normalized (py "a"); normalized (py "b"); normalized (py "../c")]
     ∧ save_resume_data (py "a") sample_record fresh_world = (Ret tt, w1)
     ∧ save_resume_data (py "b") sample_record w1 = (Ret tt, w2)
     ∧ save_resume_data (py "../c") sample_record w2 = (Ret tt, w3)
     ∧ stdout w3 = []
     ∧ get_saved_resumes w3 = (Ret names, w3)
     ∧ length names = 2%nat
     ∧ ¬ names ≡ₚ [reconstructed (py "a"); reconstructed (py "b");
                   reconstructed (py "../c")])
  ∧ (∃ w1 w2 w3 names,
       NoDup [normalized (py "a"); normalized (py "b");
              normalized (py "a_resume.json")]
       ∧ save_resume_data (py "a") sample_record fresh_world = (Ret tt, w1)
       ∧ save_resume_data (py "b") sample_record w1 = (Ret tt, w2)
       ∧ save_resume_data (py "a_resume.json") sample_record w2 = (Ret tt, w3)
       ∧ stdout w3 = []
       ∧ get_saved_resumes w3 = (Ret names, w3)
       ∧ names ≡ₚ [py "a"; py "a"; py "b"]
       ∧ reconstructed (py "a_resume.json") = py "a resume.json"
       ∧ (py "a resume.json" ∉ names))
  ∧ (∃ w1 w2 w3 names,
       NoDup [normalized (py "a"); normalized (py "b");
              normalized (py "c" ++ [0])]
       ∧ save_resume_data (py "a") sample_record fresh_world = (Ret tt, w1)
       ∧ save_resume_data (py "b") sample_record w1 = (Ret tt, w2)
       ∧ save_resume_data (py "c" ++ [0]) sample_record w2 = (Ret tt, w3)
       ∧ stdout w3
         = [save_error_line (Exn ValueError (py "embedded null byte"))]
       ∧ get_saved_resumes w3 = (Ret names, w3)
       ∧ length names = 2%nat).
Proof.
  split; [|split].
  - eexists _, _, _, _.
    split; [vm_compute; reflexivity|].
    split; [apply (bool_decide_unpack _); vm_compute; reflexivity|].
    split; [vm_compute; reflexivity|].
    split; [vm_compute; reflexivity|].
    split; [vm_compute; reflexivity|].
    split; [vm_compute; reflexivity|].
    split; [vm_compute; reflexivity|].
    split; [reflexivity|].
    intros Hperm%Permutation_length. discriminate Hperm.
  - eexists _, _, _, _.
    split; [apply (bool_decide_unpack _); vm_compute; reflexivity|].
    split; [vm_compute; reflexivity|].
    split; [vm_compute; reflexivity|].
    split; [vm_compute; reflexivity|].
    split; [vm_compute; reflexivity|].
    split; [vm_compute; reflexivity|].
    split; [apply (bool_decide_unpack _); vm_compute; reflexivity|].
    split; [vm_compute; reflexivity|].
    apply (bool_decide_unpack _). vm_compute. reflexivity.
  - eexists _, _, _, _.
    split; [apply (bool_decide_unpack _); vm_compute; reflexivity|].
    split; [vm_compute; reflexivity|].
    split; [vm_compute; reflexivity|].
    split; [vm_compute; reflexivity|].
    split; [vm_compute; reflexivity|].
    split; [vm_compute; reflexivity|].
    reflexivity.
Qed.

Lemma saved_resumes_listing_witness :
  ∃ w1 w2 w3 names,
    save_resume_data (py "Jane Doe") sample_record fresh_world = (Ret tt, w1)
    ∧ save_resume_data (py "Bob") (PStr (py "b")) w1 = (Ret tt, w2)
    ∧ save_resume_data (py "Li_Wei") (PList []) w2 = (Ret tt, w3)
    ∧ get_saved_resumes w3 = (Ret names, w3)
    ∧ names ≡ₚ [py "Jane Doe"; py "Bob"; py "Li Wei"].
Proof.
  eexists _, _, _.
  assert (∀ w1 w2 w3,
            save_resume_data (py "Jane Doe") sample_record fresh_world
            = (Ret tt, w1) →
            save_resume_data (py "Bob") (PStr (py "b")) w1 = (Ret tt, w2) →
            save_resume_data (py "Li_Wei") (PList []) w2 = (Ret tt, w3) →
            stdout w1 = [] → stdout w2 = [] → stdout w3 = [] →
            ∃ names, get_saved_resumes w3 = (Ret names, w3)
              ∧ names ≡ₚ [py "Jane Doe"; py "Bob"; py "Li Wei"]) as Huse.
  { intros w1 w2 w3 Hs1 Hs2 Hs3 Hq1 Hq2 Hq3.
    apply (proj2 (proj2 saved_resumes_listing)
             (py "Jane Doe") (py "Bob") (py "Li_Wei")
             sample_record (PStr (py "b")) (PList [])
             fresh_world w1 w2 w3);
      [reflexivity| | |exact Hs1| |exact Hs2| |exact Hs3|].
    - repeat (apply Forall_cons; split;
              [split; [apply (bool_decide_unpack _); vm_compute; reflexivity
                      |vm_compute; reflexivity]|]).
      by apply Forall_nil.
    - apply (bool_decide_unpack _). vm_compute. reflexivity.
    - rewrite Hq1. reflexivity.
    - rewrite Hq2, Hq1. reflexivity.
    - rewrite Hq3, Hq2. reflexivity. }
  edestruct Huse as (names & Hget & Hperm);
    [vm_compute; reflexivity..|].
  exists names. split; [vm_compute; reflexivity|].
  split; [vm_compute; reflexivity|]. split; [vm_compute; reflexivity|].
  split; [exact Hget|exact Hperm].
Defined.

(** ** The scanner's budget is always enough *)

Lemma skip_ws_length (s : str) : (length (skip_ws s) ≤ length s)%nat.
Proof.
  induction s as [|c s IH]; simpl; [done|]. destruct (is_ws c); simpl; lia.
Qed.

Lemma span_digits_length (s ds r : str) :
  span_digits s = (ds, r) → (length r ≤ length s)%nat.
Proof.
  revert ds r. induction s as [|c s IH]; intros ds r; simpl.
  - by intros [= <- <-].
  - destruct (is_digit c).
    + destruct (span_digits s) as [ds' r'] eqn:Hs. intros [= <- <-].
      specialize (IH _ _ eq_refl). lia.
    + intros [= <- <-]. simpl. lia.
Qed.

Lemma prepend_Some (c : N) (x : option (str * str)) (k r : str) :
  prepend c x = Some (k, r) → ∃ k', x = Some (k', r).
Proof. destruct x as [[k' r']|]; [|done]. intros [= <- <-]. eauto. Qed.

Lemma scanstring_shorter (n : nat) :
  ∀ s k r, (length s ≤ n)%nat → scanstring s = Some (k, r) →
    (length r < length s)%nat.
Proof.
  induction n as [|n IH]; intros s k r Hn; (destruct s as [|c s1]; [done|]);
    [simpl in Hn; lia|].
  cbn [scanstring]. intros Hs.
  repeat (case_match; try done); simplify_eq; cbn [length] in *; try lia;
    apply prepend_Some in Hs as [k' Hs]; apply IH in Hs; cbn [length] in *;
    lia.
Qed.

Section Budget.
Context `{PyFloat}.

Lemma match_number_shorter (s : str) (v : pyvalue) (r : str) :
  match_number s = Some (v, r) → (length r < length s)%nat.
Proof.
  unfold match_number. intros Hm.
  repeat (case_match; simplify_eq; try done);
    repeat match goal with
      | Hs : span_digits _ = _ |- _ => apply span_digits_length in Hs
      end; simpl in *; lia.
Qed.

Lemma scan_shorter (fuel : nat) :
  (∀ s v r, scan_once fuel s = Scanned v r → (length r < length s)%nat)
  ∧ (∀ acc s v r, scan_array fuel acc s = Scanned v r →
       (length r < length s)%nat)
  ∧ (∀ acc s v r, scan_object fuel acc s = Scanned v r →
       (length r < length s)%nat).
Proof.
  induction fuel as [|f (IHonce & IHarray & IHobject)]; [done|].
  split; [|split].
  - intros s v r. cbn [scan_once]. destruct s as [|c s1]; [done|].
    destruct (c =? 34).
    { destruct (scanstring s1) as [[k rest]|] eqn:Hk; [|done].
      intros [= <- <-].
      apply (scanstring_shorter _ _ _ _ (le_n _)) in Hk. simpl. lia. }
    destruct (c =? 123).
    { pose proof (skip_ws_length s1) as Hw.
      destruct (skip_ws s1) as [|c' s2]; [done|].
      destruct (c' =? 125); [intros [= <- <-]; simpl in *; lia|].
      intros Hs%IHobject. simpl in *. lia. }
    destruct (c =? 91).
    { pose proof (skip_ws_length s1) as Hw.
      destruct (skip_ws s1) as [|c' s2]; [done|].
      destruct (c' =? 93); [intros [= <- <-]; simpl in *; lia|].
      intros Hs%IHarray. simpl in *. lia. }
    repeat (destruct (startswith _ (c :: s1));
            [intros [= <- <-]; rewrite length_drop; simpl; lia|]).
    unfold of_option. destruct (match_number _) as [[v' r']|] eqn:Hm; [|done].
    intros [= <- <-]. by apply match_number_shorter in Hm.
  - intros acc s v r. cbn [scan_array].
    destruct (scan_once f s) as [v' rest| |] eqn:Hv; try done.
    apply IHonce in Hv. pose proof (skip_ws_length rest) as Hw.
    destruct (skip_ws rest) as [|c r'] eqn:Hsk; [done|].
    destruct (c =? 93); [intros [= <- <-]; simpl in *; lia|].
    destruct (c =? 44); [|done]. intros Hs%IHarray.
    pose proof (skip_ws_length r'). simpl in *. lia.
  - intros acc s v r. cbn [scan_object].
    destruct s as [|q s1]; [done|]. destruct (q =? 34); [|done].
    destruct (scanstring s1) as [[k rest]|] eqn:Hk; [|done].
    apply (scanstring_shorter _ _ _ _ (le_n _)) in Hk.
    pose proof (skip_ws_length rest) as Hw.
    destruct (skip_ws rest) as [|c r0] eqn:Hsk; [done|].
    destruct (c =? 58); [|done].
    destruct (scan_once f (skip_ws r0)) as [v' rest'| |] eqn:Hv; try done.
    apply IHonce in Hv. pose proof (skip_ws_length r0) as Hw0.
    pose proof (skip_ws_length rest') as Hw'.
    destruct (skip_ws rest') as [|c' r'] eqn:Hsk'; [done|].
    destruct (c' =? 125); [intros [= <- <-]; simpl in *; lia|].
    destruct (c' =? 44); [|done]. intros Hs%IHobject.
    pose proof (skip_ws_length r'). simpl in *. lia.
Qed.

(** With two calls for every character and one or two to start with, a
    scanner never uses its budget up. *)
Lemma scan_budget (fuel : nat) :
  (∀ s, (2 * length s + 1 ≤ fuel)%nat → scan_once fuel s ≠ Exhausted)
  ∧ (∀ acc s, (2 * length s + 2 ≤ fuel)%nat →
       scan_array fuel acc s ≠ Exhausted)
  ∧ (∀ acc s, (2 * length s + 2 ≤ fuel)%nat →
       scan_object fuel acc s ≠ Exhausted).
Proof.
  induction fuel as [|f (IHonce & IHarray & IHobject)].
  { repeat split; intros; lia. }
  destruct (scan_shorter f) as (Honce & _ & _).
  split; [|split].
  - intros s Hf. cbn [scan_once]. destruct s as [|c s1]; [done|].
    simpl in Hf.
    destruct (c =? 34); [by destruct (scanstring s1) as [[? ?]|]|].
    destruct (c =? 123).
    { pose proof (skip_ws_length s1) as Hw.
      destruct (skip_ws s1) as [|c' s2]; [done|].
      destruct (c' =? 125); [done|]. apply IHobject. simpl in *. lia. }
    destruct (c =? 91).
    { pose proof (skip_ws_length s1) as Hw.
      destruct (skip_ws s1) as [|c' s2]; [done|].
      destruct (c' =? 93); [done|]. apply IHarray. simpl in *. lia. }
    repeat (destruct (startswith _ (c :: s1)); [done|]).
    unfold of_option. by destruct (match_number _) as [[? ?]|].
  - intros acc s Hf. cbn [scan_array].
    destruct (scan_once f s) as [v rest| |] eqn:Hv; [|done|].
    + apply Honce in Hv. pose proof (skip_ws_length rest) as Hw.
      destruct (skip_ws rest) as [|c r]; [done|].
      destruct (c =? 93); [done|]. destruct (c =? 44); [|done].
      apply IHarray. pose proof (skip_ws_length r). simpl in *. lia.
    + by apply IHonce in Hv; [|lia].
  - intros acc s Hf. cbn [scan_object].
    destruct s as [|q s1]; [done|]. destruct (q =? 34); [|done].
    destruct (scanstring s1) as [[k rest]|] eqn:Hk; [|done].
    apply (scanstring_shorter _ _ _ _ (le_n _)) in Hk.
    pose proof (skip_ws_length rest) as Hw.
    destruct (skip_ws rest) as [|c r0]; [done|].
    destruct (c =? 58); [|done]. pose proof (skip_ws_length r0) as Hw0.
    destruct (scan_once f (skip_ws r0)) as [v rest'| |] eqn:Hv; [|done|].
    + apply Honce in Hv. pose proof (skip_ws_length rest') as Hw'.
      destruct (skip_ws rest') as [|c' r']; [done|].
      destruct (c' =? 125); [done|]. destruct (c' =? 44); [|done].
      apply IHobject. pose proof (skip_ws_length r'). simpl in *. lia.
    + apply IHonce in Hv; [done|]. simpl in *. lia.
Qed.

(** [json.loads] returns a value or raises [JSONDecodeError]: the budget
    of the model never runs out. *)
Lemma loads_raises (s : str) (e : exn) :
  loads s = Raise e → e = Exn JSONDecodeError s.
Proof.
  unfold loads. destruct (startswith _ s); [by intros [= <-]|].
  destruct (scan_once _ _) as [v rest| |] eqn:Hscan.
  - destruct (skip_ws rest); [done|]. by intros [= <-].
  - by intros [= <-].
  - destruct (proj1 (scan_budget (2 * length s + 2)) (skip_ws s)); [|done].
    pose proof (skip_ws_length s). lia.
Qed.

End Budget.

Section LoadingText.
Context `{PyFloat}.

(** A file whose bytes are UTF-8 text: [load_resume_data] returns the
    value the text stands for, or, when the text is not JSON, prints the
    line for a corrupt file and returns [None]. *)
Lemma load_resume_data_text (name : str) (w : world) (b s : str) :
  Os.stat w (resume_filename name) = Ret (File (Bytes b)) →
  Codec.utf8_decode b = Some s →
  load_resume_data name w
  = match loads (Codec.universal_newlines s) with
    | Ret v => (Ret v, w)
    | Raise _ =>
        (Ret PNone,
         World (root w) (cwd w)
           (stdout w ++ [load_error_line (resume_filename name)]))
    end.
Proof.
  intros Hstat Hdec. rewrite load_resume_data_cases, Hstat, Hdec.
  destruct (loads _) as [v|e] eqn:Hloads; [done|].
  by apply loads_raises in Hloads as ->.
Qed.

(** No file at the path of the name: [load_resume_data] returns [None]. *)
Lemma load_resume_data_missing (name : str) (w : world) (e : exn) :
  Os.stat w (resume_filename name) = Raise e →
  load_resume_data name w = (Ret PNone, w).
Proof. intros Hstat. by rewrite load_resume_data_cases, Hstat. Qed.

End LoadingText.

(** ** The document written *)

(** A build that returns has left, at the destination, the document of
    the story. *)
Lemma build_writes_story (filename : str) (story : list flowable)
    (w w' : world) :
  SimpleDocTemplate_build filename story w = (Ret tt, w') →
  Os.stat w' filename = Ret (File (Document story)).
Proof.
  unfold SimpleDocTemplate_build, bind.
  destruct (Os.open_w filename w) as [[f|e] w1] eqn:Hopen; [|done].
  apply open_w_success in Hopen as (Hres & Hnd & ->). intros [= <-].
  cbn [root cwd stdout].
  pose proof (resolve_reachable _ _ _ Hres) as Hreach.
  destruct (reachable_entry _ _ Hreach Hnd) as (parent & name & -> & Hp).
  rewrite write_at_twice by done.
  by apply stat_after_write.
Qed.

Section Placeholder.
Context `{Markup}.

(** C5. A text that is empty or made of whitespace only is rendered as the
    title followed by the one paragraph "No content available.": that is
    the story handed to the document builder, and the document a call of
    [save_to_pdf] that returns has written at its destination. *)
Theorem blank_text_renders_placeholder (text filename : str) :
  forallb isspace text = true →
  pdf_elements text
  = Ret [Paragraph (py "<b>Resume</b>") Title; Spacer 1 (0.2 * inch);
         Paragraph (py "No content available.") Normal]
  ∧ ∀ w w',
      save_to_pdf text filename w = (Ret tt, w') →
      Os.stat w' filename
      = Ret (File (Document
                     [Paragraph (py "<b>Resume</b>") Title;
                      Spacer 1 (0.2 * inch);
                      Paragraph (py "No content available.") Normal])).
Proof.
  intros Hblank. pose proof (pdf_elements_blank text Hblank) as Hstory.
  split; [exact Hstory|].
  intros w w' Hsave. unfold save_to_pdf in Hsave. rewrite Hstory in Hsave.
  by apply build_writes_story in Hsave.
Qed.

End Placeholder.

Lemma blank_text_renders_placeholder_witness :
  forallb isspace [32; 9; 10; 32] = true
  ∧ ∃ w',
      save_to_pdf [32; 9; 10; 32] (py "saves/out.pdf") fresh_world = (Ret tt, w')
      ∧ Os.stat w' (py "saves/out.pdf")
        = Ret (File (Document
                       [Paragraph (py "<b>Resume</b>") Title;
                        Spacer 1 (0.2 * inch);
                        Paragraph (py "No content available.") Normal])).
Proof.
  split; [reflexivity|]. eexists. split; [vm_compute; reflexivity|].
  apply (proj2 (blank_text_renders_placeholder [32; 9; 10; 32]
                  (py "saves/out.pdf") eq_refl) fresh_world).
  vm_compute. reflexivity.
Defined.

(** * Further properties *)

(** ** Files of the store *)

(** In a world with a store directory, what [os.stat] finds at the path
    of a file name (without a slash, three characters or more) is the
    store's entry of that name. *)
Lemma stat_store_file (w : world) (file : str) (es : gmap str node) :
  Os.stat w SAVE_DIR = Ret (Dir es) →
  47 ∉ file → (3 ≤ length file)%nat →
  Os.stat w (SAVE_DIR ++ py "/" ++ file)
  = if bool_decide (0 ∈ SAVE_DIR ++ py "/" ++ file)
    then Raise (Exn ValueError (py "embedded null byte"))
    else match es !! file with
         | Some n => Ret n
         | None => Raise (Exn FileNotFoundError (SAVE_DIR ++ py "/" ++ file))
         end.
Proof.
  intros Hstat Hslash Hlen.
  destruct (store_location _ _ Hstat) as [_ Hstore].
  unfold Os.stat at 1.
  destruct (Os.resolve w (SAVE_DIR ++ py "/" ++ file)) as [loc|e] eqn:Hres.
  - pose proof Hres as Hnul. unfold Os.resolve in Hnul.
    destruct (bool_decide (0 ∈ _)); [done|]. clear Hnul.
    apply (resolve_store_file w file es) in Hres as ->; [|done..].
    rewrite lookup_app, Hstore. simpl. by destruct (es !! file).
  - revert Hres. unfold Os.resolve.
    destruct (bool_decide (0 ∈ _)); [by intros [= <-]|].
    change (negb (truthy (SAVE_DIR ++ py "/" ++ file))) with false. cbv iota.
    change (startswith OsPath.sep (SAVE_DIR ++ py "/" ++ file)) with false.
    cbv iota. change OsPath.sep with [47].
    change (py "/" ++ file) with (47 :: file).
    rewrite split_first
      by (by vm_compute; intros ?%list_elem_of_In; simpl in *; intuition lia).
    rewrite split_absent by done. cbn [Os.walk].
    unfold Os.stat, Os.resolve in Hstat. revert Hstat.
    change (bool_decide (0 ∈ SAVE_DIR)) with false.
    change (negb (truthy SAVE_DIR)) with false.
    change (startswith OsPath.sep SAVE_DIR) with false.
    change (split OsPath.sep SAVE_DIR) with [SAVE_DIR]. cbv iota.
    cbn [Os.walk].
    destruct (Os.lookup (root w) (cwd w)) as [[c|es']|]; try done.
    change (bool_decide (SAVE_DIR = [])) with false.
    change (bool_decide (SAVE_DIR = py ".")) with false.
    change (bool_decide (SAVE_DIR = py "..")) with false. cbn [orb].
    cbv iota. rewrite Hstore. intros _.
    rewrite !bool_decide_eq_false_2; [done|..];
      intros ->; simpl in Hlen; lia.
Qed.

Lemma key_file_no_slash (name : str) :
  47 ∉ name → 47 ∉ normalized name ++ suffix.
Proof.
  intros Hname [Hin|Hin]%elem_of_app.
  - by apply normalized_no_slash in Hin.
  - by vm_compute in Hin; apply list_elem_of_In in Hin; simpl in Hin;
      intuition lia.
Qed.

Lemma key_file_length (name : str) : (3 ≤ length (normalized name ++ suffix))%nat.
Proof. rewrite length_app. change (length suffix) with 12%nat. lia. Qed.

Lemma resume_filename_store (name : str) :
  47 ∉ name →
  resume_filename name = SAVE_DIR ++ py "/" ++ normalized name ++ suffix.
Proof. intros Hname. by apply resume_filename_relative, no_slash_relative. Qed.

Section Store.
Context `{PyFloat}.

(** What the body of [save_resume_data] does to the world, whatever its
    outcome: nothing, or one regular file put at the location of the
    path. *)
Lemma save_body_effect (path : str) (obj : pyvalue) (w w' : world) r :
  Codec.with_open_w path (fun f => Json.dump obj f) w = (r, w') →
  w' = w
  ∨ ∃ loc b,
      Os.resolve w path = Ret loc
      ∧ ¬ is_dir (Os.lookup (root w) loc)
      ∧ w' = World (Os.write_at loc (File (Bytes b)) (root w)) (cwd w) (stdout w).
Proof.
  unfold Codec.with_open_w, bind.
  destruct (Os.open_w path w) as [[f|e] w1] eqn:Hopen.
  - apply open_w_success in Hopen as (Hres & Hnd & ->).
    pose proof (resolve_reachable _ _ _ Hres) as Hreach.
    destruct (reachable_entry _ _ Hreach Hnd) as (parent & name & -> & Hp).
    unfold Json.dump. destruct (iterencode 0 obj) as [text failure].
    unfold bind, Codec.file_write. cbn [root cwd stdout].
    destruct (Codec.utf8_encode text) as [b|].
    + rewrite write_at_twice by done. intros Heq. right.
      eexists _, _. split; [done|]. split; [done|].
      by destruct failure; injection Heq as <- <-.
    + intros [= <- <-]. right. by eexists _, _.
  - apply open_w_ordinary in Hopen as [_ ->]. intros [= <- <-]. by left.
Qed.

(** A save under a name without a slash leaves the store directory a
    directory, and changes at most the entry of the name's file. *)
Lemma save_store_effect (name : str) (obj : pyvalue) (w w' : world)
    (es : gmap str node) :
  47 ∉ name →
  Os.stat w SAVE_DIR = Ret (Dir es) →
  save_resume_data name obj w = (Ret tt, w') →
  cwd w' = cwd w
  ∧ ∃ es', Os.stat w' SAVE_DIR = Ret (Dir es')
      ∧ ∀ file, file ≠ normalized name ++ suffix → es' !! file = es !! file.
Proof.
  intros Hslash Hstat. unfold save_resume_data, try_except. cbv zeta.
  destruct (Codec.with_open_w _ _ w) as [r w1] eqn:Hbody.
  assert (cwd w1 = cwd w
          ∧ ∃ es', Os.stat w1 SAVE_DIR = Ret (Dir es')
              ∧ ∀ file, file ≠ normalized name ++ suffix →
                        es' !! file = es !! file) as Hw1.
  { apply save_body_effect in Hbody as [->|(loc & b & Hres & Hnd & ->)].
    - split; [done|]. by exists es.
    - split; [done|].
      destruct (store_location _ _ Hstat) as [Hstore Hes].
      rewrite resume_filename_store in Hres by done.
      apply (resolve_store_file w _ es) in Hres as ->;
        [|done|by apply key_file_no_slash|apply key_file_length].
      eexists. split.
      + unfold Os.stat.
        rewrite (resolve_stable w _ SAVE_DIR (cwd w ++ [SAVE_DIR]));
          [|..|done]; cbn [root cwd].
        * by rewrite (lookup_write_at_parent _ _ _ _ es).
        * intros p. by apply write_at_keeps_dirs.
        * done.
      + intros file Hne. by rewrite lookup_insert_ne. }
  destruct r as [[]|e].
  - by intros [= <-].
  - destruct (issubclass _ _); [|done]. unfold print. intros [= <-].
    destruct w1. exact Hw1.
Qed.

End Store.

Lemma resolve_store_path (w : world) (file : str) (es : gmap str node) :
  Os.stat w SAVE_DIR = Ret (Dir es) →
  47 ∉ file → (3 ≤ length file)%nat → 0 ∉ file →
  Os.resolve w (SAVE_DIR ++ py "/" ++ file)
  = Ret ((cwd w ++ [SAVE_DIR]) ++ [file]).
Proof.
  intros Hstat Hslash Hlen Hnul.
  pose proof (stat_store_file w file es Hstat Hslash Hlen) as Hfile.
  rewrite bool_decide_eq_false_2 in Hfile.
  2:{ intros [Hin|Hin]%elem_of_app; [|apply elem_of_cons in Hin as [?|?]];
        [|done..].
      by vm_compute in Hin; apply list_elem_of_In in Hin; simpl in Hin;
        intuition lia. }
  unfold Os.stat in Hfile.
  destruct (Os.resolve w _) as [loc|e] eqn:Hres.
  - f_equal. by eapply resolve_store_file.
  - exfalso. clear Hfile. revert Hres. unfold Os.resolve.
    rewrite bool_decide_eq_false_2.
    2:{ intros [Hin|Hin]%elem_of_app; [|apply elem_of_cons in Hin as [?|?]];
          [|done..].
        by vm_compute in Hin; apply list_elem_of_In in Hin; simpl in Hin;
          intuition lia. }
    change (negb (truthy (SAVE_DIR ++ py "/" ++ file))) with false. cbv iota.
    change (startswith OsPath.sep (SAVE_DIR ++ py "/" ++ file)) with false.
    cbv iota. change OsPath.sep with [47].
    change (py "/" ++ file) with (47 :: file).
    rewrite split_first
      by (by vm_compute; intros ?%list_elem_of_In; simpl in *; intuition lia).
    rewrite split_absent by done. cbn [Os.walk].
    destruct (store_location _ _ Hstat) as [Hr Hstore].
    unfold Os.resolve in Hr. revert Hr.
    change (bool_decide (0 ∈ SAVE_DIR)) with false.
    change (negb (truthy SAVE_DIR)) with false.
    change (startswith OsPath.sep SAVE_DIR) with false.
    change (split OsPath.sep SAVE_DIR) with [SAVE_DIR]. cbv iota.
    cbn [Os.walk].
    destruct (Os.lookup (root w) (cwd w)) as [[c|es']|]; try done.
    change (bool_decide (SAVE_DIR = [])) with false.
    change (bool_decide (SAVE_DIR = py ".")) with false.
    change (bool_decide (SAVE_DIR = py "..")) with false. cbn [orb].
    cbv iota. rewrite Hstore. intros _.
    rewrite !bool_decide_eq_false_2; [done|..];
      intros ->; simpl in Hlen; lia.
Qed.

Lemma normalized_no_nul (name : str) : 0 ∉ name → 0 ∉ normalized name.
Proof.
  unfold normalized, replace. change (py " ") with [32].
  change (py "_") with [95]. cbv iota. rewrite replace_char.
  intros Hname [c [Hc Hin]]%list_elem_of_fmap.
  destruct (N.eqb_spec 32 c); [done|]. by subst.
Qed.

Lemma key_file_no_nul (name : str) : 0 ∉ name → 0 ∉ normalized name ++ suffix.
Proof.
  intros Hname [Hin|Hin]%elem_of_app.
  - by apply normalized_no_nul in Hin.
  - by vm_compute in Hin; apply list_elem_of_In in Hin; simpl in Hin;
      intuition lia.
Qed.

Section SavingInStore.
Context `{PyFloat}.

(** In a world with a store directory, a save under a name with no slash
    and no NUL, at whose file's place no directory stands, writes the
    text of a value the encoder accepts, and prints nothing. *)
Lemma save_in_store_plain (name : str) (obj : pyvalue) (w : world)
    (es : gmap str node) :
  Os.stat w SAVE_DIR = Ret (Dir es) →
  47 ∉ name → 0 ∉ name →
  ¬ is_dir (es !! (normalized name ++ suffix)) →
  (iterencode 0 obj).2 = None →
  forallb plain (json_text 0 obj) = true →
  Codec.with_open_w (resume_filename name) (fun f => Json.dump obj f) w
  = (Ret tt,
     World (Os.write_at ((cwd w ++ [SAVE_DIR]) ++ [normalized name ++ suffix])
              (File (Bytes (json_text 0 obj))) (root w))
       (cwd w) (stdout w)).
Proof.
  intros Hstat Hslash Hnul Hnd Hok Hplain.
  destruct (store_location _ _ Hstat) as [_ Hstore].
  pose proof (resolve_store_path w _ es Hstat (key_file_no_slash _ Hslash)
                (key_file_length name) (key_file_no_nul _ Hnul)) as Hres.
  rewrite <- resume_filename_store in Hres by done.
  unfold Codec.with_open_w, bind, Os.open_w. rewrite Hres.
  assert (Os.lookup (root w)
            ((cwd w ++ [SAVE_DIR]) ++ [normalized name ++ suffix])
          = es !! (normalized name ++ suffix)) as Hl.
  { rewrite lookup_app, Hstore. simpl. by destruct (es !! _). }
  rewrite Hl.
  assert (is_dir (Os.lookup (root w) (cwd w ++ [SAVE_DIR]))) as Hp
    by by rewrite Hstore.
  unfold Json.dump, json_text in *.
  destruct (iterencode 0 obj) as [text failure]. simpl in Hok, Hplain.
  subst failure. unfold bind, Codec.file_write.
  rewrite utf8_encode_plain by done. cbn [root cwd stdout fst].
  destruct (es !! (normalized name ++ suffix)) as [[c|es']|] eqn:He;
    [|by destruct Hnd|]; cbn [root cwd stdout];
    rewrite lookup_write_at_new by done; cbn [Codec.file_bytes app];
    unfold ret; by rewrite write_at_twice.
Qed.


(** [save_resume_data] returns, whatever the body of its [try] does. *)
Lemma save_returns (name : str) (obj : pyvalue) (w : world) :
  (save_resume_data name obj w).1 = Ret tt.
Proof.
  unfold save_resume_data, try_except. cbv zeta.
  destruct (Codec.with_open_w _ _ w) as [[[]|e] w1] eqn:Hbody; [done|].
  apply save_body_ordinary in Hbody. by rewrite Hbody.
Qed.

End SavingInStore.


Lemma basename_store_file (file : str) :
  47 ∉ file → Flask.basename (SAVE_DIR ++ py "/" ++ file) = file.
Proof.
  intros Hslash. unfold Flask.basename. change OsPath.sep with [47].
  change (py "/" ++ file) with (47 :: file).
  rewrite split_first
    by (by vm_compute; intros ?%list_elem_of_In; simpl in *; intuition lia).
  by rewrite split_absent.
Qed.

Section Records.
Context `{PyFloat} `{Application}.


(** X2. With a store directory, a save under a name without a slash,
    whatever its outcome, leaves what [load_resume_data] returns for every
    other name without a slash whose key is different. *)
Theorem save_keeps_other_records (name other : str) (resume_data : pyvalue)
    (w w' : world) (es : gmap str node) :
  Os.stat w SAVE_DIR = Ret (Dir es) →
  47 ∉ name → 47 ∉ other →
  normalized other ≠ normalized name →
  save_resume_data name resume_data w = (Ret tt, w') →
  (load_resume_data other w').1 = (load_resume_data other w).1.
Proof.
  intros Hstat Hname Hother Hkeys Hsave.
  destruct (save_store_effect _ _ _ _ _ Hname Hstat Hsave)
    as (Hcwd & es' & Hstat' & Hsame).
  rewrite !load_resume_data_cases, !resume_filename_store by done.
  rewrite (stat_store_file w' _ es'), (stat_store_file w _ es);
    [|done|by apply key_file_no_slash|apply key_file_length
     |done|by apply key_file_no_slash|apply key_file_length].
  rewrite Hsame by (by intros ?%app_inv_tail).
  destruct (bool_decide _); [done|].
  destruct (es !! _) as [[[b|story]|es'']|]; try done.
  destruct (Codec.utf8_decode b) as [s|]; [|done].
  destruct (loads _) as [v|e]; [done|]. by destruct (issubclass _ _).
Qed.

(** X3. When a record's file exists and the encoder fails on the value
    given, [save_resume_data] prints the error line, returns normally, and
    leaves in the file only the text emitted before the failure: the
    record that was there is lost. *)
Theorem failed_save_loses_record (name : str) (resume_data : pyvalue)
    (text b : str) (e : exn) (c : content) (w : world) :
  Os.stat w (resume_filename name) = Ret (File c) →
  iterencode 0 resume_data = (text, Some e) →
  Codec.utf8_encode text = Some b →
  ∃ w', save_resume_data name resume_data w = (Ret tt, w')
    ∧ stdout w' = stdout w ++ [save_error_line e]
    ∧ Os.stat w' (resume_filename name) = Ret (File (Bytes b)).
Proof.
  intros Hstat Henc Hb. unfold Os.stat in Hstat.
  destruct (Os.resolve w (resume_filename name)) as [loc|e'] eqn:Hres; [|done].
  destruct (Os.lookup (root w) loc) as [n|] eqn:Hl; [|done].
  injection Hstat as ->.
  assert (¬ is_dir (Os.lookup (root w) loc)) as Hnd by (rewrite Hl; simpl; tauto).
  pose proof (resolve_reachable _ _ _ Hres) as Hreach.
  destruct (reachable_entry _ _ Hreach Hnd) as (parent & leaf & -> & Hp).
  pose proof (iterencode_fails resume_data 0 e) as Hty.
  rewrite Henc in Hty. specialize (Hty eq_refl).
  unfold save_resume_data, try_except, Codec.with_open_w, bind, Os.open_w.
  cbv zeta. rewrite Hres, Hl. unfold Json.dump. rewrite Henc.
  unfold bind, Codec.file_write. rewrite Hb. cbn [root cwd stdout].
  rewrite lookup_write_at_new by done. cbn [Codec.file_bytes app].
  rewrite write_at_twice by done. unfold raise. rewrite Hty.
  change (issubclass TypeError Exception) with true. cbv iota.
  unfold print. cbn [root cwd stdout]. eexists. split; [done|].
  split; [done|]. cbn [stdout].
  by apply (stat_after_write w _ (parent ++ [leaf])).
Qed.

(** X4. Reading writes nothing: [load_resume_data] leaves the file tree
    and the working directory as they were, and [get_saved_resumes] and
    [download_resume] leave the whole state as it was, whatever they
    return or raise. *)
Theorem reading_never_writes (name filename : str) (w : world) :
  root (load_resume_data name w).2 = root w
  ∧ cwd (load_resume_data name w).2 = cwd w
  ∧ (get_saved_resumes w).2 = w
  ∧ (download_resume filename w).2 = w.
Proof.
  rewrite load_resume_data_cases, get_saved_resumes_cases,
    download_resume_cases.
  repeat split.
  - destruct (Os.stat w (resume_filename name)) as [[[b|story]|es]|e];
      try done.
    destruct (Codec.utf8_decode b) as [s|]; [|done].
    destruct (loads _) as [v|e]; [done|]. by destruct (issubclass _ _).
  - destruct (Os.stat w (resume_filename name)) as [[[b|story]|es]|e];
      try done.
    destruct (Codec.utf8_decode b) as [s|]; [|done].
    destruct (loads _) as [v|e]; [done|]. by destruct (issubclass _ _).
  - by destruct (Os.stat w SAVE_DIR) as [[c|es]|e].
  - destruct (Os.stat w (OsPath.join SAVE_DIR filename)) as [n|e]; [|done].
    by destruct (Os.stat w _) as [[c|es]|e].
Qed.

End Records.


Lemma save_keeps_other_records_witness :
  ∃ w1 w2,
    save_resume_data (py "Jane Doe") sample_record fresh_world = (Ret tt, w1)
    ∧ save_resume_data (py "Bob") (PStr (py "b")) w1 = (Ret tt, w2)
    ∧ (load_resume_data (py "Jane Doe") w2).1 = Ret sample_record.
Proof.
  pose (w1 := (save_resume_data (py "Jane Doe") sample_record fresh_world).2).
  pose (w2 := (save_resume_data (py "Bob") (PStr (py "b")) w1).2).
  exists w1, w2. split; [vm_compute; reflexivity|].
  split; [vm_compute; reflexivity|].
  etrans;
    [apply (save_keeps_other_records (py "Bob") (py "Jane Doe")
              (PStr (py "b")) w1 w2
              {[ py "Jane_Doe_resume.json"
                 := File (Bytes (json_text 0 sample_record)) ]})
    |vm_compute; reflexivity].
  - vm_compute. reflexivity.
  - apply (bool_decide_unpack _). vm_compute. reflexivity.
  - apply (bool_decide_unpack _). vm_compute. reflexivity.
  - apply (bool_decide_unpack _). vm_compute. reflexivity.
  - vm_compute. reflexivity.
Defined.

Lemma failed_save_loses_record_witness :
  ∃ w1 w2 b,
    save_resume_data (py "Jane Doe") sample_record fresh_world = (Ret tt, w1)
    ∧ load_resume_data (py "Jane Doe") w1 = (Ret sample_record, w1)
    ∧ save_resume_data (py "Jane Doe")
        (PDict [(py "name", PStr (py "Jane Doe"));
                (py "photo", PObject (py "bytes"))]) w1
      = (Ret tt, w2)
    ∧ stdout w2
      = [save_error_line
           (Exn TypeError (py "Object of type bytes is not JSON serializable"))]
    ∧ Os.stat w2 (resume_filename (py "Jane Doe")) = Ret (File (Bytes b))
    ∧ (load_resume_data (py "Jane Doe") w2).1 = Ret PNone.
Proof.
  pose (w1 := (save_resume_data (py "Jane Doe") sample_record fresh_world).2).
  pose (partial :=
          (iterencode 0
             (PDict [(py "name", PStr (py "Jane Doe"));
                     (py "photo", PObject (py "bytes"))])).1).
  destruct (failed_save_loses_record (py "Jane Doe")
              (PDict [(py "name", PStr (py "Jane Doe"));
                      (py "photo", PObject (py "bytes"))])
              partial partial
              (Exn TypeError
                 (py "Object of type bytes is not JSON serializable"))
              (Bytes (json_text 0 sample_record)) w1)
    as (w' & Hsave & Hout & Hstat);
    [vm_compute; reflexivity..|].
  pose (w2 := (save_resume_data (py "Jane Doe")
                 (PDict [(py "name", PStr (py "Jane Doe"));
                         (py "photo", PObject (py "bytes"))]) w1).2).
  assert (save_resume_data (py "Jane Doe")
            (PDict [(py "name", PStr (py "Jane Doe"));
                    (py "photo", PObject (py "bytes"))]) w1
          = (Ret tt, w2)) as Hrun by (vm_compute; reflexivity).
  assert (w' = w2) as Hw' by congruence.
  rewrite Hw' in Hsave, Hout, Hstat.
  exists w1, w2, partial. split; [vm_compute; reflexivity|].
  split; [vm_compute; reflexivity|].
  split; [exact Hsave|]. split; [exact Hout|]. split; [exact Hstat|].
  vm_compute. reflexivity.
Defined.


(** ** Paths from the application's root *)

(** Splitting on a single character, at one of its occurrences. *)
Lemma split_at_sep (c : N) (a b : str) :
  split [c] (a ++ c :: b) = split [c] a ++ split [c] b.
Proof.
  unfold split. induction a as [|x a IH].
  - cbn [app split_from startswith]. by rewrite N.eqb_refl.
  - cbn [app split_from startswith length Nat.sub]. rewrite IH.
    destruct (c =? x); cbn [andb]; [done|].
    pose proof (split_from_nonempty [c] a 0) as Hne.
    by destruct (split_from [c] 0 a).
Qed.

(** A walk that arrives does not depend on the name kept for errors. *)
Lemma walk_name (path path' : str) (rt : node) (comps : list str) :
  ∀ cur loc, Os.walk path rt cur comps = Ret loc →
    Os.walk path' rt cur comps = Ret loc.
Proof.
  induction comps as [|c comps IH]; intros cur loc; simpl; [done|].
  destruct (Os.lookup rt cur) as [[|es]|]; try done.
  destruct (_ || _); [apply IH|]. destruct (bool_decide _); apply IH.
Qed.

(** A walk through the components of two paths, one after the other. *)
Lemma walk_app (path : str) (rt : node) (first second : list str) :
  ∀ cur mid, Os.walk path rt cur first = Ret mid →
    Os.walk path rt cur (first ++ second) = Os.walk path rt mid second.
Proof.
  induction first as [|c first IH]; intros cur mid; simpl.
  - by intros [= ->].
  - destruct (Os.lookup rt cur) as [[|es]|]; try done.
    destruct (_ || _); [apply IH|]. destruct (bool_decide _); apply IH.
Qed.

Lemma endswith_last (c : N) (s : str) :
  endswith [c] s = false → s ≠ [] → ∃ r d, s = r ++ [d] ∧ d ≠ c.
Proof.
  intros Hend Hne. destruct (reverse s) as [|d r] eqn:Hrev.
  { apply (f_equal reverse) in Hrev. rewrite reverse_involutive in Hrev.
    by destruct Hne. }
  exists (reverse r), d.
  apply (f_equal reverse) in Hrev. rewrite reverse_involutive in Hrev.
  split; [by rewrite Hrev, reverse_cons|].
  intros ->. unfold endswith in Hend. rewrite Hrev in Hend.
  rewrite reverse_involutive in Hend. change (reverse [c]) with [c] in Hend.
  cbn [startswith] in Hend. by rewrite N.eqb_refl in Hend.
Qed.

Section FromRoot.
Context `{Application}.

(** How [send_file] joins a relative path to the root path. *)
Lemma join_root_relative (p : str) :
  startswith OsPath.sep root_path = true →
  endswith OsPath.sep root_path = false →
  startswith OsPath.sep p = false →
  OsPath.join root_path p = root_path ++ 47 :: p.
Proof.
  intros Habs Hend Hrel. unfold OsPath.join. rewrite Hrel, Hend.
  destruct root_path as [|c r]; [done|]. done.
Qed.

(** What is found at a path from the working directory is found at the
    same path from the root path, when the program runs in its root
    directory. *)
Lemma stat_from_root (w : world) (p : str) (n : node) :
  runs_in_root w →
  Os.stat w p = Ret n →
  Os.stat w (OsPath.join root_path p) = Ret n.
Proof.
  intros (Habs & Hend & Hnul & Hroot) Hstat.
  destruct (startswith OsPath.sep p) eqn:Hrel.
  { unfold OsPath.join. by rewrite Hrel. }
  rewrite join_root_relative by done.
  unfold Os.stat in *.
  destruct (Os.resolve w p) as [loc|e] eqn:Hres; [|done].
  assert (Os.resolve w (root_path ++ 47 :: p) = Ret loc) as ->;
    [|by destruct (Os.lookup (root w) loc)].
  clear Hstat. unfold Os.resolve in *.
  destruct (bool_decide (0 ∈ p)) eqn:Hp; [done|].
  apply bool_decide_eq_false in Hp.
  rewrite bool_decide_eq_false_2 in Hroot by done.
  rewrite bool_decide_eq_false_2.
  2:{ intros [?|Hin]%elem_of_app; [done|].
      apply elem_of_cons in Hin as [?|?]; done. }
  destruct (negb (truthy p)) eqn:Hempty; [done|].
  destruct (negb (truthy root_path)) eqn:Hrootempty; [done|].
  assert (negb (truthy (root_path ++ 47 :: p)) = false) as ->
    by by destruct root_path.
  rewrite Habs in Hroot. rewrite Hrel in Hres.
  assert (startswith OsPath.sep (root_path ++ 47 :: p) = true) as ->.
  { revert Habs. change OsPath.sep with [47].
    destruct root_path as [|c r]; [done|]. done. }
  change OsPath.sep with [47] in *. rewrite split_at_sep.
  rewrite (walk_app _ _ _ _ [] (cwd w))
    by (eapply walk_name; exact Hroot).
  eapply walk_name; exact Hres.
Qed.

(** The download name of a relative path joined to the root path is that
    of the path. *)
Lemma basename_from_root (p : str) :
  startswith OsPath.sep root_path = true →
  endswith OsPath.sep root_path = false →
  startswith OsPath.sep p = false →
  Flask.basename (OsPath.join root_path p) = Flask.basename p.
Proof.
  intros Habs Hend Hrel. rewrite join_root_relative by done.
  unfold Flask.basename. change OsPath.sep with [47].
  rewrite split_at_sep.
  pose proof (split_from_nonempty [47] p 0) as Hne. fold (split [47] p) in Hne.
  induction (split [47] root_path) as [|x l IH]; [done|].
  cbn [app]. destruct (l ++ split [47] p) eqn:Happ; [|exact IH].
  by apply app_eq_nil in Happ as [_ ?].
Qed.

End FromRoot.

(** Replacing spaces by underscores and then underscores by spaces gives
    the name back exactly when it has no underscore. *)
Lemma reconstructed_same (name : str) :
  reconstructed name = name ↔ 95 ∉ name.
Proof.
  unfold reconstructed, normalized, replace. change (py " ") with [32].
  change (py "_") with [95]. cbv iota. rewrite !replace_char.
  rewrite <- list_fmap_compose. split.
  - intros Heq Hin. rewrite <- Heq in Hin.
    apply list_elem_of_fmap in Hin as (c & Hc & _). cbn [compose] in Hc.
    destruct (N.eqb_spec 32 c) as [H32|H32]; [by subst c|].
    destruct (N.eqb_spec 95 c) as [H95|H95]; [done|]. done.
  - intros Hname. rewrite <- (list_fmap_id name) at 2.
    apply Forall_fmap_ext_1, Forall_forall. intros c Hc. cbn [compose].
    destruct (N.eqb_spec 32 c) as [H32|H32]; [by subst c|].
    destruct (N.eqb_spec 95 c) as [H95|H95]; [by subst c|]. done.
Qed.

Section RecordsListed.
Context `{PyFloat} `{Application}.


(** X6. Into a store that lists no record, after a save that printed no
    failure, under a name without a slash whose key does not hold
    [_resume.json], [get_saved_resumes] returns one name, and it is the
    name the record was saved under exactly when that name has no
    underscore. *)
Theorem name_listed_as_typed (name : str) (resume_data : pyvalue)
    (w w' : world) :
  get_saved_resumes w = (Ret [], w) →
  47 ∉ name → contains suffix (normalized name) = false →
  save_resume_data name resume_data w = (Ret tt, w') →
  stdout w' = stdout w →
  ∃ listed, get_saved_resumes w' = (Ret [listed], w')
    ∧ (listed = name ↔ 95 ∉ name).
Proof.
  rewrite get_saved_resumes_cases.
  destruct (Os.stat w SAVE_DIR) as [[c|es]|e] eqn:Hstat; [done| |done].
  intros Hnone Hslash Hkey Hsave Hquiet.
  assert (List.filter (endswith suffix) (map_to_list es).*1 = []) as Hempty.
  { injection Hnone as Hnone. by apply fmap_nil_inv in Hnone. }
  destruct (quiet_save_store _ _ _ _ _ Hslash Hstat Hsave Hquiet)
    as [b Hstat'].
  assert (es !! (normalized name ++ suffix) = None) as Hfresh.
  { destruct (es !! (normalized name ++ suffix)) as [n|] eqn:Hl; [|done].
    assert (normalized name ++ suffix
            ∈ List.filter (endswith suffix) (map_to_list es).*1) as Hin.
    { apply list_elem_of_In, filter_In. split; [|apply endswith_app].
      apply list_elem_of_In, list_elem_of_fmap.
      exists (normalized name ++ suffix, n).
      split; [done|]. by apply elem_of_map_to_list. }
    rewrite Hempty in Hin. by apply elem_of_nil in Hin. }
  exists (recovered (normalized name ++ suffix)). split.
  - rewrite get_saved_resumes_cases, Hstat'.
    assert (List.filter (endswith suffix)
              (map_to_list
                 (<[normalized name ++ suffix := File (Bytes b)]> es)).*1
            = [normalized name ++ suffix]) as Hone.
    { apply Permutation_singleton_r.
      rewrite (filter_Permutation _ _ _
                 (fmap_Permutation fst _ _
                    (map_to_list_insert es _ (File (Bytes b)) Hfresh))).
      cbn [fmap list_fmap fst List.filter]. rewrite endswith_app.
      by rewrite Hempty. }
    by rewrite Hone.
  - rewrite recovered_stem by done. apply reconstructed_same.
Qed.

(** X7. After a save that printed no failure, under a name without a
    slash whose key does not hold [_resume.json], [get_saved_resumes]
    returns a list with the reconstructed name in it, and with every name
    it returned before the save. *)
Theorem saved_name_is_listed (name : str) (resume_data : pyvalue)
    (w w' : world) (names : list str) :
  get_saved_resumes w = (Ret names, w) →
  47 ∉ name → contains suffix (normalized name) = false →
  save_resume_data name resume_data w = (Ret tt, w') →
  stdout w' = stdout w →
  ∃ names', get_saved_resumes w' = (Ret names', w')
    ∧ reconstructed name ∈ names'
    ∧ ∀ x, x ∈ names → x ∈ names'.
Proof.
  rewrite get_saved_resumes_cases.
  destruct (Os.stat w SAVE_DIR) as [[c|es]|e] eqn:Hstat; [done| |done].
  intros [= <-] Hslash Hkey Hsave Hquiet.
  destruct (quiet_save_store _ _ _ _ _ Hslash Hstat Hsave Hquiet)
    as [b Hstat'].
  rewrite get_saved_resumes_cases, Hstat'. eexists. split; [done|].
  split.
  - apply elem_of_listing. exists (normalized name).
    rewrite lookup_insert_eq. split; [done|]. by rewrite recovered_stem.
  - intros x (stem & Hsome & ->)%elem_of_listing.
    apply elem_of_listing. exists stem. split; [|done].
    destruct (decide (normalized name ++ suffix = stem ++ suffix)) as [<-|Hne].
    + by rewrite lookup_insert_eq.
    + by rewrite lookup_insert_ne.
Qed.

(** X8. After a save of a serialisable value that printed no failure,
    under a name without a slash, [download_resume] of the record's file
    name answers with the JSON text of the value as an attachment of that
    file name, when the program runs in the application's root
    directory, from which [send_file] reads. *)
Theorem saved_record_downloads (name : str) (resume_data : pyvalue)
    (w w' : world) :
  serialisable resume_data →
  47 ∉ name →
  save_resume_data name resume_data w = (Ret tt, w') →
  stdout w' = stdout w →
  runs_in_root w' →
  download_resume (normalized name ++ suffix) w'
  = (Ret (Flask.Response 200 (Bytes (json_text 0 resume_data))
            (Some (normalized name ++ suffix))), w').
Proof.
  intros Hser Hslash Hsave Hquiet Hroot.
  pose proof (save_quiet _ _ _ _ Hsave Hquiet) as Hbody.
  apply save_body_success in Hbody as (loc & b & Hres & Hnd & _ & Henc & Hw').
  pose proof (json_text_plain resume_data Hser 0) as Hplain.
  rewrite utf8_encode_plain in Henc by done. injection Henc as <-.
  assert (Os.stat w' (resume_filename name)
          = Ret (File (Bytes (json_text 0 resume_data)))) as Hstat
    by (rewrite Hw'; by apply (stat_after_write w _ loc)).
  rewrite download_resume_cases. fold suffix.
  change (OsPath.join SAVE_DIR (normalized name ++ suffix))
    with (resume_filename name).
  rewrite Hstat, (stat_from_root _ _ _ Hroot Hstat).
  unfold attachment_of. destruct Hroot as (Habs & Hend & _).
  rewrite basename_from_root by (by rewrite ?resume_filename_store).
  rewrite resume_filename_store by done.
  by rewrite basename_store_file by by apply key_file_no_slash.
Qed.

(** X27. A record file that holds UTF-8 text which is not JSON, with at
    most 100 opening brackets and braces and at most 4300 digits (below
    the interpreter's recursion limit and the length limit of its integer
    literals), does not make [load_resume_data] raise: the call prints the
    line for a corrupt file, with the file's path, and returns [None];
    the file stays as it is. *)
Theorem load_reports_invalid_json (name : str) (w : world) (b s : str)
    (e : exn) :
  Os.stat w (resume_filename name) = Ret (File (Bytes b)) →
  Codec.utf8_decode b = Some s →
  within_limits s →
  loads (Codec.universal_newlines s) = Raise e →
  load_resume_data name w
  = (Ret PNone,
     World (root w) (cwd w)
       (stdout w ++ [load_error_line (resume_filename name)])).
Proof.
  intros Hstat Hdec _ Hloads.
  by rewrite (load_resume_data_text name w b s Hstat Hdec), Hloads.
Qed.

End RecordsListed.

Lemma saved_name_is_listed_witness :
  get_saved_resumes corrupt_world = (Ret [py "x"], corrupt_world)
  ∧ ∃ w' names',
      save_resume_data (py "Jane Doe") sample_record corrupt_world
      = (Ret tt, w')
      ∧ get_saved_resumes w' = (Ret names', w')
      ∧ py "Jane Doe" ∈ names'
      ∧ ∀ x, x ∈ [py "x"] → x ∈ names'.
Proof.
  split; [vm_compute; reflexivity|].
  edestruct (saved_name_is_listed (py "Jane Doe") sample_record corrupt_world)
    as (names' & Hget & Hin & Hkeep);
    [vm_compute; reflexivity
    |apply (bool_decide_unpack _); vm_compute; reflexivity
    |vm_compute; reflexivity
    |vm_compute; reflexivity
    |reflexivity|].
  eexists _, names'. split; [vm_compute; reflexivity|].
  split; [exact Hget|]. split; [exact Hin|exact Hkeep].
Defined.


Lemma name_listed_as_typed_witness :
  ∃ w',
    save_resume_data (py "Jane Doe") sample_record fresh_world = (Ret tt, w')
    ∧ get_saved_resumes w' = (Ret [py "Jane Doe"], w').
Proof.
  pose (w' := (save_resume_data (py "Jane Doe") sample_record
                 fresh_world).2).
  destruct (name_listed_as_typed (py "Jane Doe") sample_record
              fresh_world w')
    as (listed & Hget & Hiff).
  - vm_compute. reflexivity.
  - apply (bool_decide_unpack _). vm_compute. reflexivity.
  - vm_compute. reflexivity.
  - vm_compute. reflexivity.
  - reflexivity.
  - assert (listed = py "Jane Doe") as Heq.
    { apply Hiff. apply (bool_decide_unpack _). vm_compute. reflexivity. }
    rewrite Heq in Hget.
    exists w'. split; [vm_compute; reflexivity|exact Hget].
Defined.

Lemma saved_record_downloads_witness :
  ∃ w',
    save_resume_data (py "Jane Doe") sample_record fresh_world = (Ret tt, w')
    ∧ download_resume (py "Jane_Doe_resume.json") w'
      = (Ret (Flask.Response 200 (Bytes (json_text 0 sample_record))
                (Some (py "Jane_Doe_resume.json"))), w').
Proof.
  pose (w' := (save_resume_data (py "Jane Doe") sample_record
                 fresh_world).2).
  exists w'. split; [vm_compute; reflexivity|].
  apply (saved_record_downloads (py "Jane Doe") sample_record fresh_world w').
  - exact sample_record_serialisable.
  - apply (bool_decide_unpack _). vm_compute. reflexivity.
  - vm_compute. reflexivity.
  - reflexivity.
  - split; [reflexivity|]. split; [reflexivity|].
    split; [apply (bool_decide_unpack _); vm_compute; reflexivity|].
    vm_compute. reflexivity.
Defined.


Lemma load_reports_invalid_json_witness :
  load_resume_data (py "Jane Doe") garbled_world
  = (Ret PNone,
     World (root garbled_world) (cwd garbled_world)
       [load_error_line (py "saves/Jane_Doe_resume.json")]).
Proof.
  apply (load_reports_invalid_json (py "Jane Doe") garbled_world
           (py "{name: Jane") (py "{name: Jane")
           (Exn JSONDecodeError (py "{name: Jane")));
    [vm_compute; reflexivity
    |vm_compute; reflexivity
    |split; vm_compute; lia
    |vm_compute; reflexivity].
Defined.

(** ** The renderer, further *)

Lemma line_elements_paragraphs (lines : list str) :
  length (List.filter is_paragraph (flat_map line_elements lines))
  = length lines.
Proof.
  induction lines as [|line lines IH]; [done|].
  cbn [flat_map]. rewrite List.filter_app, length_app, IH.
  unfold line_elements.
  destruct (contains (py "**") line); [done|].
  by destruct (contains (py "-") line).
Qed.

Lemma line_elements_spacers (lines : list str) :
  length (List.filter (fun f => negb (is_paragraph f))
            (flat_map line_elements lines))
  = length (List.filter is_heading_line lines).
Proof.
  induction lines as [|line lines IH]; [done|].
  cbn [flat_map List.filter]. rewrite List.filter_app, length_app, IH.
  unfold line_elements, is_heading_line.
  destruct (contains (py "**") line); [done|].
  by destruct (contains (py "-") line).
Qed.

Section RendererFurther.
Context `{Markup} `{Application}.

(** X9. In a text that is not blank and whose story is made (ReportLab
    accepts the markup of every line), a line with neither [**] nor a
    hyphen in it, the empty line included, adds one paragraph in the
    normal style to the story, at the line's place: the line as it
    stands. *)
Theorem plain_line_is_paragraph (text : str) (before : list str) (line : str)
    (after : list str) (story : list flowable) :
  forallb isspace text = false →
  split [10] text = before ++ line :: after →
  contains (py "**") line = false →
  contains (py "-") line = false →
  pdf_elements text = Ret story →
  story
  = (title_elements ++ flat_map line_elements before)
    ++ [Paragraph line Normal] ++ flat_map line_elements after.
Proof.
  intros Hblank Hsplit Hmark Hhyphen Hstory.
  rewrite (pdf_elements_story text story Hblank Hstory), Hsplit, flat_map_app.
  cbn [flat_map]. unfold line_elements at 2. rewrite Hmark, Hhyphen.
  by rewrite <- !app_assoc.
Qed.

(** X10. The story made of a text that is not blank has one paragraph for
    the title and one for every line of the text, and one spacer after
    the title and one for every line with [**] in it: no line is
    dropped and none is rendered twice. *)
Theorem one_paragraph_per_line (text : str) (story : list flowable) :
  forallb isspace text = false →
  pdf_elements text = Ret story →
  length (List.filter is_paragraph story) = S (length (split [10] text))
  ∧ length (List.filter (fun f => negb (is_paragraph f)) story)
    = S (length (List.filter is_heading_line (split [10] text))).
Proof.
  intros Hblank Hstory.
  rewrite (pdf_elements_story text story Hblank Hstory).
  rewrite !List.filter_app, !length_app.
  by rewrite line_elements_paragraphs, line_elements_spacers.
Qed.

(** X11. A document that [save_to_pdf] has rendered into the store
    directory, under any file name, is what [download_resume] of that
    file name answers with next, when the program runs in the
    application's root directory: the story of the text, as an
    attachment. *)
Theorem rendered_document_downloads (text filename : str) (w w' : world) :
  save_to_pdf text (OsPath.join SAVE_DIR filename) w = (Ret tt, w') →
  runs_in_root w' →
  ∃ story,
    pdf_elements text = Ret story
    ∧ download_resume filename w'
      = (Ret (attachment_of
                (OsPath.join root_path (OsPath.join SAVE_DIR filename))
                (Document story)), w').
Proof.
  unfold save_to_pdf.
  destruct (pdf_elements text) as [story|e]; [|done].
  intros Hsave%build_writes_story Hroot. exists story. split; [done|].
  by rewrite download_resume_cases, Hsave, (stat_from_root _ _ _ Hroot Hsave).
Qed.

End RendererFurther.

Lemma plain_line_is_paragraph_witness :
  pdf_elements (py "Jane Doe" ++ [10; 10] ++ py "Engineer")
  = Ret ((title_elements ++ [Paragraph (py "Jane Doe") Normal])
         ++ [Paragraph [] Normal] ++ [Paragraph (py "Engineer") Normal]).
Proof.
  pose (story :=
          title_elements
          ++ [Paragraph (py "Jane Doe") Normal; Paragraph [] Normal;
              Paragraph (py "Engineer") Normal]).
  assert (pdf_elements (py "Jane Doe" ++ [10; 10] ++ py "Engineer")
          = Ret story) as Hstory by (vm_compute; reflexivity).
  rewrite Hstory. apply (f_equal Ret).
  apply (plain_line_is_paragraph (py "Jane Doe" ++ [10; 10] ++ py "Engineer")
           [py "Jane Doe"] [] [py "Engineer"] story);
    [reflexivity|reflexivity|reflexivity|reflexivity|exact Hstory].
Defined.

Lemma one_paragraph_per_line_witness :
  ∃ story,
    pdf_elements (py "**Summary**" ++ [10] ++ py "- Python" ++ [10])
    = Ret story
    ∧ length (List.filter is_paragraph story) = 4%nat
    ∧ length (List.filter (fun f => negb (is_paragraph f)) story) = 2%nat.
Proof.
  eexists. split; [vm_compute; reflexivity|].
  apply (one_paragraph_per_line
           (py "**Summary**" ++ [10] ++ py "- Python" ++ [10]));
    [reflexivity|vm_compute; reflexivity].
Defined.

Lemma rendered_document_downloads_witness :
  ∃ w',
    save_to_pdf (py "- Python") (py "saves/Jane.pdf") fresh_world = (Ret tt, w')
    ∧ download_resume (py "Jane.pdf") w'
      = (Ret (Flask.Response 200
                (Document
                   (title_elements
                    ++ [Paragraph ([0x2022; 32] ++ py " Python") Normal]))
                (Some (py "Jane.pdf"))), w').
Proof.
  pose (w' := (save_to_pdf (py "- Python") (py "saves/Jane.pdf") fresh_world).2).
  destruct (rendered_document_downloads (py "- Python") (py "Jane.pdf")
              fresh_world w') as (story & Hstory & Hdownload).
  - vm_compute. reflexivity.
  - split; [reflexivity|]. split; [reflexivity|].
    split; [apply (bool_decide_unpack _); vm_compute; reflexivity|].
    vm_compute. reflexivity.
  - assert (Ret story
            = Ret (title_elements
                   ++ [Paragraph ([0x2022; 32] ++ py " Python") Normal]))
      as Heq by (rewrite <- Hstory; vm_compute; reflexivity).
    injection Heq as Heq. rewrite Heq in Hdownload.
    exists w'. split; [vm_compute; reflexivity|].
    etrans; [exact Hdownload|vm_compute; reflexivity].
Defined.

(** ** Generation *)

Lemma lstrip_last (s : str) : lstrip s ≠ [] → last (lstrip s) = last s.
Proof.
  induction s as [|c s IH]; [done|]. cbn [lstrip].
  destruct (isspace c); [|done]. intros Hne. rewrite IH by done.
  destruct s as [|d s']; [done|]. done.
Qed.

Lemma strip_trimmed (s : str) : trimmed (strip s).
Proof.
  unfold strip, rstrip. set (t := lstrip s).
  assert (∀ c r, t = c :: r → isspace c = false) as Hhead.
  { intros c r Ht. destruct (lstrip_sound s) as [Hs|(c' & r' & Hs & Hc)];
      fold t in Hs; congruence. }
  clearbody t. split.
  - intros c r Hcr.
    destruct (lstrip_sound (reverse t)) as [Hs|(c' & r' & Hs & Hc')].
    { rewrite Hs in Hcr. done. }
    assert (lstrip (reverse t) ≠ []) as Hne by (by rewrite Hs).
    apply lstrip_last in Hne. rewrite last_reverse in Hne.
    rewrite <- (reverse_involutive (lstrip (reverse t))), Hcr in Hne.
    rewrite last_reverse in Hne. cbn [head] in Hne.
    destruct t as [|d t']; [done|]. cbn [head] in Hne.
    injection Hne as ->. by eapply Hhead.
  - intros r c Hrc. apply (f_equal reverse) in Hrc.
    rewrite reverse_involutive, reverse_app in Hrc. cbn in Hrc.
    destruct (lstrip_sound (reverse t)) as [Hs|(c' & r' & Hs & Hc')];
      congruence.
Qed.

Section GenerationProps.
Context `{External}.

(** The [try] block the three generation functions share: the prompt is
    sent; the text that comes back is stripped; an exception that
    [except Exception] catches goes to the handler. *)
Lemma generation_block (prompt : str) (handler : exn → G str) (s : env) :
  gtry_except Exception
    (gbind (generate_content (py "gemini-pro") prompt)
       (fun response => gret (strip response)))
    handler s
  = let s1 := Env (host s) (sent s ++ [(py "gemini-pro", prompt)]) in
    match generate_content_text (sent s) (py "gemini-pro") prompt with
    | Ret text => (Ret (strip text), s1)
    | Raise e =>
        if issubclass (exn_cls e) Exception then handler e s1
        else (Raise e, s1)
    end.
Proof.
  unfold gtry_except, gbind, generate_content, gret.
  by destruct (generate_content_text _ _ _).
Qed.

Lemma generate_resume_cases
    (name job_title experience_summary work_experience education
     certifications skills : str) (s : env) :
  generate_resume name job_title experience_summary work_experience
    education certifications skills s
  = if forallb truthy
         [name; job_title; experience_summary; work_experience; education;
          skills]
    then
      let prompt :=
        resume_prompt name job_title experience_summary work_experience
          education certifications skills in
      let sent' := sent s ++ [(py "gemini-pro", prompt)] in
      match generate_content_text (sent s) (py "gemini-pro") prompt with
      | Ret text => (Ret (strip text), Env (host s) sent')
      | Raise e =>
          if issubclass (exn_cls e) Exception
          then (Ret ([0x26A0; 0xFE0F]
                     ++ py " Unable to generate resume due to an error."),
                Env (World (root (host s)) (cwd (host s))
                       (stdout (host s)
                        ++ [[Lit ([0x26A0; 0xFE0F]
                                  ++ py " Error generating resume: ");
                             StrOf e]]))
                  sent')
          else (Raise e, Env (host s) sent')
      end
    else (Ret (py "Error: Missing required fields for resume generation."), s).
Proof.
  unfold generate_resume. destruct (forallb truthy _); [|done].
  cbn [negb]. cbv zeta. rewrite generation_block. cbv zeta.
  destruct (generate_content_text _ _ _) as [text|e]; [done|].
  by destruct (issubclass _ _).
Qed.

Lemma analyze_ats_score_cases (resume_text : str) (s : env) :
  analyze_ats_score resume_text s
  = let prompt := ats_prompt resume_text in
    let sent' := sent s ++ [(py "gemini-pro", prompt)] in
    match generate_content_text (sent s) (py "gemini-pro") prompt with
    | Ret text => (Ret (strip text), Env (host s) sent')
    | Raise e =>
        if issubclass (exn_cls e) Exception
        then (Ret ([0x26A0; 0xFE0F]
                   ++ py " Unable to analyze ATS compatibility."),
              Env (World (root (host s)) (cwd (host s))
                     (stdout (host s)
                      ++ [[Lit ([0x26A0; 0xFE0F]
                                ++ py " Error analyzing ATS score: ");
                           StrOf e]]))
                sent')
        else (Raise e, Env (host s) sent')
    end.
Proof.
  unfold analyze_ats_score. cbv zeta. rewrite generation_block. cbv zeta.
  destruct (generate_content_text _ _ _) as [text|e]; [done|].
  by destruct (issubclass _ _).
Qed.

Lemma generate_cover_letter_cases
    (name job_title company experience_summary skills : str) (s : env) :
  generate_cover_letter name job_title company experience_summary skills s
  = if forallb truthy [name; job_title; company; experience_summary; skills]
    then
      let prompt :=
        cover_letter_prompt name job_title company experience_summary skills in
      let sent' := sent s ++ [(py "gemini-pro", prompt)] in
      match generate_content_text (sent s) (py "gemini-pro") prompt with
      | Ret text => (Ret (strip text), Env (host s) sent')
      | Raise e =>
          if issubclass (exn_cls e) Exception
          then (Ret ([0x26A0; 0xFE0F]
                     ++ py " Error generating cover letter content: "
                     ++ exn_str e),
                Env (World (root (host s)) (cwd (host s))
                       (stdout (host s)
                        ++ [[Lit ([0x274C]
                                  ++ py " Error generating cover letter: ");
                             StrOf e]]))
                  sent')
          else (Raise e, Env (host s) sent')
      end
    else (Ret ([0x26A0; 0xFE0F]
               ++ py " Error: Missing required fields for cover letter generation."),
          s).
Proof.
  unfold generate_cover_letter. destruct (forallb truthy _); [|done].
  cbn [negb]. cbv zeta. rewrite generation_block. cbv zeta.
  destruct (generate_content_text _ _ _) as [text|e]; [done|].
  by destruct (issubclass _ _).
Qed.

End GenerationProps.

Lemma forallb_truthy (fields : list str) :
  forallb truthy fields = false ↔ [] ∈ fields.
Proof.
  induction fields as [|f fields IH]; cbn [forallb].
  - split; [done|]. by intros ?%elem_of_nil.
  - rewrite elem_of_cons, <- IH. destruct f as [|c f]; cbn [truthy andb].
    + split; [by left|done].
    + split; [by right|]. by intros [?|?].
Qed.

Lemma forallb_truthy_true (fields : list str) :
  [] ∉ fields → forallb truthy fields = true.
Proof.
  intros Hf. destruct (forallb truthy fields) eqn:Hb; [done|].
  by apply forallb_truthy in Hb.
Qed.

(** A literal that begins and ends with a character that is not
    whitespace. *)
Lemma trimmed_literal (c d : N) (middle : str) :
  isspace c = false → isspace d = false → trimmed (c :: middle ++ [d]).
Proof.
  intros Hc Hd. split.
  - by intros c' r [= <- _].
  - intros r c' Heq. rewrite app_comm_cons in Heq.
    by apply app_inj_tail in Heq as [_ <-].
Qed.

Section GenerationTheorems.
Context `{External}.

(** X12. When the service fails only with exceptions that
    [except Exception] catches, none of [generate_resume],
    [analyze_ats_score] and [generate_cover_letter] raises: each returns
    a text, on every input and in every state. *)
Theorem generation_never_raises
    (name job_title company experience_summary work_experience education
     certifications skills resume_text : str) (s : env) :
  fails_ordinarily →
  (∃ text s',
     generate_resume name job_title experience_summary work_experience
       education certifications skills s = (Ret text, s'))
  ∧ (∃ text s', analyze_ats_score resume_text s = (Ret text, s'))
  ∧ (∃ text s',
       generate_cover_letter name job_title company experience_summary
         skills s = (Ret text, s')).
Proof.
  intros Hservice.
  rewrite generate_resume_cases, analyze_ats_score_cases,
    generate_cover_letter_cases. cbv zeta.
  repeat split.
  - destruct (forallb truthy _); [|by eexists _, _].
    destruct (generate_content_text _ _ _) as [text|e] eqn:Hcall;
      [by eexists _, _|].
    apply Hservice in Hcall. rewrite Hcall. by eexists _, _.
  - destruct (generate_content_text _ _ _) as [text|e] eqn:Hcall;
      [by eexists _, _|].
    apply Hservice in Hcall. rewrite Hcall. by eexists _, _.
  - destruct (forallb truthy _); [|by eexists _, _].
    destruct (generate_content_text _ _ _) as [text|e] eqn:Hcall;
      [by eexists _, _|].
    apply Hservice in Hcall. rewrite Hcall. by eexists _, _.
Qed.

(** X13. Whatever they return or raise, [generate_resume],
    [analyze_ats_score] and [generate_cover_letter] leave every file and
    the working directory as they were, send at most one prompt and
    print at most one line. *)
Theorem generation_leaves_files
    (name job_title company experience_summary work_experience education
     certifications skills resume_text : str) (s : env) :
  Forall
    (fun s' =>
       same_files (host s) (host s')
       ∧ (length (sent s') ≤ S (length (sent s)))%nat
       ∧ (length (stdout (host s')) ≤ S (length (stdout (host s))))%nat)
    [(generate_resume name job_title experience_summary work_experience
        education certifications skills s).2;
     (analyze_ats_score resume_text s).2;
     (generate_cover_letter name job_title company experience_summary
        skills s).2].
Proof.
  rewrite generate_resume_cases, analyze_ats_score_cases,
    generate_cover_letter_cases. cbv zeta.
  repeat apply Forall_cons_2; [| | |apply Forall_nil_2].
  all: repeat match goal with
         | |- context [if ?b then _ else _] => destruct b
         | |- context [match ?r with Ret _ => _ | Raise _ => _ end] =>
             destruct r
         end;
    cbn [snd host sent stdout root cwd]; unfold same_files;
    rewrite ?length_app; cbn [length]; repeat split; lia.
Qed.

(** X14. [generate_resume] and [generate_cover_letter] check their
    required fields first: with one of them empty they return their
    message and send nothing; with none empty they send one prompt.
    The certifications are not required.  [analyze_ats_score] checks
    nothing and sends its prompt for every text, the empty one
    included. *)
Theorem missing_field_skips_service
    (name job_title company experience_summary work_experience education
     certifications skills resume_text : str) (s : env) :
  ([] ∈ [name; job_title; experience_summary; work_experience; education;
         skills] →
   generate_resume name job_title experience_summary work_experience
     education certifications skills s
   = (Ret (py "Error: Missing required fields for resume generation."), s))
  ∧ ([] ∉ [name; job_title; experience_summary; work_experience; education;
           skills] →
     sent (generate_resume name job_title experience_summary work_experience
             education certifications skills s).2
     = sent s
       ++ [(py "gemini-pro",
            resume_prompt name job_title experience_summary work_experience
              education certifications skills)])
  ∧ ([] ∈ [name; job_title; company; experience_summary; skills] →
     generate_cover_letter name job_title company experience_summary skills s
     = (Ret ([0x26A0; 0xFE0F]
             ++ py " Error: Missing required fields for cover letter generation."),
        s))
  ∧ ([] ∉ [name; job_title; company; experience_summary; skills] →
     sent (generate_cover_letter name job_title company experience_summary
             skills s).2
     = sent s
       ++ [(py "gemini-pro",
            cover_letter_prompt name job_title company experience_summary
              skills)])
  ∧ sent (analyze_ats_score resume_text s).2
    = sent s ++ [(py "gemini-pro", ats_prompt resume_text)].
Proof.
  rewrite generate_resume_cases, analyze_ats_score_cases,
    generate_cover_letter_cases. cbv zeta.
  split; [|split; [|split; [|split]]].
  - intros Hf%forallb_truthy. by rewrite Hf.
  - intros Hf%forallb_truthy_true. rewrite Hf.
    destruct (generate_content_text _ _ _); [done|].
    by destruct (issubclass _ _).
  - intros Hf%forallb_truthy. by rewrite Hf.
  - intros Hf%forallb_truthy_true. rewrite Hf.
    destruct (generate_content_text _ _ _); [done|].
    by destruct (issubclass _ _).
  - destruct (generate_content_text _ _ _); [done|].
    by destruct (issubclass _ _).
Qed.

(** X15. Every text [generate_resume] or [analyze_ats_score] returns has
    no whitespace at either end, and so has every text
    [generate_cover_letter] returns without printing a failure. *)
Theorem generated_text_is_trimmed
    (name job_title company experience_summary work_experience education
     certifications skills resume_text : str) (s s' : env) (text : str) :
  (generate_resume name job_title experience_summary work_experience
     education certifications skills s = (Ret text, s') → trimmed text)
  ∧ (analyze_ats_score resume_text s = (Ret text, s') → trimmed text)
  ∧ (generate_cover_letter name job_title company experience_summary skills s
     = (Ret text, s') →
     stdout (host s') = stdout (host s) → trimmed text).
Proof.
  rewrite generate_resume_cases, analyze_ats_score_cases,
    generate_cover_letter_cases. cbv zeta.
  split; [|split].
  - destruct (forallb truthy _).
    + destruct (generate_content_text _ _ _) as [t|e].
      * intros [= <- _]. apply strip_trimmed.
      * destruct (issubclass _ _); [|done]. intros [= <- _].
        by apply (trimmed_literal 0x26A0 46
                    ([0xFE0F]
                     ++ py " Unable to generate resume due to an error")).
    + intros [= <- _].
      by apply (trimmed_literal 69 46
                  (py "rror: Missing required fields for resume generation")).
  - destruct (generate_content_text _ _ _) as [t|e].
    + intros [= <- _]. apply strip_trimmed.
    + destruct (issubclass _ _); [|done]. intros [= <- _].
      by apply (trimmed_literal 0x26A0 46
                  ([0xFE0F] ++ py " Unable to analyze ATS compatibility")).
  - destruct (forallb truthy _).
    + destruct (generate_content_text _ _ _) as [t|e].
      * intros [= <- _] _. apply strip_trimmed.
      * destruct (issubclass _ _); [|done]. intros [= _ <-]. cbn [host stdout].
        intros Hout. apply (f_equal length) in Hout.
        rewrite length_app in Hout. simpl in Hout. lia.
    + intros [= <- _] _.
      by apply (trimmed_literal 0x26A0 46
                  ([0xFE0F]
                   ++ py " Error: Missing required fields for cover letter generation")).
Qed.

End GenerationTheorems.

Lemma scripted_service_fails_ordinarily : fails_ordinarily.
Proof.
  intros history model prompt e. simpl.
  destruct history as [|p1 [|p2 history]]; by intros [= <-].
Qed.

Lemma generation_never_raises_witness :
  fails_ordinarily
  ∧ generate_content_text [(py "gemini-pro", py "earlier")] (py "gemini-pro")
      (ats_prompt (py "text"))
    = Raise (Exn Exception (py "quota exceeded"))
  ∧ (∃ text s',
       generate_resume (py "Jane Doe") (py "Engineer") (py "Ten years")
         (py "ACME") (py "BSc") [] (py "Python")
         (Env fresh_world [(py "gemini-pro", py "earlier")])
       = (Ret text, s'))
  ∧ (∃ text s',
       analyze_ats_score (py "text")
         (Env fresh_world [(py "gemini-pro", py "earlier")])
       = (Ret text, s'))
  ∧ (∃ text s',
       generate_cover_letter (py "Jane Doe") (py "Engineer") (py "ACME")
         (py "Ten years") (py "Python")
         (Env fresh_world [(py "gemini-pro", py "earlier")])
       = (Ret text, s')).
Proof.
  split; [exact scripted_service_fails_ordinarily|].
  split; [reflexivity|].
  apply (generation_never_raises (py "Jane Doe") (py "Engineer") (py "ACME")
           (py "Ten years") (py "ACME") (py "BSc") [] (py "Python")
           (py "text") (Env fresh_world [(py "gemini-pro", py "earlier")])).
  exact scripted_service_fails_ordinarily.
Defined.

Lemma missing_field_skips_service_witness :
  generate_resume (py "Jane Doe") [] (py "Ten years") (py "ACME") (py "BSc")
    (py "AWS") (py "Python") (Env fresh_world [])
  = (Ret (py "Error: Missing required fields for resume generation."),
     Env fresh_world [])
  ∧ sent (generate_resume (py "Jane Doe") (py "Engineer") (py "Ten years")
            (py "ACME") (py "BSc") [] (py "Python") (Env fresh_world [])).2
    = [(py "gemini-pro",
        resume_prompt (py "Jane Doe") (py "Engineer") (py "Ten years")
          (py "ACME") (py "BSc") (py "None") (py "Python"))].
Proof.
  split.
  - apply (proj1 (missing_field_skips_service (py "Jane Doe") []
                    (py "ACME") (py "Ten years") (py "ACME") (py "BSc")
                    (py "AWS") (py "Python") [] (Env fresh_world []))).
    apply (bool_decide_unpack _). vm_compute. reflexivity.
  - apply (proj1 (proj2 (missing_field_skips_service (py "Jane Doe")
                           (py "Engineer") (py "ACME") (py "Ten years")
                           (py "ACME") (py "BSc") [] (py "Python") []
                           (Env fresh_world [])))).
    apply (bool_decide_unpack _). vm_compute. reflexivity.
Defined.

Lemma generated_text_is_trimmed_witness :
  generate_content_text [] (py "gemini-pro")
    (resume_prompt (py "Jane Doe") (py "Engineer") (py "Ten years")
       (py "ACME") (py "BSc") [] (py "Python"))
  = Ret ([32; 10] ++ py "**Summary**" ++ [10] ++ py "- Python" ++ [10; 32])
  ∧ trimmed (py "**Summary**" ++ [10] ++ py "- Python").
Proof.
  split; [reflexivity|].
  apply (proj1 (generated_text_is_trimmed (py "Jane Doe") (py "Engineer")
                  (py "ACME") (py "Ten years") (py "ACME") (py "BSc") []
                  (py "Python") [] (Env fresh_world [])
                  (Env fresh_world
                     [(py "gemini-pro",
                       resume_prompt (py "Jane Doe") (py "Engineer")
                         (py "Ten years") (py "ACME") (py "BSc") []
                         (py "Python"))])
                  (py "**Summary**" ++ [10] ++ py "- Python"))).
  vm_compute. reflexivity.
Defined.

(** ** The home page *)

Lemma stat_same_files (w w' : world) (path : str) :
  same_files w w' → Os.stat w' path = Os.stat w path.
Proof. intros [Hr Hc]. unfold Os.stat, Os.resolve. by rewrite Hr, Hc. Qed.

(** A printed line that is not the line of a failed save leaves the
    number of failed saves on the output as it is. *)
Lemma save_failures_other (out : list (list fragment))
    (line : list fragment) :
  is_save_error line = false →
  save_failures (out ++ [line]) = save_failures out.
Proof.
  intros Hline. unfold save_failures. rewrite List.filter_app, length_app.
  cbn [List.filter]. rewrite Hline. simpl. lia.
Qed.

Section IndexProps.
Context `{PyFloat} `{External}.

(** A save whose line is not on the output has printed nothing. *)
Lemma save_counted (name : str) (obj : pyvalue) (w : world) :
  save_failures (stdout (save_resume_data name obj w).2)
  = save_failures (stdout w) →
  stdout (save_resume_data name obj w).2 = stdout w.
Proof.
  unfold save_resume_data, try_except. cbv zeta.
  destruct (Codec.with_open_w _ _ w) as [[[]|e] w1] eqn:Hbody;
    pose proof (save_body_stdout _ _ _ _ _ Hbody) as Hout; [done|].
  destruct (issubclass _ _); [|done]. unfold print. cbn [snd stdout].
  rewrite Hout. unfold save_failures.
  rewrite List.filter_app, length_app. cbn [List.filter is_save_error].
  rewrite bool_decide_eq_true_2 by done. simpl. lia.
Qed.

Lemma generate_resume_save_failures
    (name job_title experience_summary work_experience education
     certifications skills : str) (s : env) :
  save_failures
    (stdout (host (generate_resume name job_title experience_summary
                     work_experience education certifications skills s).2))
  = save_failures (stdout (host s)).
Proof.
  rewrite generate_resume_cases. cbv zeta.
  repeat match goal with
    | |- context [if ?b then _ else _] => destruct b
    | |- context [match ?r with Ret _ => _ | Raise _ => _ end] => destruct r
    end; try done.
  cbn [snd host stdout]. by apply save_failures_other.
Qed.

Lemma analyze_ats_score_save_failures (resume_text : str) (s : env) :
  save_failures (stdout (host (analyze_ats_score resume_text s).2))
  = save_failures (stdout (host s)).
Proof.
  rewrite analyze_ats_score_cases. cbv zeta.
  repeat match goal with
    | |- context [if ?b then _ else _] => destruct b
    | |- context [match ?r with Ret _ => _ | Raise _ => _ end] => destruct r
    end; try done.
  cbn [snd host stdout]. by apply save_failures_other.
Qed.

Lemma generate_cover_letter_save_failures
    (name job_title company experience_summary skills : str) (s : env) :
  save_failures
    (stdout (host (generate_cover_letter name job_title company
                     experience_summary skills s).2))
  = save_failures (stdout (host s)).
Proof.
  rewrite generate_cover_letter_cases. cbv zeta.
  repeat match goal with
    | |- context [if ?b then _ else _] => destruct b
    | |- context [match ?r with Ret _ => _ | Raise _ => _ end] => destruct r
    end; try done.
  cbn [snd host stdout]. by apply save_failures_other.
Qed.

Lemma generate_resume_same_files
    (name job_title experience_summary work_experience education
     certifications skills : str) (s : env) :
  same_files (host s)
    (host (generate_resume name job_title experience_summary work_experience
             education certifications skills s).2).
Proof.
  rewrite generate_resume_cases. cbv zeta.
  repeat match goal with
    | |- context [if ?b then _ else _] => destruct b
    | |- context [match ?r with Ret _ => _ | Raise _ => _ end] => destruct r
    end; done.
Qed.

Lemma analyze_ats_score_same_files (resume_text : str) (s : env) :
  same_files (host s) (host (analyze_ats_score resume_text s).2).
Proof.
  rewrite analyze_ats_score_cases. cbv zeta.
  repeat match goal with
    | |- context [if ?b then _ else _] => destruct b
    | |- context [match ?r with Ret _ => _ | Raise _ => _ end] => destruct r
    end; done.
Qed.

Lemma generate_cover_letter_same_files
    (name job_title company experience_summary skills : str) (s : env) :
  same_files (host s)
    (host (generate_cover_letter name job_title company experience_summary
             skills s).2).
Proof.
  rewrite generate_cover_letter_cases. cbv zeta.
  repeat match goal with
    | |- context [if ?b then _ else _] => destruct b
    | |- context [match ?r with Ret _ => _ | Raise _ => _ end] => destruct r
    end; done.
Qed.

Lemma same_files_trans (a b c : world) :
  same_files a b → same_files b c → same_files a c.
Proof. intros [? ?] [? ?]. split; congruence. Qed.

(** The listing [index] starts with leaves the state as it is. *)
Lemma lift_get_saved_resumes (s : env) :
  lift get_saved_resumes s = ((get_saved_resumes (host s)).1, s).
Proof.
  unfold lift. rewrite get_saved_resumes_cases. destruct s as [w p].
  cbn [host sent]. by destruct (Os.stat w SAVE_DIR) as [[c|es]|e].
Qed.

(** The branch of [index] that generates, when the three generations
    return: the texts go to the page, and the record is saved in the
    world they leave. *)
Lemma generate_and_save_returns (fields : list (str * str))
    (s s1 s2 s3 : env) (rt af cl : str) :
  generate_resume (field (py "name") fields) (field (py "job_title") fields)
    (field (py "experience_summary") fields)
    (field (py "work_experience") fields) (field (py "education") fields)
    (field (py "certifications") fields) (field (py "skills") fields) s
  = (Ret rt, s1) →
  analyze_ats_score rt s1 = (Ret af, s2) →
  generate_cover_letter (field (py "name") fields)
    (field (py "job_title") fields) (field (py "company") fields)
    (field (py "experience_summary") fields) (field (py "skills") fields) s2
  = (Ret cl, s3) →
  generate_and_save fields s
  = (Ret (Some rt, Some cl, Some (markdown af)),
     Env (save_resume_data (field (py "name") fields)
            (record_of fields rt cl (markdown af)) (host s3)).2
       (sent s3)).
Proof.
  intros Hrt Haf Hcl. unfold generate_and_save. cbv zeta.
  fold (field (py "name") fields) (field (py "job_title") fields)
    (field (py "company") fields) (field (py "experience_summary") fields)
    (field (py "work_experience") fields) (field (py "education") fields)
    (field (py "certifications") fields) (field (py "skills") fields).
  unfold gbind at 1. rewrite Hrt. unfold gbind at 1. rewrite Haf.
  unfold gbind at 1. rewrite Hcl. unfold gbind, lift, gret.
  fold (record_of fields rt cl (markdown af)).
  pose proof (save_returns (field (py "name") fields)
                (record_of fields rt cl (markdown af)) (host s3)) as Hsave.
  destruct (save_resume_data _ _ (host s3)) as [r w']. simpl in Hsave.
  by subst r.
Qed.

(** The same branch, read from its result: the record is saved in a
    world with the files the request found, on whose output no line of a
    failed save has been added. *)
Lemma generate_and_save_trace (fields : list (str * str)) (s s' : env)
    (texts : option str * option str * option str) :
  generate_and_save fields s = (Ret texts, s') →
  ∃ rt af cl s3,
    texts = (Some rt, Some cl, Some (markdown af))
    ∧ same_files (host s) (host s3)
    ∧ save_failures (stdout (host s3)) = save_failures (stdout (host s))
    ∧ s' = Env (save_resume_data (field (py "name") fields)
                  (record_of fields rt cl (markdown af)) (host s3)).2
             (sent s3).
Proof.
  intros Hrun.
  pose proof (generate_resume_same_files (field (py "name") fields)
                (field (py "job_title") fields)
                (field (py "experience_summary") fields)
                (field (py "work_experience") fields)
                (field (py "education") fields)
                (field (py "certifications") fields)
                (field (py "skills") fields) s) as Hf1.
  pose proof (generate_resume_save_failures (field (py "name") fields)
                (field (py "job_title") fields)
                (field (py "experience_summary") fields)
                (field (py "work_experience") fields)
                (field (py "education") fields)
                (field (py "certifications") fields)
                (field (py "skills") fields) s) as Hc1.
  destruct (generate_resume _ _ _ _ _ _ _ s) as [[rt|e] s1] eqn:Hrt.
  2:{ revert Hrun. unfold generate_and_save. cbv zeta.
      fold (field (py "name") fields) (field (py "job_title") fields)
        (field (py "company") fields) (field (py "experience_summary") fields)
        (field (py "work_experience") fields) (field (py "education") fields)
        (field (py "certifications") fields) (field (py "skills") fields).
      unfold gbind at 1. by rewrite Hrt. }
  pose proof (analyze_ats_score_same_files rt s1) as Hf2.
  pose proof (analyze_ats_score_save_failures rt s1) as Hc2.
  destruct (analyze_ats_score rt s1) as [[af|e] s2] eqn:Haf.
  2:{ revert Hrun. unfold generate_and_save. cbv zeta.
      fold (field (py "name") fields) (field (py "job_title") fields)
        (field (py "company") fields) (field (py "experience_summary") fields)
        (field (py "work_experience") fields) (field (py "education") fields)
        (field (py "certifications") fields) (field (py "skills") fields).
      unfold gbind at 1. rewrite Hrt. unfold gbind at 1. by rewrite Haf. }
  pose proof (generate_cover_letter_same_files (field (py "name") fields)
                (field (py "job_title") fields) (field (py "company") fields)
                (field (py "experience_summary") fields)
                (field (py "skills") fields) s2) as Hf3.
  pose proof (generate_cover_letter_save_failures (field (py "name") fields)
                (field (py "job_title") fields) (field (py "company") fields)
                (field (py "experience_summary") fields)
                (field (py "skills") fields) s2) as Hc3.
  destruct (generate_cover_letter _ _ _ _ _ s2) as [[cl|e] s3] eqn:Hcl.
  2:{ revert Hrun. unfold generate_and_save. cbv zeta.
      fold (field (py "name") fields) (field (py "job_title") fields)
        (field (py "company") fields) (field (py "experience_summary") fields)
        (field (py "work_experience") fields) (field (py "education") fields)
        (field (py "certifications") fields) (field (py "skills") fields).
      unfold gbind at 1. rewrite Hrt. unfold gbind at 1. rewrite Haf.
      unfold gbind at 1. by rewrite Hcl. }
  rewrite (generate_and_save_returns fields s s1 s2 s3 rt af cl) in Hrun
    by done.
  injection Hrun as <- <-. exists rt, af, cl, s3. split; [done|].
  simpl in *. split; [|split; [congruence|done]].
  eapply same_files_trans; [exact Hf1|].
  eapply same_files_trans; [exact Hf2|exact Hf3].
Qed.

Lemma generate_and_save_inv (fields : list (str * str)) (s s' : env)
    (texts : option str * option str * option str) :
  generate_and_save fields s = (Ret texts, s') →
  ∃ rt af cl s3,
    texts = (Some rt, Some cl, Some (markdown af))
    ∧ same_files (host s) (host s3)
    ∧ s' = Env (save_resume_data (field (py "name") fields)
                  (record_of fields rt cl (markdown af)) (host s3)).2
             (sent s3).
Proof.
  intros (rt & af & cl & s3 & Htexts & Hsame & _ & Hs')%generate_and_save_trace.
  by exists rt, af, cl, s3.
Qed.


(** [index] without generation. *)
Lemma index_plain (request : request) (s : env) :
  ¬ asks_generation request →
  index request s
  = match (get_saved_resumes (host s)).1 with
    | Ret names =>
        (Ret (render_template (py "index.html") None None None names), s)
    | Raise e => (Raise e, s)
    end.
Proof.
  intros Hno. unfold index. unfold gbind at 1. rewrite lift_get_saved_resumes.
  destruct (get_saved_resumes (host s)).1 as [names|e]; [|done].
  unfold gbind, gret, form_has.
  destruct (decide (method request = py "POST")) as [Hm|Hm].
  - rewrite (bool_decide_eq_true_2 _ Hm).
    rewrite bool_decide_eq_false_2; [done|]. intros Hb. apply Hno. by split.
  - by rewrite (bool_decide_eq_false_2 _ Hm).
Qed.

(** [index] with generation. *)
Lemma index_generates (request : request) (s : env) :
  asks_generation request →
  index request s
  = match (get_saved_resumes (host s)).1 with
    | Ret names =>
        match generate_and_save (form request) s with
        | (Ret (resume_text, cover_letter_text, ats_feedback), s') =>
            (Ret (render_template (py "index.html") resume_text
                    cover_letter_text ats_feedback names), s')
        | (Raise e, s') => (Raise e, s')
        end
    | Raise e => (Raise e, s)
    end.
Proof.
  intros [Hm Hb]. unfold index. unfold gbind at 1.
  rewrite lift_get_saved_resumes.
  destruct (get_saved_resumes (host s)).1 as [names|e]; [|done].
  unfold gbind, gret, form_has.
  rewrite (bool_decide_eq_true_2 _ Hm), (bool_decide_eq_true_2 _ Hb).
  destruct (generate_and_save _ s) as [[[[rt cl] af]|e] s']; done.
Qed.

Lemma get_saved_resumes_listing (w : world) (es : gmap str node) :
  Os.stat w SAVE_DIR = Ret (Dir es) →
  (get_saved_resumes w).1 = Ret (listing es).
Proof. intros Hstat. by rewrite get_saved_resumes_cases, Hstat. Qed.

End IndexProps.

Section RecordText.
Context `{PyFloat}.

Lemma string_item_encodes (level : nat) (k s : str) :
  (encode_item level (k, PStr s)).2 = None
  ∧ forallb plain (encode_item level (k, PStr s)).1 = true.
Proof.
  unfold encode_item. rewrite emit_then_text. cbn [iterencode emit_text fst snd].
  split; [done|].
  by rewrite !forallb_app, !encode_basestring_ascii_plain.
Qed.

(** The encoder accepts every record of strings, and writes it in plain
    characters. *)
Lemma resume_record_encodes
    (name job_title company experience_summary work_experience education
     certifications skills resume_text cover_letter_text ats_feedback : str) :
  (iterencode 0
     (resume_record name job_title company experience_summary work_experience
        education certifications skills resume_text cover_letter_text
        ats_feedback)).2 = None
  ∧ forallb plain
      (json_text 0
         (resume_record name job_title company experience_summary
            work_experience education certifications skills resume_text
            cover_letter_text ats_feedback)) = true.
Proof.
  unfold json_text, resume_record. cbn [iterencode]. fold (encode_item 0).
  rewrite emit_then_text. cbn [fst snd].
  set (items := [_; _; _; _; _; _; _; _; _; _; _]).
  assert (Forall (fun kv => (encode_item 0 kv).2 = None
                            ∧ forallb plain (encode_item 0 kv).1 = true) items)
    as Hitems.
  { subst items. repeat (apply Forall_cons_2; [apply string_item_encodes|]).
    apply Forall_nil_2. }
  assert ((emit_items (py "," ++ newline_indent 1) (encode_item 0) true items).2
          = None) as Hok.
  { apply emit_items_ok. eapply Forall_impl; [exact Hitems|]. by intros kv []. }
  rewrite emit_then_ok by done. cbn [emit_text fst snd]. split; [done|].
  rewrite !forallb_app, !newline_indent_plain.
  rewrite emit_items_plain; [done| |done].
  by rewrite forallb_app, newline_indent_plain.
Qed.

Lemma resume_record_serialisable
    (name job_title company experience_summary work_experience education
     certifications skills resume_text cover_letter_text ats_feedback : str) :
  Forall valid_text
    [name; job_title; company; experience_summary; work_experience; education;
     certifications; skills; resume_text; cover_letter_text; ats_feedback] →
  serialisable
    (resume_record name job_title company experience_summary work_experience
       education certifications skills resume_text cover_letter_text
       ats_feedback).
Proof.
  intros Hvalid. apply serialisable_dict.
  - apply (bool_decide_unpack _). vm_compute. reflexivity.
  - repeat match goal with
      | Hv : Forall valid_text (_ :: _) |- _ =>
          apply Forall_cons in Hv as [? Hv]
      end.
    repeat (apply Forall_cons_2;
            [split; [vm_compute; reflexivity|by apply serialisable_str]|]).
    apply Forall_nil_2.
Qed.

(** In a world with a store directory, [save_resume_data] of a record of
    strings under a name with no slash and no NUL, at whose file's place
    no directory stands, writes the record's text and prints nothing. *)
Lemma save_record_in_store (name : str) (w : world) (es : gmap str node)
    (a1 a2 a3 a4 a5 a6 a7 a8 a9 a10 a11 : str) :
  Os.stat w SAVE_DIR = Ret (Dir es) →
  47 ∉ name → 0 ∉ name →
  ¬ is_dir (es !! (normalized name ++ suffix)) →
  Codec.with_open_w (resume_filename name)
    (fun f => Json.dump (resume_record a1 a2 a3 a4 a5 a6 a7 a8 a9 a10 a11) f) w
  = (Ret tt,
     World (Os.write_at ((cwd w ++ [SAVE_DIR]) ++ [normalized name ++ suffix])
              (File (Bytes
                       (json_text 0
                          (resume_record a1 a2 a3 a4 a5 a6 a7 a8 a9 a10 a11))))
              (root w))
       (cwd w) (stdout w)).
Proof.
  intros Hstat Hslash Hnul Hnd.
  destruct (resume_record_encodes a1 a2 a3 a4 a5 a6 a7 a8 a9 a10 a11)
    as [Hok Hplain].
  by apply (save_in_store_plain name _ w es).
Qed.

(** A save of a record of strings that printed nothing has written the
    record's text to the file of the name. *)
Lemma quiet_save_writes_record (name : str) (w w' : world)
    (a1 a2 a3 a4 a5 a6 a7 a8 a9 a10 a11 : str) :
  save_resume_data name (resume_record a1 a2 a3 a4 a5 a6 a7 a8 a9 a10 a11) w
  = (Ret tt, w') →
  stdout w' = stdout w →
  Os.stat w' (resume_filename name)
  = Ret (File (Bytes
                 (json_text 0
                    (resume_record a1 a2 a3 a4 a5 a6 a7 a8 a9 a10 a11)))).
Proof.
  intros Hsave Hquiet.
  pose proof (save_quiet _ _ _ _ Hsave Hquiet) as Hbody.
  apply save_body_success in Hbody as (loc & b & Hres & Hnd & _ & Henc & ->).
  destruct (resume_record_encodes a1 a2 a3 a4 a5 a6 a7 a8 a9 a10 a11)
    as [_ Hplain].
  rewrite utf8_encode_plain in Henc by done. injection Henc as <-.
  by apply stat_after_write.
Qed.

End RecordText.

(** After a regular file has been put into the store directory, the
    directory has it as an entry, and its path leads to it. *)
Lemma store_after_write (w : world) (es : gmap str node) (file : str)
    (c : content) (out : list (list fragment)) :
  Os.stat w SAVE_DIR = Ret (Dir es) →
  47 ∉ file → (3 ≤ length file)%nat → 0 ∉ file →
  ¬ is_dir (es !! file) →
  let w' := World (Os.write_at ((cwd w ++ [SAVE_DIR]) ++ [file]) (File c)
                     (root w)) (cwd w) out in
  Os.stat w' SAVE_DIR = Ret (Dir (<[file := File c]> es))
  ∧ Os.stat w' (SAVE_DIR ++ py "/" ++ file) = Ret (File c).
Proof.
  intros Hstat Hslash Hlen Hnul Hnd w'.
  destruct (store_location _ _ Hstat) as [Hstore Hes].
  assert (Os.lookup (root w) ((cwd w ++ [SAVE_DIR]) ++ [file]) = es !! file)
    as Hl.
  { rewrite lookup_app, Hes. simpl. by destruct (es !! file). }
  assert (Os.stat w' SAVE_DIR = Ret (Dir (<[file := File c]> es))) as Hstat'.
  { unfold Os.stat.
    rewrite (resolve_stable w w' SAVE_DIR (cwd w ++ [SAVE_DIR]));
      [|..|done]; cbn [root cwd w'].
    - by rewrite (lookup_write_at_parent _ _ _ _ es).
    - intros p. apply write_at_keeps_dirs. by rewrite Hl.
    - done. }
  split; [done|].
  rewrite (stat_store_file w' file _ Hstat') by done.
  rewrite bool_decide_eq_false_2.
  - by rewrite lookup_insert_eq.
  - intros [Hin|Hin]%elem_of_app; [|apply elem_of_cons in Hin as [?|?]];
      [|done..].
    by vm_compute in Hin; apply list_elem_of_In in Hin; simpl in Hin;
      intuition lia.
Qed.

Lemma strip_forallb (f : N → bool) (s : str) :
  forallb f s = true → forallb f (strip s) = true.
Proof.
  assert (∀ t, forallb f t = true → forallb f (lstrip t) = true) as Hl.
  { induction t as [|c t IH]; [done|]. cbn [lstrip].
    destruct (isspace c); [|done]. intros [_ Ht]%andb_true_iff. by apply IH. }
  intros Hs. unfold strip, rstrip. rewrite forallb_reverse. apply Hl.
  rewrite forallb_reverse. by apply Hl.
Qed.

Lemma field_valid (key : str) (fields : list (str * str)) :
  Forall (fun kv => valid_text kv.2) fields → valid_text (field key fields).
Proof.
  intros Hfields. unfold field, valid_text, form_get.
  apply strip_forallb.
  destruct (List.find _ fields) as [kv|] eqn:Hfind; [|done].
  apply find_some in Hfind as [Hin _].
  rewrite Forall_forall in Hfields. apply Hfields. by apply list_elem_of_In.
Qed.

Lemma recovered_suffix : recovered suffix = [].
Proof. reflexivity. Qed.

Section IndexTheorems.
Context `{PyFloat} `{External}.

(** The save of [index], in a world with the files of [w]: the record of
    strings is written, whatever the strings are. *)
Lemma save_of_index (name : str) (w w3 : world) (es : gmap str node)
    (fields : list (str * str)) (rt cl af : str) :
  same_files w w3 →
  Os.stat w SAVE_DIR = Ret (Dir es) →
  47 ∉ name → 0 ∉ name →
  ¬ is_dir (es !! (normalized name ++ suffix)) →
  let text := json_text 0 (record_of fields rt cl af) in
  let w' := (save_resume_data name (record_of fields rt cl af) w3).2 in
  Os.stat w' SAVE_DIR
  = Ret (Dir (<[normalized name ++ suffix := File (Bytes text)]> es))
  ∧ Os.stat w' (resume_filename name) = Ret (File (Bytes text))
  ∧ stdout w' = stdout w3
  ∧ Codec.with_open_w (resume_filename name)
      (fun f => Json.dump (record_of fields rt cl af) f) w3
    = (Ret tt, w').
Proof.
  intros Hsame Hstat Hslash Hnul Hnd text w'.
  rewrite <- (stat_same_files _ _ _ Hsame) in Hstat.
  pose proof (save_record_in_store name w3 es
                (field (py "name") fields) (field (py "job_title") fields)
                (field (py "company") fields)
                (field (py "experience_summary") fields)
                (field (py "work_experience") fields)
                (field (py "education") fields)
                (field (py "certifications") fields)
                (field (py "skills") fields) rt cl af
                Hstat Hslash Hnul Hnd) as Hbody.
  fold (record_of fields rt cl af) in Hbody. fold text in Hbody.
  assert (w' = World (Os.write_at ((cwd w3 ++ [SAVE_DIR])
                                   ++ [normalized name ++ suffix])
                        (File (Bytes text)) (root w3))
                 (cwd w3) (stdout w3)) as ->.
  { unfold w', save_resume_data, try_except. cbv zeta. by rewrite Hbody. }
  destruct (store_after_write w3 es (normalized name ++ suffix) (Bytes text)
              (stdout w3) Hstat (key_file_no_slash _ Hslash)
              (key_file_length name) (key_file_no_nul _ Hnul) Hnd)
    as [Hdir Hfile].
  split; [exact Hdir|]. split; [by rewrite resume_filename_store|].
  split; [done|exact Hbody].
Qed.

(** With a service that fails only in the ordinary way, the generating
    branch of [index] returns its three texts. *)
Lemma generate_and_save_succeeds (fields : list (str * str)) (s : env) :
  fails_ordinarily →
  ∃ texts s', generate_and_save fields s = (Ret texts, s').
Proof.
  intros Hservice.
  destruct (generate_resume (field (py "name") fields)
              (field (py "job_title") fields)
              (field (py "experience_summary") fields)
              (field (py "work_experience") fields)
              (field (py "education") fields)
              (field (py "certifications") fields)
              (field (py "skills") fields) s) as [r1 s1] eqn:Hrt.
  assert (∃ rt, r1 = Ret rt) as [rt ->].
  { revert Hrt. rewrite generate_resume_cases. cbv zeta.
    destruct (forallb truthy _); [|intros [= <- _]; eauto].
    destruct (generate_content_text _ _ _) as [t|e] eqn:Hcall;
      [intros [= <- _]; eauto|].
    apply Hservice in Hcall. rewrite Hcall. intros [= <- _]. eauto. }
  destruct (analyze_ats_score rt s1) as [r2 s2] eqn:Haf.
  assert (∃ af, r2 = Ret af) as [af ->].
  { revert Haf. rewrite analyze_ats_score_cases. cbv zeta.
    destruct (generate_content_text _ _ _) as [t|e] eqn:Hcall;
      [intros [= <- _]; eauto|].
    apply Hservice in Hcall. rewrite Hcall. intros [= <- _]. eauto. }
  destruct (generate_cover_letter (field (py "name") fields)
              (field (py "job_title") fields) (field (py "company") fields)
              (field (py "experience_summary") fields)
              (field (py "skills") fields) s2) as [r3 s3] eqn:Hcl.
  assert (∃ cl, r3 = Ret cl) as [cl ->].
  { revert Hcl. rewrite generate_cover_letter_cases. cbv zeta.
    destruct (forallb truthy _); [|intros [= <- _]; eauto].
    destruct (generate_content_text _ _ _) as [t|e] eqn:Hcall;
      [intros [= <- _]; eauto|].
    apply Hservice in Hcall. rewrite Hcall. intros [= <- _]. eauto. }
  rewrite (generate_and_save_returns fields s s1 s2 s3 rt af cl) by done.
  by eexists _, _.
Qed.

(** X16. A request that is not a POST with the generate button gets the
    page with the saved names and no text; nothing is sent to the
    service, printed or written.  When the listing fails, so does the
    request. *)
Theorem index_without_generation (request : request) (s : env) :
  ¬ asks_generation request →
  index request s
  = match (get_saved_resumes (host s)).1 with
    | Ret names =>
        (Ret (render_template (py "index.html") None None None names), s)
    | Raise e => (Raise e, s)
    end.
Proof.
  intros Hno. unfold index. unfold gbind at 1. rewrite lift_get_saved_resumes.
  destruct (get_saved_resumes (host s)).1 as [names|e]; [|done].
  unfold gbind, gret, form_has.
  destruct (decide (method request = py "POST")) as [Hm|Hm].
  - rewrite (bool_decide_eq_true_2 _ Hm).
    rewrite bool_decide_eq_false_2; [done|]. intros Hb. apply Hno. by split.
  - by rewrite (bool_decide_eq_false_2 _ Hm).
Qed.

(** X17. Without a store directory every request to [index] fails, a
    request for generation included, before anything is sent to the
    service or saved: with the exception of [os.listdir] when nothing is
    at the directory's path, with [NotADirectoryError] when a regular
    file is. *)
Theorem index_needs_store (request : request) (s : env) :
  (∀ e, Os.stat (host s) SAVE_DIR = Raise e →
        index request s = (Raise e, s))
  ∧ (∀ c, Os.stat (host s) SAVE_DIR = Ret (File c) →
          index request s = (Raise (Exn NotADirectoryError SAVE_DIR), s)).
Proof.
  assert (∀ e, (get_saved_resumes (host s)).1 = Raise e →
               index request s = (Raise e, s)) as Hfail.
  { intros e He.
    destruct (decide (method request = py "POST")) as [Hm|Hm];
      [destruct (decide (py "generate_resume_btn" ∈ (form request).*1))
         as [Hb|Hb]|].
    - rewrite index_generates by done. by rewrite He.
    - rewrite index_plain by (by intros [_ ?]). by rewrite He.
    - rewrite index_plain by (by intros [? _]). by rewrite He. }
  split.
  - intros e He. apply Hfail. by rewrite get_saved_resumes_cases, He.
  - intros c Hc. apply Hfail. by rewrite get_saved_resumes_cases, Hc.
Qed.

(** X18. With a store directory, and a service that fails only with
    exceptions [except Exception] catches, [index] answers every request
    with the page [index.html]; the names on the page are those of the
    store as it was when the request came. *)
Theorem index_returns_page (request : request) (s : env)
    (es : gmap str node) :
  fails_ordinarily →
  Os.stat (host s) SAVE_DIR = Ret (Dir es) →
  ∃ pg s',
    index request s = (Ret pg, s')
    ∧ template_name pg = py "index.html"
    ∧ saved_resumes pg = listing es.
Proof.
  intros Hservice Hstat.
  pose proof (get_saved_resumes_listing _ _ Hstat) as Hlist.
  destruct (decide (method request = py "POST")) as [Hm|Hm];
    [destruct (decide (py "generate_resume_btn" ∈ (form request).*1))
       as [Hb|Hb]|].
  - rewrite index_generates, Hlist by done.
    destruct (generate_and_save_succeeds (form request) s Hservice)
      as ([[rt cl] af] & s' & ->).
    by eexists _, _.
  - rewrite index_plain, Hlist by (by intros [_ ?]). by eexists _, _.
  - rewrite index_plain, Hlist by (by intros [? _]). by eexists _, _.
Qed.

End IndexTheorems.

Section IndexSaves.
Context `{PyFloat} `{External}.

(** The page of a request for generation, read from the result of
    [index]: three texts, and the record saved in a world with the
    files the request found. *)
Lemma index_generates_inv (request : request) (s s' : env) (pg : page)
    (es : gmap str node) :
  asks_generation request →
  Os.stat (host s) SAVE_DIR = Ret (Dir es) →
  index request s = (Ret pg, s') →
  ∃ rt af cl s3,
    pg = render_template (py "index.html") (Some rt) (Some cl)
           (Some (markdown af)) (listing es)
    ∧ same_files (host s) (host s3)
    ∧ s' = Env (save_resume_data (field (py "name") (form request))
                  (record_of (form request) rt cl (markdown af)) (host s3)).2
             (sent s3).
Proof.
  intros Hask Hstat. rewrite index_generates by done.
  rewrite (get_saved_resumes_listing _ _ Hstat).
  destruct (generate_and_save (form request) s) as [[texts|e] s1] eqn:Hrun;
    [|done].
  apply generate_and_save_inv in Hrun as (rt & af & cl & s3 & -> & Hsame & ->).
  intros [= <- <-]. by exists rt, af, cl, s3.
Qed.

(** The same for a request whose save printed no failure: the store
    directory was there, and the save has written its file. *)
Lemma index_generates_quiet (request : request) (s s' : env) (pg : page) :
  asks_generation request →
  index request s = (Ret pg, s') →
  save_failures (stdout (host s')) = save_failures (stdout (host s)) →
  ∃ es rt af cl s3,
    Os.stat (host s) SAVE_DIR = Ret (Dir es)
    ∧ pg = render_template (py "index.html") (Some rt) (Some cl)
             (Some (markdown af)) (listing es)
    ∧ same_files (host s) (host s3)
    ∧ save_resume_data (field (py "name") (form request))
        (record_of (form request) rt cl (markdown af)) (host s3)
      = (Ret tt, host s')
    ∧ stdout (host s') = stdout (host s3).
Proof.
  intros Hask Hrun Hquiet. rewrite index_generates in Hrun by done.
  rewrite get_saved_resumes_cases in Hrun.
  destruct (Os.stat (host s) SAVE_DIR) as [[c|es]|e] eqn:Hstat; [done| |done].
  cbn [fst] in Hrun. fold (listing es) in Hrun.
  destruct (generate_and_save (form request) s) as [[texts|e] s1] eqn:Hgen;
    [|done].
  apply generate_and_save_trace in Hgen
    as (rt & af & cl & s3 & -> & Hsame & Hcount & ->).
  assert (pg = render_template (py "index.html") (Some rt) (Some cl)
                 (Some (markdown af)) (listing es)) as Hpg by congruence.
  assert (s' = Env (save_resume_data (field (py "name") (form request))
                      (record_of (form request) rt cl (markdown af))
                      (host s3)).2 (sent s3)) as Hs' by congruence.
  clear Hrun. exists es, rt, af, cl, s3.
  split; [done|]. split; [done|]. split; [done|].
  rewrite Hs' in Hquiet |- *. cbn [host] in *. rewrite <- Hcount in Hquiet.
  split; [|by apply save_counted].
  pose proof (save_returns (field (py "name") (form request))
                (record_of (form request) rt cl (markdown af)) (host s3))
    as Hret.
  by destruct (save_resume_data _ _ (host s3)) as [r w']; simpl in *; subst r.
Qed.

(** X19. The page that answers a request for generation lists the store
    as it was before the record of the request was saved: when the save
    printed no failure, for a name (the form's, stripped) without a slash
    whose key does not hold [_resume.json], a name that
    [get_saved_resumes] did not return before is not on the page, though
    [get_saved_resumes] returns it from then on. *)
Theorem index_page_misses_new_record (request : request) (s s' : env)
    (pg : page) (names : list str) :
  asks_generation request →
  get_saved_resumes (host s) = (Ret names, host s) →
  index request s = (Ret pg, s') →
  save_failures (stdout (host s')) = save_failures (stdout (host s)) →
  47 ∉ field (py "name") (form request) →
  contains suffix (normalized (field (py "name") (form request))) = false →
  reconstructed (field (py "name") (form request)) ∉ names →
  saved_resumes pg = names
  ∧ ∃ names',
      get_saved_resumes (host s') = (Ret names', host s')
      ∧ reconstructed (field (py "name") (form request)) ∈ names'.
Proof.
  intros Hask Hget Hrun Hquiet Hslash Hkey Hnew.
  set (name := field (py "name") (form request)) in *.
  destruct (index_generates_quiet _ _ _ _ Hask Hrun Hquiet)
    as (es & rt & af & cl & s3 & Hstat & -> & Hsame & Hsave & Hout).
  rewrite get_saved_resumes_cases, Hstat in Hget.
  fold (listing es) in Hget. split; [cbn; congruence|].
  rewrite <- (stat_same_files _ _ _ Hsame) in Hstat.
  destruct (quiet_save_store _ _ _ _ _ Hslash Hstat Hsave Hout)
    as [b Hstat'].
  rewrite get_saved_resumes_cases, Hstat'. eexists. split; [done|].
  apply elem_of_listing. exists (normalized name).
  rewrite lookup_insert_eq. split; [done|]. by rewrite recovered_stem.
Qed.

(** X20. When [index] has answered a request for generation whose form
    and whose three texts are Unicode text, and the save printed no
    failure, [load_resume_data] of the name (the form's, stripped)
    returns the record of the eight fields, stripped, and the three
    texts of the page. *)
Theorem index_saves_loadable_record (request : request) (s s' : env)
    (pg : page) (rt cl af : str) :
  asks_generation request →
  index request s = (Ret pg, s') →
  save_failures (stdout (host s')) = save_failures (stdout (host s)) →
  Forall (fun kv => valid_text kv.2) (form request) →
  resume_text pg = Some rt → valid_text rt →
  cover_letter_text pg = Some cl → valid_text cl →
  ats_feedback pg = Some af → valid_text af →
  load_resume_data (field (py "name") (form request)) (host s')
  = (Ret (record_of (form request) rt cl af), host s').
Proof.
  intros Hask Hrun Hquiet Hform Hrt Hvrt Hcl Hvcl Haf Hvaf.
  destruct (index_generates_quiet _ _ _ _ Hask Hrun Hquiet)
    as (es & rt' & af' & cl' & s3 & _ & -> & _ & Hsave & Hout).
  cbn in Hrt, Hcl, Haf. injection Hrt as ->. injection Hcl as ->.
  injection Haf as Haf. rewrite Haf in *. clear Haf af'.
  eapply load_after_write; [|exact (save_quiet _ _ _ _ Hsave Hout)].
  apply resume_record_serialisable.
  repeat (apply Forall_cons_2; [by apply field_valid|]).
  repeat (apply Forall_cons_2; [done|]). apply Forall_nil_2.
Qed.

(** X21. A request for generation whose name is blank is not turned
    away: [generate_resume] and [generate_cover_letter] return their
    messages about missing fields, the message of the first is sent to
    the service for an ATS analysis, that being the only prompt, and a
    record is saved in the file [_resume.json], which the store lists
    under the empty name from then on. *)
Theorem index_blank_name (request : request) (s s' : env) (pg : page)
    (es : gmap str node) :
  asks_generation request →
  field (py "name") (form request) = [] →
  index request s = (Ret pg, s') →
  Os.stat (host s) SAVE_DIR = Ret (Dir es) →
  ¬ is_dir (es !! suffix) →
  resume_text pg
  = Some (py "Error: Missing required fields for resume generation.")
  ∧ cover_letter_text pg
    = Some ([0x26A0; 0xFE0F]
            ++ py " Error: Missing required fields for cover letter generation.")
  ∧ sent s'
    = sent s
      ++ [(py "gemini-pro",
           ats_prompt
             (py "Error: Missing required fields for resume generation."))]
  ∧ ∃ es', Os.stat (host s') SAVE_DIR = Ret (Dir es')
      ∧ is_Some (es' !! py "_resume.json")
      ∧ [] ∈ listing es'.
Proof.
  intros Hask Hname Hrun Hstat Hnd.
  pose proof Hrun as Hrun'. revert Hrun'.
  rewrite index_generates by done.
  rewrite (get_saved_resumes_listing _ _ Hstat).
  set (fields := form request) in *.
  set (msg := py "Error: Missing required fields for resume generation.").
  assert (generate_resume (field (py "name") fields)
            (field (py "job_title") fields)
            (field (py "experience_summary") fields)
            (field (py "work_experience") fields)
            (field (py "education") fields)
            (field (py "certifications") fields)
            (field (py "skills") fields) s = (Ret msg, s)) as Hrt.
  { rewrite generate_resume_cases, Hname. done. }
  destruct (analyze_ats_score msg s) as [[af|e] s2] eqn:Haf.
  2:{ unfold generate_and_save. cbv zeta.
      fold (field (py "name") fields) (field (py "job_title") fields)
        (field (py "company") fields) (field (py "experience_summary") fields)
        (field (py "work_experience") fields) (field (py "education") fields)
        (field (py "certifications") fields) (field (py "skills") fields).
      unfold gbind at 1. rewrite Hrt. unfold gbind at 1. fold msg.
      by rewrite Haf. }
  assert (sent s2 = sent s ++ [(py "gemini-pro", ats_prompt msg)]
          ∧ same_files (host s) (host s2)) as [Hsent Hsame].
  { pose proof (analyze_ats_score_same_files msg s) as Hf.
    rewrite Haf in Hf. split; [|exact Hf].
    revert Haf. rewrite analyze_ats_score_cases. cbv zeta.
    destruct (generate_content_text _ _ _) as [t|e]; [by intros [= _ <-]|].
    destruct (issubclass _ _); by intros [= _ <-]. }
  assert (generate_cover_letter (field (py "name") fields)
            (field (py "job_title") fields) (field (py "company") fields)
            (field (py "experience_summary") fields)
            (field (py "skills") fields) s2
          = (Ret ([0x26A0; 0xFE0F]
                  ++ py " Error: Missing required fields for cover letter generation."),
             s2)) as Hcl.
  { rewrite generate_cover_letter_cases, Hname. done. }
  rewrite (generate_and_save_returns fields s s s2 s2 msg af _ Hrt Haf Hcl).
  intros Heq.
  assert (pg = render_template (py "index.html") (Some msg)
                 (Some ([0x26A0; 0xFE0F]
                        ++ py " Error: Missing required fields for cover letter generation."))
                 (Some (markdown af)) (listing es)) as -> by congruence.
  assert (s' = Env (save_resume_data (field (py "name") fields)
                      (record_of fields msg
                         ([0x26A0; 0xFE0F]
                          ++ py " Error: Missing required fields for cover letter generation.")
                         (markdown af)) (host s2)).2 (sent s2)) as ->
    by congruence.
  clear Heq. cbn [resume_text cover_letter_text sent host].
  split; [done|]. split; [done|]. split; [done|].
  destruct (save_of_index (field (py "name") fields) (host s) (host s2) es
              fields msg
              ([0x26A0; 0xFE0F]
               ++ py " Error: Missing required fields for cover letter generation.")
              (markdown af) Hsame Hstat)
    as (Hdir & _); [by rewrite Hname; intros ?%elem_of_nil..
                   |by rewrite Hname|].
  eexists. split; [exact Hdir|]. rewrite Hname.
  change (normalized [] ++ suffix) with suffix. fold suffix.
  rewrite lookup_insert_eq. split; [done|].
  apply elem_of_listing. exists []. cbn [app].
  rewrite lookup_insert_eq. split; [done|]. by rewrite recovered_suffix.
Qed.

End IndexSaves.

Section IndexFailure.
Context `{PyFloat} `{External}.

(** X22. When the service refuses every call with the same exception,
    one that [except Exception] catches, a request for generation with
    no required field empty is answered all the same: the page shows the
    fallback messages, the one for the cover letter ending in the text of
    the exception, and three prompts have been sent.  When the save
    printed no failure, three lines have been printed, and the record of
    these messages is in the file of the name, in place of whatever
    record was there. *)
Theorem index_saves_error_record (request : request) (s : env)
    (es : gmap str node) (e : exn) :
  asks_generation request →
  (∀ history model prompt,
     generate_content_text history model prompt = Raise e) →
  ordinary e →
  [] ∉ [field (py "name") (form request);
        field (py "job_title") (form request);
        field (py "company") (form request);
        field (py "experience_summary") (form request);
        field (py "work_experience") (form request);
        field (py "education") (form request);
        field (py "skills") (form request)] →
  Os.stat (host s) SAVE_DIR = Ret (Dir es) →
  let rt := [0x26A0; 0xFE0F]
            ++ py " Unable to generate resume due to an error." in
  let cl := [0x26A0; 0xFE0F]
            ++ py " Error generating cover letter content: " ++ exn_str e in
  let af := markdown ([0x26A0; 0xFE0F]
                      ++ py " Unable to analyze ATS compatibility.") in
  ∃ s',
    index request s
    = (Ret (render_template (py "index.html") (Some rt) (Some cl) (Some af)
              (listing es)), s')
    ∧ length (sent s') = (length (sent s) + 3)%nat
    ∧ (save_failures (stdout (host s')) = save_failures (stdout (host s)) →
       length (stdout (host s')) = (length (stdout (host s)) + 3)%nat
       ∧ Os.stat (host s')
           (resume_filename (field (py "name") (form request)))
         = Ret (File (Bytes
                        (json_text 0 (record_of (form request) rt cl af))))).
Proof.
  intros Hask Hdown Hord Hfields Hstat rt cl af.
  set (fields := form request) in *.
  unfold ordinary in Hord.
  assert (forallb truthy
            [field (py "name") fields; field (py "job_title") fields;
             field (py "experience_summary") fields;
             field (py "work_experience") fields;
             field (py "education") fields; field (py "skills") fields]
          = true) as Hreq1.
  { apply forallb_truthy_true. intros Hin. apply Hfields.
    repeat (apply elem_of_cons in Hin as [Hin|Hin];
            [rewrite <- Hin; repeat (first [apply list_elem_of_here
                                           |apply list_elem_of_further])|]).
    by apply elem_of_nil in Hin. }
  assert (forallb truthy
            [field (py "name") fields; field (py "job_title") fields;
             field (py "company") fields;
             field (py "experience_summary") fields;
             field (py "skills") fields]
          = true) as Hreq2.
  { apply forallb_truthy_true. intros Hin. apply Hfields.
    repeat (apply elem_of_cons in Hin as [Hin|Hin];
            [rewrite <- Hin; repeat (first [apply list_elem_of_here
                                           |apply list_elem_of_further])|]).
    by apply elem_of_nil in Hin. }
  set (out1 := stdout (host s)
               ++ [[Lit ([0x26A0; 0xFE0F] ++ py " Error generating resume: ");
                    StrOf e]]).
  set (sent1 := sent s
                ++ [(py "gemini-pro",
                     resume_prompt (field (py "name") fields)
                       (field (py "job_title") fields)
                       (field (py "experience_summary") fields)
                       (field (py "work_experience") fields)
                       (field (py "education") fields)
                       (field (py "certifications") fields)
                       (field (py "skills") fields))]).
  set (s1 := Env (World (root (host s)) (cwd (host s)) out1) sent1).
  set (out2 := out1
               ++ [[Lit ([0x26A0; 0xFE0F] ++ py " Error analyzing ATS score: ");
                    StrOf e]]).
  set (sent2 := sent1 ++ [(py "gemini-pro", ats_prompt rt)]).
  set (s2 := Env (World (root (host s)) (cwd (host s)) out2) sent2).
  set (out3 := out2
               ++ [[Lit ([0x274C] ++ py " Error generating cover letter: ");
                    StrOf e]]).
  set (sent3 := sent2
                ++ [(py "gemini-pro",
                     cover_letter_prompt (field (py "name") fields)
                       (field (py "job_title") fields)
                       (field (py "company") fields)
                       (field (py "experience_summary") fields)
                       (field (py "skills") fields))]).
  set (s3 := Env (World (root (host s)) (cwd (host s)) out3) sent3).
  assert (generate_resume (field (py "name") fields)
            (field (py "job_title") fields)
            (field (py "experience_summary") fields)
            (field (py "work_experience") fields)
            (field (py "education") fields)
            (field (py "certifications") fields)
            (field (py "skills") fields) s = (Ret rt, s1)) as Hrt.
  { rewrite generate_resume_cases, Hreq1. cbv zeta. by rewrite Hdown, Hord. }
  assert (analyze_ats_score rt s1 = (Ret ([0x26A0; 0xFE0F] ++ py " Unable to analyze ATS compatibility."), s2)) as Haf.
  { rewrite analyze_ats_score_cases. cbv zeta. by rewrite Hdown, Hord. }
  assert (generate_cover_letter (field (py "name") fields)
            (field (py "job_title") fields) (field (py "company") fields)
            (field (py "experience_summary") fields)
            (field (py "skills") fields) s2 = (Ret cl, s3)) as Hcl.
  { rewrite generate_cover_letter_cases, Hreq2. cbv zeta.
    by rewrite Hdown, Hord. }
  rewrite index_generates by done.
  rewrite (get_saved_resumes_listing _ _ Hstat).
  rewrite (generate_and_save_returns fields s _ _ _ _ _ _ Hrt Haf Hcl).
  fold af. eexists. split; [done|]. cbn [host sent].
  split.
  { unfold s3. cbn [sent]. unfold sent3, sent2, sent1.
    rewrite !length_app. cbn [length]. lia. }
  intros Hquiet.
  assert (save_failures out3 = save_failures (stdout (host s))) as Hcount.
  { unfold out3, out2, out1. by rewrite !save_failures_other. }
  rewrite <- Hcount in Hquiet. apply (save_counted _ _ (host s3)) in Hquiet.
  split.
  - rewrite Hquiet. unfold s3. cbn [host stdout]. unfold out3, out2, out1.
    rewrite !length_app. cbn [length]. lia.
  - pose proof (save_returns (field (py "name") fields)
                  (record_of fields rt cl af) (host s3)) as Hret.
    destruct (save_resume_data _ _ (host s3)) as [r w'] eqn:Hsave.
    simpl in Hret, Hquiet |- *. subst r.
    by apply (quiet_save_writes_record _ (host s3)).
Qed.

End IndexFailure.

Lemma index_without_generation_witness :
  index (Request (py "GET") []) (Env corrupt_world [])
  = (Ret (render_template (py "index.html") None None None [py "x"]),
     Env corrupt_world []).
Proof.
  etrans;
    [apply (index_without_generation (Request (py "GET") [])
              (Env corrupt_world []))
    |vm_compute; reflexivity].
  intros [Hmethod _]. discriminate Hmethod.
Defined.

Lemma index_needs_store_witness :
  index (Request (py "POST") full_form) (Env (World (Dir ∅) [] []) [])
  = (Raise (Exn FileNotFoundError (py "saves")), Env (World (Dir ∅) [] []) []).
Proof.
  apply (proj1 (index_needs_store (Request (py "POST") full_form)
                  (Env (World (Dir ∅) [] []) []))).
  vm_compute. reflexivity.
Defined.

Lemma index_returns_page_witness :
  ∃ pg s',
    index (Request (py "POST") full_form) (Env fresh_world []) = (Ret pg, s')
    ∧ template_name pg = py "index.html"
    ∧ saved_resumes pg = listing ∅.
Proof.
  apply (index_returns_page (Request (py "POST") full_form)
           (Env fresh_world []) ∅).
  - exact scripted_service_fails_ordinarily.
  - vm_compute. reflexivity.
Defined.

Lemma index_page_misses_new_record_witness :
  ∃ pg s' names',
    index (Request (py "POST") full_form) (Env fresh_world []) = (Ret pg, s')
    ∧ saved_resumes pg = []
    ∧ get_saved_resumes (host s') = (Ret names', host s')
    ∧ py "Jane Doe" ∈ names'.
Proof.
  pose (run := index (Request (py "POST") full_form) (Env fresh_world [])).
  assert (∃ pg, run = (Ret pg, run.2)) as [pg Hrun]
    by (eexists; vm_compute; reflexivity).
  destruct (index_page_misses_new_record (Request (py "POST") full_form)
              (Env fresh_world []) run.2 pg [])
    as (Hpage & names' & Hget & Hin).
  - split; [reflexivity|]. apply (bool_decide_unpack _). vm_compute.
    reflexivity.
  - vm_compute. reflexivity.
  - exact Hrun.
  - vm_compute. reflexivity.
  - apply (bool_decide_unpack _). vm_compute. reflexivity.
  - vm_compute. reflexivity.
  - apply (bool_decide_unpack _). vm_compute. reflexivity.
  - exists pg, run.2, names'. split; [exact Hrun|]. split; [exact Hpage|].
    split; [exact Hget|exact Hin].
Defined.

Lemma index_saves_loadable_record_witness :
  ∃ s',
    index (Request (py "POST") full_form) (Env fresh_world [])
    = (Ret (render_template (py "index.html")
              (Some (py "**Summary**" ++ [10] ++ py "- Python"))
              (Some (py "Dear team"))
              (Some (py "<p>" ++ [0x26A0; 0xFE0F]
                     ++ py " Unable to analyze ATS compatibility.</p>"))
              []), s')
    ∧ load_resume_data (py "Jane Doe") (host s')
      = (Ret (resume_record (py "Jane Doe") (py "Engineer") (py "ACME")
                (py "Ten years") (py "ACME") (py "BSc") [] (py "Python")
                (py "**Summary**" ++ [10] ++ py "- Python") (py "Dear team")
                (py "<p>" ++ [0x26A0; 0xFE0F]
                 ++ py " Unable to analyze ATS compatibility.</p>")),
         host s').
Proof.
  pose (s' := (index (Request (py "POST") full_form) (Env fresh_world [])).2).
  exists s'.
  assert (index (Request (py "POST") full_form) (Env fresh_world [])
          = (Ret (render_template (py "index.html")
                    (Some (py "**Summary**" ++ [10] ++ py "- Python"))
                    (Some (py "Dear team"))
                    (Some (py "<p>" ++ [0x26A0; 0xFE0F]
                           ++ py " Unable to analyze ATS compatibility.</p>"))
                    []), s')) as Hrun by (vm_compute; reflexivity).
  split; [exact Hrun|].
  assert (asks_generation (Request (py "POST") full_form)) as Hask.
  { split; [reflexivity|]. apply (bool_decide_unpack _). vm_compute.
    reflexivity. }
  apply (index_saves_loadable_record (Request (py "POST") full_form)
           (Env fresh_world []) s' _ _ _ _ Hask Hrun).
  - vm_compute. reflexivity.
  - repeat (apply Forall_cons_2; [vm_compute; reflexivity|]).
    apply Forall_nil_2.
  - reflexivity.
  - vm_compute. reflexivity.
  - reflexivity.
  - vm_compute. reflexivity.
  - reflexivity.
  - vm_compute. reflexivity.
Defined.

Lemma index_blank_name_witness :
  ∃ pg s',
    index (Request (py "POST") nameless_form) (Env fresh_world []) = (Ret pg, s')
    ∧ resume_text pg
      = Some (py "Error: Missing required fields for resume generation.")
    ∧ sent s'
      = [(py "gemini-pro",
          ats_prompt
            (py "Error: Missing required fields for resume generation."))]
    ∧ ∃ es', Os.stat (host s') SAVE_DIR = Ret (Dir es')
        ∧ is_Some (es' !! py "_resume.json")
        ∧ [] ∈ listing es'.
Proof.
  pose (run := index (Request (py "POST") nameless_form) (Env fresh_world [])).
  assert (∃ pg, run = (Ret pg, run.2)) as [pg Hrun]
    by (eexists; vm_compute; reflexivity).
  exists pg, run.2. split; [exact Hrun|].
  destruct (index_blank_name (Request (py "POST") nameless_form)
              (Env fresh_world []) run.2 pg ∅) as (Hrt & _ & Hsent & Hstore).
  - split; [reflexivity|]. apply (bool_decide_unpack _). vm_compute.
    reflexivity.
  - vm_compute. reflexivity.
  - exact Hrun.
  - vm_compute. reflexivity.
  - vm_compute. tauto.
  - split; [exact Hrt|]. split; [exact Hsent|exact Hstore].
Defined.

Lemma index_saves_error_record_witness :
  Os.stat stored_world (resume_filename (py "Jane Doe"))
  = Ret (File (Bytes (py "{}")))
  ∧ ∃ s',
      @index literal_float service_down (Request (py "POST") full_form)
        (Env stored_world [])
      = (Ret (render_template (py "index.html")
                (Some ([0x26A0; 0xFE0F]
                       ++ py " Unable to generate resume due to an error."))
                (Some ([0x26A0; 0xFE0F]
                       ++ py " Error generating cover letter content: "
                       ++ py "503 service unavailable"))
                (Some (py "<p>" ++ [0x26A0; 0xFE0F]
                       ++ py " Unable to analyze ATS compatibility.</p>"))
                [py "Jane Doe"]), s')
      ∧ length (sent s') = 3%nat
      ∧ length (stdout (host s')) = 3%nat
      ∧ Os.stat (host s') (resume_filename (py "Jane Doe"))
        = Ret (File (Bytes
                       (json_text 0
                          (resume_record (py "Jane Doe") (py "Engineer")
                             (py "ACME") (py "Ten years") (py "ACME")
                             (py "BSc") [] (py "Python")
                             ([0x26A0; 0xFE0F]
                              ++ py " Unable to generate resume due to an error.")
                             ([0x26A0; 0xFE0F]
                              ++ py " Error generating cover letter content: "
                              ++ py "503 service unavailable")
                             (py "<p>" ++ [0x26A0; 0xFE0F]
                              ++ py " Unable to analyze ATS compatibility.</p>"))))).
Proof.
  split; [vm_compute; reflexivity|].
  pose (run := @index literal_float service_down
                 (Request (py "POST") full_form) (Env stored_world [])).
  destruct (@index_saves_error_record literal_float service_down
              (Request (py "POST") full_form) (Env stored_world [])
              {[ py "Jane_Doe_resume.json" := File (Bytes (py "{}")) ]}
              (Exn Exception (py "503 service unavailable")))
    as (s' & Hrun & Hsent & Hquiet).
  - split; [reflexivity|]. apply (bool_decide_unpack _). vm_compute.
    reflexivity.
  - reflexivity.
  - reflexivity.
  - apply (bool_decide_unpack _). vm_compute. reflexivity.
  - vm_compute. reflexivity.
  - assert (s' = run.2) as Hs' by exact (eq_sym (f_equal snd Hrun)).
    rewrite Hs' in Hrun, Hsent, Hquiet.
    destruct Hquiet as [Hout Hfile]; [vm_compute; reflexivity|].
    exists run.2. split; [exact Hrun|]. split; [exact Hsent|].
    split; [exact Hout|exact Hfile].
Defined.

Section IndexFrame.
Context `{PyFloat} `{External}.

(** What the generating branch of [index] does to the files, whatever
    its outcome: nothing, or the save of a record under the form's
    name. *)
Lemma generate_and_save_effect (fields : list (str * str)) (s s' : env)
    (r : result (option str * option str * option str)) :
  generate_and_save fields s = (r, s') →
  same_files (host s) (host s')
  ∨ ∃ w3 obj,
      same_files (host s) w3
      ∧ host s' = (save_resume_data (field (py "name") fields) obj w3).2.
Proof.
  intros Hrun. destruct r as [texts|e].
  { apply generate_and_save_inv in Hrun as (rt & af & cl & s3 & _ & Hsame & ->).
    right. by eexists _, _. }
  left. revert Hrun. unfold generate_and_save. cbv zeta.
  fold (field (py "name") fields) (field (py "job_title") fields)
    (field (py "company") fields) (field (py "experience_summary") fields)
    (field (py "work_experience") fields) (field (py "education") fields)
    (field (py "certifications") fields) (field (py "skills") fields).
  pose proof (generate_resume_same_files (field (py "name") fields)
                (field (py "job_title") fields)
                (field (py "experience_summary") fields)
                (field (py "work_experience") fields)
                (field (py "education") fields)
                (field (py "certifications") fields)
                (field (py "skills") fields) s) as Hf1.
  unfold gbind at 1.
  destruct (generate_resume _ _ _ _ _ _ _ s) as [[rt|e1] s1];
    [|by intros [= _ <-]].
  pose proof (analyze_ats_score_same_files rt s1) as Hf2.
  unfold gbind at 1.
  destruct (analyze_ats_score rt s1) as [[af|e2] s2];
    [|intros [= _ <-]; by eapply same_files_trans].
  pose proof (generate_cover_letter_same_files (field (py "name") fields)
                (field (py "job_title") fields) (field (py "company") fields)
                (field (py "experience_summary") fields)
                (field (py "skills") fields) s2) as Hf3.
  unfold gbind at 1.
  destruct (generate_cover_letter _ _ _ _ _ s2) as [[cl|e3] s3].
  - unfold gbind, lift, gret.
    match goal with
    | |- context [save_resume_data ?n ?o ?w] =>
        pose proof (save_returns n o w) as Hsave;
          destruct (save_resume_data n o w) as [rs w']
    end.
    simpl in Hsave. by subst rs.
  - intros [= _ <-]. simpl in *.
    eapply same_files_trans; [exact Hf1|].
    eapply same_files_trans; [exact Hf2|exact Hf3].
Qed.

(** X28. With a store directory and a name (the form's, stripped)
    without a slash, [index] leaves the working directory where it is
    and the store directory a directory, and changes no entry of the
    store but the file of that name, whatever the request is and
    whatever the outcome: no other record is altered or removed. *)
Theorem index_keeps_other_records (request : request) (s s' : env)
    (r : result page) (es : gmap str node) :
  Os.stat (host s) SAVE_DIR = Ret (Dir es) →
  47 ∉ field (py "name") (form request) →
  index request s = (r, s') →
  cwd (host s') = cwd (host s)
  ∧ ∃ es', Os.stat (host s') SAVE_DIR = Ret (Dir es')
      ∧ ∀ file,
          file ≠ normalized (field (py "name") (form request)) ++ suffix →
          es' !! file = es !! file.
Proof.
  intros Hstat Hslash.
  pose proof (get_saved_resumes_listing _ _ Hstat) as Hlist.
  destruct (decide (method request = py "POST")) as [Hm|Hm];
    [destruct (decide (py "generate_resume_btn" ∈ (form request).*1))
       as [Hb|Hb]|].
  - rewrite index_generates, Hlist by done.
    destruct (generate_and_save (form request) s) as [r1 s1] eqn:Hrun.
    assert (cwd (host s1) = cwd (host s)
            ∧ ∃ es', Os.stat (host s1) SAVE_DIR = Ret (Dir es')
                ∧ ∀ file,
                    file ≠ normalized (field (py "name") (form request))
                           ++ suffix →
                    es' !! file = es !! file) as Hs1.
    { apply generate_and_save_effect in Hrun
        as [Hsame|(w3 & obj & Hsame & ->)].
      - split; [apply Hsame|]. exists es.
        by rewrite (stat_same_files _ _ _ Hsame).
      - rewrite <- (stat_same_files _ _ _ Hsame) in Hstat.
        pose proof (save_returns (field (py "name") (form request)) obj w3)
          as Hret.
        destruct (save_resume_data _ obj w3) as [rs w'] eqn:Hsave.
        simpl in Hret. subst rs.
        destruct (save_store_effect _ _ _ _ _ Hslash Hstat Hsave)
          as (Hcwd & es' & Hstat' & Hkeep).
        split; [|by exists es'].
        cbn [snd]. rewrite Hcwd. apply Hsame. }
    destruct r1 as [[[rt cl] af]|e]; by intros [= _ <-].
  - rewrite index_plain, Hlist by (by intros [_ ?]).
    intros [= _ <-]. split; [done|]. by exists es.
  - rewrite index_plain, Hlist by (by intros [? _]).
    intros [= _ <-]. split; [done|]. by exists es.
Qed.

End IndexFrame.

Lemma index_keeps_other_records_witness :
  ∃ r s',
    index (Request (py "POST") full_form) (Env corrupt_world []) = (r, s')
    ∧ cwd (host s') = cwd corrupt_world
    ∧ ∃ es', Os.stat (host s') SAVE_DIR = Ret (Dir es')
        ∧ es' !! py "x_resume.json" = Some (File (Bytes [0xFF])).
Proof.
  pose (run := index (Request (py "POST") full_form) (Env corrupt_world [])).
  exists run.1, run.2.
  assert (run = (run.1, run.2)) as Hrun by (vm_compute; reflexivity).
  split; [exact Hrun|].
  destruct (index_keeps_other_records (Request (py "POST") full_form)
              (Env corrupt_world []) run.2 run.1
              {[ py "x_resume.json" := File (Bytes [0xFF]) ]})
    as (Hcwd & es' & Hstat & Hkeep).
  - vm_compute. reflexivity.
  - apply (bool_decide_unpack _). vm_compute. reflexivity.
  - exact Hrun.
  - split; [exact Hcwd|]. exists es'. split; [exact Hstat|].
    rewrite Hkeep; [reflexivity|]. vm_compute. discriminate.
Defined.

(** ** Start-up *)

(** Where [saves] resolves to: the entry of that name in the working
    directory, which must be a directory. *)
Lemma resolve_store (w : world) :
  Os.resolve w SAVE_DIR
  = match Os.lookup (root w) (cwd w) with
    | Some (Dir _) => Ret (cwd w ++ [SAVE_DIR])
    | Some (File _) => Raise (Exn NotADirectoryError SAVE_DIR)
    | None => Raise (Exn FileNotFoundError SAVE_DIR)
    end.
Proof.
  unfold Os.resolve.
  change (bool_decide (0 ∈ SAVE_DIR)) with false.
  change (negb (truthy SAVE_DIR)) with false.
  change (startswith OsPath.sep SAVE_DIR) with false.
  change (split OsPath.sep SAVE_DIR) with [SAVE_DIR]. cbv iota.
  cbn [Os.walk].
  by destruct (Os.lookup (root w) (cwd w)) as [[c|es']|].
Qed.

(** [os.makedirs("saves", exist_ok=True)], case by case: a directory
    there is left alone; anything else there is an error; with nothing
    there an empty directory is made in the working directory. *)
Lemma makedirs_store_cases (w : world) :
  OsDirs.makedirs SAVE_DIR true w
  = match Os.lookup (root w) (cwd w) with
    | Some (Dir _) =>
        match Os.lookup (root w) (cwd w ++ [SAVE_DIR]) with
        | Some (Dir _) => (Ret tt, w)
        | Some (File _) => (Raise (Exn OSError SAVE_DIR), w)
        | None =>
            (Ret tt,
             World (Os.write_at (cwd w ++ [SAVE_DIR]) (Dir ∅) (root w))
               (cwd w) (stdout w))
        end
    | Some (File _) => (Raise (Exn NotADirectoryError SAVE_DIR), w)
    | None => (Raise (Exn FileNotFoundError SAVE_DIR), w)
    end.
Proof.
  unfold OsDirs.makedirs, try_except, OsDirs.mkdir, bind, OsDirs.isdir,
    Os.stat.
  rewrite resolve_store.
  destruct (Os.lookup (root w) (cwd w)) as [[c|es']|] eqn:Hcwd;
    cbn [exn_cls]; rewrite ?resolve_store, ?Hcwd; [done| |done].
  destruct (Os.lookup (root w) (cwd w ++ [SAVE_DIR])) as [[c|es]|] eqn:Hstore;
    cbn [exn_cls]; rewrite ?resolve_store, ?Hcwd, ?Hstore; done.
Qed.

Lemma stat_store (w : world) :
  Os.stat w SAVE_DIR
  = match Os.lookup (root w) (cwd w) with
    | Some (Dir _) =>
        match Os.lookup (root w) (cwd w ++ [SAVE_DIR]) with
        | Some n => Ret n
        | None => Raise (Exn FileNotFoundError SAVE_DIR)
        end
    | Some (File _) => Raise (Exn NotADirectoryError SAVE_DIR)
    | None => Raise (Exn FileNotFoundError SAVE_DIR)
    end.
Proof.
  unfold Os.stat. rewrite resolve_store.
  by destruct (Os.lookup (root w) (cwd w)) as [[c|es']|].
Qed.

(** The start-up, when the API key is there. *)
Lemma startup_with_key (environ : gmap str str) (key : str) (w : world) :
  environ !! py "GOOGLE_API_KEY" = Some key → key ≠ [] →
  startup environ w
  = match OsDirs.makedirs SAVE_DIR true w with
    | (Ret _, w') =>
        (Ret (Config
                (default (py "supersecretkey12345")
                   (environ !! py "FLASK_SECRET_KEY"))
                false key), w')
    | (Raise e, w') => (Raise e, w')
    end.
Proof.
  intros Hkey Hne. unfold startup, getenv. cbv zeta. rewrite Hkey.
  destruct key as [|c key]; [done|]. cbn [truthy negb]. cbv iota.
  unfold bind, ret. destruct (OsDirs.makedirs SAVE_DIR true w) as [[[]|e] w'];
    [|done].
  by destruct (environ !! py "FLASK_SECRET_KEY").
Qed.

(** The start-up, when the API key is missing or empty. *)
Lemma startup_without_key (environ : gmap str str) (w : world) :
  environ !! py "GOOGLE_API_KEY" = None
  ∨ environ !! py "GOOGLE_API_KEY" = Some [] →
  startup environ w
  = (Raise (Exn ValueError
              (py "Missing Google Gemini API Key! Set GOOGLE_API_KEY as an environment variable.")),
     w).
Proof.
  intros Hkey. unfold startup, getenv. cbv zeta.
  by destruct Hkey as [-> | ->].
Qed.

Section Startup.
Context `{PyFloat}.

(** X23. Without the environment variable [GOOGLE_API_KEY], or with an
    empty one, the start-up stops with [ValueError] before the store
    directory is made.  A start-up that fails leaves the world as it
    was, and it fails with a [ValueError] only when the key is missing
    or empty. *)
Theorem startup_requires_api_key (environ : gmap str str) (w : world) :
  (environ !! py "GOOGLE_API_KEY" = None
   ∨ environ !! py "GOOGLE_API_KEY" = Some [] →
   startup environ w
   = (Raise (Exn ValueError
               (py "Missing Google Gemini API Key! Set GOOGLE_API_KEY as an environment variable.")),
      w))
  ∧ (∀ e w',
       startup environ w = (Raise e, w') →
       w' = w
       ∧ (exn_cls e = ValueError →
          environ !! py "GOOGLE_API_KEY" = None
          ∨ environ !! py "GOOGLE_API_KEY" = Some [])).
Proof.
  split; [apply startup_without_key|]. intros e w'.
  destruct (environ !! py "GOOGLE_API_KEY") as [key|] eqn:Hkey.
  2:{ rewrite startup_without_key by by left. intros [= <- <-]. by split; [|left]. }
  destruct (decide (key = [])) as [->|Hne].
  { rewrite startup_without_key by by right. intros [= <- <-].
    by split; [|right]. }
  rewrite (startup_with_key environ key w Hkey Hne), makedirs_store_cases.
  destruct (Os.lookup (root w) (cwd w)) as [[c|es0]|];
    [by intros [= <- <-]| |by intros [= <- <-]].
  destruct (Os.lookup (root w) (cwd w ++ [SAVE_DIR])) as [[c|es]|]; [|done..].
  by intros [= <- <-].
Qed.

(** X24. A start-up that returns leaves a store directory behind, so
    that [get_saved_resumes] returns its listing; the API key it keeps is
    not empty, and sessions are not permanent. *)
Theorem startup_provides_store (environ : gmap str str) (w w' : world)
    (cfg : config) :
  startup environ w = (Ret cfg, w') →
  (∃ es, Os.stat w' SAVE_DIR = Ret (Dir es)
         ∧ get_saved_resumes w' = (Ret (listing es), w'))
  ∧ API_KEY cfg ≠ []
  ∧ environ !! py "GOOGLE_API_KEY" = Some (API_KEY cfg)
  ∧ SESSION_PERMANENT cfg = false.
Proof.
  destruct (environ !! py "GOOGLE_API_KEY") as [key|] eqn:Hkey.
  2:{ rewrite startup_without_key by by left. done. }
  destruct (decide (key = [])) as [->|Hne].
  { rewrite startup_without_key by by right. done. }
  rewrite (startup_with_key environ key w Hkey Hne), makedirs_store_cases.
  destruct (Os.lookup (root w) (cwd w)) as [[c|es0]|] eqn:Hcwd; [done| |done].
  destruct (Os.lookup (root w) (cwd w ++ [SAVE_DIR])) as [[c|es]|] eqn:Hstore;
    [done| |]; intros [= <- <-]; cbn [API_KEY SESSION_PERMANENT];
    (split; [|done]).
  - exists es. assert (Os.stat w SAVE_DIR = Ret (Dir es)) as Hstat
      by by rewrite stat_store, Hcwd, Hstore.
    by rewrite get_saved_resumes_cases, Hstat.
  - exists ∅.
    assert (Os.stat (World (Os.write_at (cwd w ++ [SAVE_DIR]) (Dir ∅) (root w))
                       (cwd w) (stdout w)) SAVE_DIR = Ret (Dir ∅)) as Hstat.
    { rewrite stat_store. cbn [root cwd].
      rewrite (lookup_write_at_parent _ _ _ _ es0) by done.
      rewrite lookup_write_at_new; [done|]. by rewrite Hcwd. }
    by rewrite get_saved_resumes_cases, Hstat.
Qed.

(** X25. With an API key, a start-up in a world that has a store
    directory returns and changes nothing: the records saved earlier
    stay.  The secret key it keeps is that of [FLASK_SECRET_KEY], or,
    without that variable, the constant of the program's text. *)
Theorem startup_keeps_store (environ : gmap str str) (key : str) (w : world)
    (es : gmap str node) :
  environ !! py "GOOGLE_API_KEY" = Some key → key ≠ [] →
  Os.stat w SAVE_DIR = Ret (Dir es) →
  startup environ w
  = (Ret (Config
            (default (py "supersecretkey12345")
               (environ !! py "FLASK_SECRET_KEY"))
            false key), w).
Proof.
  intros Hkey Hne Hstat.
  rewrite (startup_with_key environ key w Hkey Hne), makedirs_store_cases.
  rewrite stat_store in Hstat.
  destruct (Os.lookup (root w) (cwd w)) as [[c|es0]|]; [done| |done].
  destruct (Os.lookup (root w) (cwd w ++ [SAVE_DIR])) as [[c|es']|]; done.
Qed.

(** X26. With an API key, in a working directory that has no entry
    [saves], the start-up makes the store directory, empty, and changes
    no other entry of the working directory; where a regular file has
    that name it fails with an [OSError] and changes nothing. *)
Theorem startup_makes_store (environ : gmap str str) (key : str) (w : world)
    (entries : gmap str node) :
  environ !! py "GOOGLE_API_KEY" = Some key → key ≠ [] →
  Os.lookup (root w) (cwd w) = Some (Dir entries) →
  (entries !! SAVE_DIR = None →
   ∃ cfg w',
     startup environ w = (Ret cfg, w')
     ∧ Os.stat w' SAVE_DIR = Ret (Dir ∅)
     ∧ Os.lookup (root w') (cwd w') = Some (Dir (<[SAVE_DIR := Dir ∅]> entries)))
  ∧ (∀ c, entries !! SAVE_DIR = Some (File c) →
          ∃ e, startup environ w = (Raise e, w)
               ∧ issubclass (exn_cls e) OSError = true).
Proof.
  intros Hkey Hne Hcwd.
  rewrite (startup_with_key environ key w Hkey Hne), makedirs_store_cases.
  rewrite Hcwd, lookup_app, Hcwd. cbn [Os.lookup]. split.
  - intros ->. eexists _, _. split; [done|]. cbn [root cwd].
    rewrite stat_store. cbn [root cwd].
    rewrite (lookup_write_at_parent _ _ _ _ entries) by done.
    rewrite lookup_write_at_new; [done|]. by rewrite Hcwd.
  - intros c ->. by eexists.
Qed.

End Startup.

Lemma startup_requires_api_key_witness :
  startup {[ py "FLASK_SECRET_KEY" := py "s3cret" ]}
    (World (Dir {[ py "app" := Dir ∅ ]}) [py "app"] [])
  = (Raise (Exn ValueError
              (py "Missing Google Gemini API Key! Set GOOGLE_API_KEY as an environment variable.")),
     World (Dir {[ py "app" := Dir ∅ ]}) [py "app"] []).
Proof.
  apply (proj1 (startup_requires_api_key
                  {[ py "FLASK_SECRET_KEY" := py "s3cret" ]}
                  (World (Dir {[ py "app" := Dir ∅ ]}) [py "app"] []))).
  left. vm_compute. reflexivity.
Defined.

Lemma startup_provides_store_witness :
  ∃ cfg w',
    startup {[ py "GOOGLE_API_KEY" := py "k" ]}
      (World (Dir {[ py "app" := Dir ∅ ]}) [py "app"] [])
    = (Ret cfg, w')
    ∧ (∃ es, Os.stat w' SAVE_DIR = Ret (Dir es)
             ∧ get_saved_resumes w' = (Ret (listing es), w'))
    ∧ API_KEY cfg ≠ []
    ∧ ({[ py "GOOGLE_API_KEY" := py "k" ]} : gmap str str)
      !! py "GOOGLE_API_KEY" = Some (API_KEY cfg)
    ∧ SESSION_PERMANENT cfg = false.
Proof.
  pose (run := startup {[ py "GOOGLE_API_KEY" := py "k" ]}
                 (World (Dir {[ py "app" := Dir ∅ ]}) [py "app"] [])).
  exists (Config (py "supersecretkey12345") false (py "k")), run.2.
  assert (run = (Ret (Config (py "supersecretkey12345") false (py "k")), run.2))
    as Hrun by (vm_compute; reflexivity).
  split; [exact Hrun|].
  exact (startup_provides_store _ _ _ _ Hrun).
Defined.

Lemma startup_keeps_store_witness :
  startup {[ py "GOOGLE_API_KEY" := py "k" ]} corrupt_world
  = (Ret (Config (py "supersecretkey12345") false (py "k")), corrupt_world).
Proof.
  etrans;
    [apply (startup_keeps_store {[ py "GOOGLE_API_KEY" := py "k" ]} (py "k")
              corrupt_world {[ py "x_resume.json" := File (Bytes [0xFF]) ]})
    |vm_compute; reflexivity].
  - vm_compute. reflexivity.
  - discriminate.
  - vm_compute. reflexivity.
Defined.

Lemma startup_makes_store_witness :
  ∃ cfg w',
    startup {[ py "GOOGLE_API_KEY" := py "k" ]}
      (World (Dir {[ py "app" := Dir {[ py "app.py" := app_py ]} ]})
         [py "app"] [])
    = (Ret cfg, w')
    ∧ Os.stat w' SAVE_DIR = Ret (Dir ∅)
    ∧ Os.lookup (root w') (cwd w')
      = Some (Dir (<[SAVE_DIR := Dir ∅]> {[ py "app.py" := app_py ]})).
Proof.
  destruct (startup_makes_store
              ({[ py "GOOGLE_API_KEY" := py "k" ]} : gmap str str) (py "k")
              (World (Dir {[ py "app" := Dir {[ py "app.py" := app_py ]} ]})
                 [py "app"] [])
              {[ py "app.py" := app_py ]}) as [Hmake _].
  - vm_compute. reflexivity.
  - discriminate.
  - vm_compute. reflexivity.
  - apply Hmake. vm_compute. reflexivity.
Defined.
